(** * Konwerter obrazow do formatu WebP: a shallow embedding of [konwerter.py]

    The script lists the folder [do przerobienia], keeps the regular files
    with a known extension, re-encodes each one as WebP into the folder
    [przerobione] and prints size statistics.

    Modelling choices.
    - The file system is a finite map from paths (lists of components, as
      [pathlib.PurePath.parts]) to nodes.  Symbolic and hard links are not
      modelled.
    - Pillow is a black box: the class [Pillow] gives the outcome of
      [Image.open], [Image.convert] and [Image.save] on file contents.
    - Python statements run in a state-and-exception monad [M]: the state
      is the file system and the console, an exception aborts the
      computation until a matching [except] clause.
    - Python floats are idealised as exact rationals [Q]; true division
      raises [ZeroDivisionError] on a zero divisor as in Python.
    - Console lines are kept as structured values ([Line]), not as
      formatted text.
    - The permissions of directories are given by the class [Access]; they
      do not change during a run.  [Path.is_file] is modelled as in CPython
      up to 3.12, where a permission error of [stat()] is not swallowed.
      [Access] governs the reading of the input folder only: the loop asks
      [stat()] of files that [is_file] has just reached with the same
      system call, or that [Image.save] has just written, and writing into
      the output folder is taken to be permitted.
    - [print] always succeeds: the console stays open during a run. *)

From Stdlib Require Import QArith ZArith Ascii String List Lia.
From stdpp Require Import gmap strings list fin_maps.

Local Open Scope string_scope.
Local Open Scope Z_scope.
Local Open Scope list_scope.

(** ** Strings: the parts of [str] and [pathlib] the script uses *)

Module PyStr.

(** [s.rfind(c)]: the highest index of [c] in [s], or [-1]. *)
Fixpoint rfind (c : ascii) (s : string) : Z :=
  match s with
  | EmptyString => -1
  | String a r =>
      let i := rfind c r in
      if 0 <=? i then i + 1 else if Ascii.eqb a c then 0 else -1
  end.

(** [s[:n]] and [s[n:]] for a natural [n]. *)
Fixpoint take (n : nat) (s : string) : string :=
  match n, s with
  | S k, String a r => String a (take k r)
  | _, _ => EmptyString
  end.

Fixpoint drop (n : nat) (s : string) : string :=
  match n, s with
  | S k, String _ r => drop k r
  | _, _ => s
  end.

Definition len (s : string) : Z := Z.of_nat (String.length s).

(** [c.lower()] on the ASCII range; bytes of 128 and above (the UTF-8
    encoding of other characters) are left as they are. *)
Definition lower_ascii (c : ascii) : ascii :=
  let n := nat_of_ascii c in
  if ((65 <=? n) && (n <=? 90))%nat then ascii_of_nat (n + 32) else c.

Fixpoint lower (s : string) : string :=
  match s with
  | EmptyString => EmptyString
  | String a r => String (lower_ascii a) (lower r)
  end.

End PyStr.

(** ** Paths *)

Abbreviation Path := (list string).

Module PyPath.

(** Splits a path into its parent and its final component. *)
Fixpoint split_last (p : Path) : option (Path * string) :=
  match p with
  | [] => None
  | x :: r =>
      match r with
      | [] => Some ([], x)
      | _ :: _ =>
          match split_last r with
          | Some (d, n) => Some (x :: d, n)
          | None => None
          end
      end
  end.

(** [p.name] *)
Definition name (p : Path) : string :=
  match split_last p with
  | Some (_, n) => n
  | None => ""
  end.

(** [p.parent] *)
Definition parent (p : Path) : Path :=
  match split_last p with
  | Some (d, _) => d
  | None => p
  end.

(** [p / child] *)
Definition join (p : Path) (child : string) : Path := p ++ [child].

(** [PurePath.suffix] of a final component: the part from the last dot,
    when that dot is neither the first nor the last character. *)
Definition suffix_of (nm : string) : string :=
  let i := PyStr.rfind "." nm in
  if (0 <? i) && (i <? PyStr.len nm - 1)
  then PyStr.drop (Z.to_nat i) nm
  else "".

(** [PurePath.stem] of a final component. *)
Definition stem_of (nm : string) : string :=
  let i := PyStr.rfind "." nm in
  if (0 <? i) && (i <? PyStr.len nm - 1)
  then PyStr.take (Z.to_nat i) nm
  else nm.

Definition suffix (p : Path) : string := suffix_of (name p).
Definition stem (p : Path) : string := stem_of (name p).

End PyPath.

(** ** File system, console and exceptions *)

Abbreviation bytes := (list Byte.byte).

Inductive Node : Type :=
| File (data : bytes)
| Dir.

(** Exceptions: every class derived from [Exception], with its class name
    and its [str()], and [SystemExit], which [except Exception] lets
    through. *)
Inductive Exn : Type :=
| Exception (cls : string) (msg : string)
| SystemExit (code : Z).

Definition is_Exception (e : Exn) : bool :=
  match e with
  | Exception _ _ => true
  | SystemExit _ => false
  end.

Definition is_ImportError (e : Exn) : bool :=
  match e with
  | Exception cls _ =>
      bool_decide (cls = "ImportError") || bool_decide (cls = "ModuleNotFoundError")
  | SystemExit _ => false
  end.

(** [str(e)] *)
Definition exn_str (e : Exn) : string :=
  match e with
  | Exception _ msg => msg
  | SystemExit code => ""
  end.

(** What the script prints, one constructor per [print] call. *)
Inductive Line : Type :=
| LPillowMissing
| LPillowInstallHint
| LRule
| LTitle
| LInputFolder (p : Path)
| LOutputFolder (p : Path)
| LHeicWarning (count : nat)
| LHeicInstallHint
| LNoImages (p : Path)
| LSupportedFormats (formats : gset string)
| LFound (count : nat)
| LConverting (i total : nat) (name : string)
| LConvError (name : string) (msg : string)
| LConverted (input_size output_size reduction : Q)
| LNewline
| LSummaryTitle
| LSummaryCount (success_count total : nat)
| LSummaryInput (total_input_size : Q)
| LSummaryOutput (total_output_size : Q)
| LSummarySaving (saved reduction : Q)
| LSavedIn (p : Path).

Record World : Type := mkWorld {
  fs : gmap Path Node;
  stdout : list Line
}.

Inductive Res (A : Type) : Type :=
| Ok (a : A)
| Raise (e : Exn).
Arguments Ok {A} a.
Arguments Raise {A} e.

(** ** The monad of Python statements *)

Definition M (A : Type) : Type := World -> Res A * World.

#[global] Instance M_ret : MRet M := fun A a w => (Ok a, w).

#[global] Instance M_bind : MBind M := fun A B f m w =>
  match m w with
  | (Ok a, w') => f a w'
  | (Raise e, w') => (Raise e, w')
  end.

Definition raise {A} (e : Exn) : M A := fun w => (Raise e, w).

(** [try: body  except <catches> as e: handler e] *)
Definition try_except {A} (body : M A) (catches : Exn -> bool) (handler : Exn -> M A) : M A :=
  fun w =>
    match body w with
    | (Ok a, w') => (Ok a, w')
    | (Raise e, w') => if catches e then handler e w' else (Raise e, w')
    end.

Definition get_fs : M (gmap Path Node) := fun w => (Ok (fs w), w).

Definition print (l : Line) : M unit :=
  fun w => (Ok tt, mkWorld (fs w) (stdout w ++ [l])).

(** [exit(code)] *)
Definition py_exit {A} (code : Z) : M A := raise (SystemExit code).


(** [[x for x in l if test(x)]], with a test that may raise. *)
Fixpoint comprehension {A} (test : A -> M bool) (l : list A) : M (list A) :=
  match l with
  | [] => mret []
  | x :: rest =>
      b ← test x;
      kept ← comprehension test rest;
      mret (if (b : bool) then x :: kept else kept)
  end.

(** ** File-system operations of [pathlib] and [open] *)

(** What the process may do with a directory: read the list of its
    entries, and reach its entries (to [stat] them). *)
Class Access : Type := {
  may_list : Path -> bool;
  may_search : Path -> bool
}.

Module OS.

Definition PermissionError (p : Path) : Exn := Exception "PermissionError" (PyPath.name p).

Definition FileExistsError (p : Path) : Exn := Exception "FileExistsError" (PyPath.name p).
Definition FileNotFoundError (p : Path) : Exn := Exception "FileNotFoundError" (PyPath.name p).
Definition NotADirectoryError (p : Path) : Exn := Exception "NotADirectoryError" (PyPath.name p).
Definition IsADirectoryError (p : Path) : Exn := Exception "IsADirectoryError" (PyPath.name p).

(** The checks of [open(p, 'wb')] and of [mkdir] on the parent of [p]. *)
Definition check_parent (f : gmap Path Node) (p : Path) : option Exn :=
  match f !! PyPath.parent p with
  | Some Dir => None
  | Some (File _) => Some (NotADirectoryError p)
  | None => Some (FileNotFoundError p)
  end.

(** [p.mkdir(exist_ok=True)] *)
Definition mkdir_exist_ok (p : Path) : M unit := fun w =>
  match fs w !! p with
  | Some Dir => (Ok tt, w)
  | Some (File _) => (Raise (FileExistsError p), w)
  | None =>
      match check_parent (fs w) p with
      | Some e => (Raise e, w)
      | None => (Ok tt, mkWorld (<[p := Dir]> (fs w)) (stdout w))
      end
  end.

(** [p.is_file()] *)
Definition is_file (f : gmap Path Node) (p : Path) : bool :=
  match f !! p with
  | Some (File _) => true
  | _ => false
  end.

Definition is_child (d p : Path) : bool :=
  match PyPath.split_last p with
  | Some (d', _) => bool_decide (d' = d)
  | None => false
  end.

(** [list(d.iterdir())]: the entries of [d], in the order of the store;
    [os.listdir] fails on a directory that may not be read. *)
Definition iterdir `{Access} (d : Path) : M (list Path) := fun w =>
  match fs w !! d with
  | Some Dir =>
      if may_list d
      then (Ok (filter (fun p => is_child d p) (map fst (map_to_list (fs w)))), w)
      else (Raise (PermissionError d), w)
  | Some (File _) => (Raise (NotADirectoryError d), w)
  | None => (Raise (FileNotFoundError d), w)
  end.

(** The call [p.is_file()]: [stat()] fails with a permission error, which
    [is_file] lets through, when the directory of [p] may not be searched. *)
Definition path_is_file `{Access} (p : Path) : M bool := fun w =>
  if may_search (PyPath.parent p)
  then (Ok (is_file (fs w) p), w)
  else (Raise (PermissionError p), w).

(** The [st_size] of a directory entry itself; the script never asks. *)
Definition dir_st_size : Z := 4096.

(** [p.stat().st_size]; the script calls it on paths that [is_file] or a
    write has reached before, so that the search permission is there. *)
Definition stat_st_size (p : Path) : M Z := fun w =>
  match fs w !! p with
  | Some (File data) => (Ok (Z.of_nat (length data)), w)
  | Some Dir => (Ok dir_st_size, w)
  | None => (Raise (FileNotFoundError p), w)
  end.

(** Reading the whole of [p]. *)
Definition read_file (p : Path) : M bytes := fun w =>
  match fs w !! p with
  | Some (File data) => (Ok data, w)
  | Some Dir => (Raise (IsADirectoryError p), w)
  | None => (Raise (FileNotFoundError p), w)
  end.

(** Creating or truncating [p] and writing [data] to it. *)
Definition write_file (p : Path) (data : bytes) : M unit := fun w =>
  match fs w !! p with
  | Some Dir => (Raise (IsADirectoryError p), w)
  | _ =>
      match check_parent (fs w) p with
      | Some e => (Raise e, w)
      | None => (Ok tt, mkWorld (<[p := File data]> (fs w)) (stdout w))
      end
  end.

End OS.

(** ** Numbers *)

(** [a / b] on floats *)
Definition truediv (a b : Q) : M Q :=
  if Qeq_bool b 0 then raise (Exception "ZeroDivisionError" "division by zero")
  else mret (a / b)%Q.

(** [a > 0] *)
Definition Qpositive (a : Q) : bool := negb (Qle_bool a 0).

(** ** Pillow *)

Record Image : Type := mkImage {
  mode : string;
  info : gmap string string;
  pixels : bytes
}.

Record PyError : Type := mkPyError {
  err_cls : string;
  err_msg : string
}.

Definition raise_error {A} (e : PyError) : M A :=
  raise (Exception (err_cls e) (err_msg e)).

(** The outcome of encoding: the encoded file, or an error together with
    what the encoder left at the destination before it failed. *)
Inductive SaveResult : Type :=
| Saved (data : bytes)
| SaveFailed (e : PyError) (partial : option bytes).

Class Pillow : Type := {
  (** [Image.open] on the contents of a file *)
  Image_open : bytes -> PyError + Image;
  (** [img.convert(mode)] *)
  Image_convert : Image -> string -> PyError + Image;
  (** [img.save(_, format, quality=quality[, lossless=lossless])] *)
  Image_save : Image -> string -> Z -> option bool -> SaveResult;
  Image_convert_mode :
    forall img m img', Image_convert img m = inr img' -> mode img' = m
}.

(** ** The script *)

Section Konwerter.

Context `{PIL : Pillow} `{ACL : Access}.
Variable SCRIPT_DIR : Path.

Definition INPUT_FOLDER : Path := PyPath.join SCRIPT_DIR "do przerobienia".
Definition OUTPUT_FOLDER : Path := PyPath.join SCRIPT_DIR "przerobione".

Definition SUPPORTED_FORMATS : gset string :=
  {[ ".jpg"; ".jpeg"; ".png"; ".bmp"; ".gif"; ".tiff"; ".tif" ]}.
Definition HEIC_FORMATS : gset string := {[ ".heic"; ".heif" ]}.

Definition create_folders : M unit :=
  OS.mkdir_exist_ok INPUT_FOLDER;;
  OS.mkdir_exist_ok OUTPUT_FOLDER;;
  print (LInputFolder INPUT_FOLDER);;
  print (LOutputFolder OUTPUT_FOLDER).

(** [Image.open(input_path)] *)
Definition open_image (input_path : Path) : M Image :=
  data ← OS.read_file input_path;
  match Image_open data with
  | inr img => mret img
  | inl e => raise_error e
  end.

(** [img.convert(m)] *)
Definition convert_image (img : Image) (m : string) : M Image :=
  match Image_convert img m with
  | inr img' => mret img'
  | inl e => raise_error e
  end.

(** [img.save(output_path, format, quality=quality[, lossless=lossless])] *)
Definition save_image (img : Image) (output_path : Path) (format : string)
    (quality : Z) (lossless : option bool) : M unit :=
  match Image_save img format quality lossless with
  | Saved data => OS.write_file output_path data
  | SaveFailed e partial =>
      match partial with
      | Some data => OS.write_file output_path data
      | None => mret tt
      end;;
      raise_error e
  end.

(** The test of line 57. *)
Definition keeps_alpha (img : Image) : bool :=
  bool_decide (mode img ∈ ["RGBA"; "LA"])
  || (bool_decide (mode img = "P") && bool_decide ("transparency" ∈ dom (info img))).

Definition convert_to_webp (input_path output_path : Path) (quality : Z) : M bool :=
  try_except
    (img ← open_image input_path;
     (if keeps_alpha img then
        save_image img output_path "WEBP" quality (Some false)
      else
        img ← (if negb (bool_decide (mode img = "RGB"))
               then convert_image img "RGB" else mret img);
        save_image img output_path "WEBP" quality None);;
     mret true)
    is_Exception
    (fun e => print (LConvError (PyPath.name input_path) (exn_str e));; mret false).

Definition get_file_size_mb (path : Path) : M Q :=
  st_size ← OS.stat_st_size path;
  truediv (inject_Z st_size) (inject_Z (1024 * 1024)).

Record Totals : Type := mkTotals {
  success_count : nat;
  total_input_size : Q;
  total_output_size : Q
}.

Definition output_file_of (input_file : Path) : Path :=
  PyPath.join OUTPUT_FOLDER (PyPath.stem input_file ++ ".webp")%string.

(** The body of the loop of lines 116-131. *)
Definition convert_one (total i : nat) (input_file : Path) (t : Totals) : M Totals :=
  let output_file := output_file_of input_file in
  print (LConverting i total (PyPath.name input_file));;
  input_size ← get_file_size_mb input_file;
  let total_input_size := (total_input_size t + input_size)%Q in
  ok ← convert_to_webp input_file output_file 85;
  if (ok : bool) then
    output_size ← get_file_size_mb output_file;
    let total_output_size := (total_output_size t + output_size)%Q in
    reduction ← (if Qpositive input_size
                 then r ← truediv (input_size - output_size) input_size;
                      mret (r * 100)%Q
                 else mret 0%Q);
    print (LConverted input_size output_size reduction);;
    mret (mkTotals (success_count t + 1) total_input_size total_output_size)
  else
    print LNewline;;
    mret (mkTotals (success_count t) total_input_size (total_output_size t)).

(** [for i, input_file in enumerate(image_files, 1): ...], from index [i] *)
Fixpoint convert_all (total i : nat) (image_files : list Path) (t : Totals) : M Totals :=
  match image_files with
  | [] => mret t
  | input_file :: rest =>
      t' ← convert_one total i input_file t;
      convert_all total (S i) rest t'
  end.

Definition all_formats_of (HEIC_SUPPORTED : bool) : gset string :=
  if HEIC_SUPPORTED then SUPPORTED_FORMATS ∪ HEIC_FORMATS else SUPPORTED_FORMATS.

Definition has_format (f : gmap Path Node) (formats : gset string) (p : Path) : bool :=
  OS.is_file f p && bool_decide (PyStr.lower (PyPath.suffix p) ∈ formats).

(** [[f for f in INPUT_FOLDER.iterdir()
      if f.is_file() and f.suffix.lower() in formats]] *)
Definition list_files (formats : gset string) : M (list Path) :=
  entries ← OS.iterdir INPUT_FOLDER;
  comprehension
    (fun f => is_file ← OS.path_is_file f;
              mret (is_file && bool_decide (PyStr.lower (PyPath.suffix f) ∈ formats)))
    entries.

Definition main (HEIC_SUPPORTED : bool) : M unit :=
  print LRule;;
  print LTitle;;
  print LRule;;
  create_folders;;
  let all_formats := all_formats_of HEIC_SUPPORTED in
  image_files ← list_files all_formats;
  heic_files ← list_files HEIC_FORMATS;
  (if negb (bool_decide (heic_files = [])) && negb HEIC_SUPPORTED then
     print (LHeicWarning (length heic_files));;
     print LHeicInstallHint
   else mret tt);;
  if bool_decide (image_files = []) then
    print (LNoImages INPUT_FOLDER);;
    print (LSupportedFormats all_formats)
  else
    print (LFound (length image_files));;
    t ← convert_all (length image_files) 1 image_files (mkTotals 0 0 0);
    print LRule;;
    print LSummaryTitle;;
    print LRule;;
    print (LSummaryCount (success_count t) (length image_files));;
    print (LSummaryInput (total_input_size t));;
    print (LSummaryOutput (total_output_size t));;
    (if Qpositive (total_input_size t) then
       total_reduction ←
         (r ← truediv (total_input_size t - total_output_size t) (total_input_size t);
          mret (r * 100)%Q);
       print (LSummarySaving (total_input_size t - total_output_size t) total_reduction)
     else mret tt);;
    print (LSavedIn OUTPUT_FOLDER).

(** What is installed on the machine. *)
Record Env : Type := mkEnv {
  pillow_installed : bool;
  pillow_heif_installed : bool
}.

Definition import_module (installed : bool) (module : string) : M unit :=
  if installed then mret tt else raise (Exception "ModuleNotFoundError" module).

(** The module body, lines 11-25 and 148-149. *)
Definition script (env : Env) : M unit :=
  try_except (import_module (pillow_installed env) "PIL")
    is_ImportError
    (fun _ => print LPillowMissing;; print LPillowInstallHint;; py_exit 1);;
  HEIC_SUPPORTED ←
    try_except (import_module (pillow_heif_installed env) "pillow_heif";; mret true)
      is_ImportError
      (fun _ => mret false);
  main HEIC_SUPPORTED.

(** A run of the script from an empty console. *)
Definition run (env : Env) (f : gmap Path Node) : Res unit * World :=
  script env (mkWorld f []).

End Konwerter.

(** ** Notions used to state the properties *)

Section Notions.

Context `{PIL : Pillow} `{ACL : Access}.
Variable SCRIPT_DIR : Path.

(** The size in MB of a file holding [data]. *)
Definition size_mb (data : bytes) : Q :=
  (inject_Z (Z.of_nat (length data)) / inject_Z (1024 * 1024))%Q.

(** An image with an alpha channel, in the words of the specification:
    an RGBA mode, a luminance+alpha mode, or a palette mode whose metadata
    carries a transparency entry. *)
Definition has_alpha_channel (img : Image) : Prop :=
  mode img = "RGBA" \/ mode img = "LA" \/
  (mode img = "P" /\ is_Some (info img !! "transparency")).

(** What Pillow is asked for the contents [data] of an input file, from
    decoding to encoding; a failure before the encoder leaves nothing at
    the destination. *)
Definition encode_policy (data : bytes) (quality : Z) : SaveResult :=
  match Image_open data with
  | inl e => SaveFailed e None
  | inr img =>
      if keeps_alpha img then Image_save img "WEBP" quality (Some false)
      else if bool_decide (mode img = "RGB") then Image_save img "WEBP" quality None
      else match Image_convert img "RGB" with
           | inl e => SaveFailed e None
           | inr rgb => Image_save rgb "WEBP" quality None
           end
  end.

(** The WebP file that converting [input_file] yields in the store [f],
    or [None] when the conversion fails there. *)
Definition conv_outcome (f : gmap Path Node) (input_file : Path) : option bytes :=
  match f !! input_file with
  | Some (File data) =>
      match f !! output_file_of SCRIPT_DIR input_file with
      | Some Dir => None
      | _ =>
          match encode_policy data 85 with
          | Saved d => Some d
          | SaveFailed _ _ => None
          end
      end
  | _ => None
  end.

(** The size in MB of [p] in the store [f], 0 when [p] is not a file. *)
Definition file_mb (f : gmap Path Node) (p : Path) : Q :=
  match f !! p with
  | Some (File data) => size_mb data
  | _ => 0%Q
  end.

(** The size in MB of the WebP file made from [input_file], 0 when the
    conversion fails. *)
Definition output_mb (f : gmap Path Node) (input_file : Path) : Q :=
  match conv_outcome f input_file with
  | Some d => size_mb d
  | None => 0%Q
  end.

Definition converted (f : gmap Path Node) (input_file : Path) : bool :=
  match conv_outcome f input_file with
  | Some _ => true
  | None => false
  end.

(** [(input - output) / input * 100], and 0 for an input of size 0. *)
Definition reduction_value (input_size output_size : Q) : Q :=
  if Qpositive input_size
  then ((input_size - output_size) / input_size * 100)%Q
  else 0%Q.

Definition Qsum (l : list Q) : Q := foldr Qplus 0%Q l.

(** [p.mkdir(exist_ok=True)] succeeds in the store [f]. *)
Definition mkdir_ok (f : gmap Path Node) (p : Path) : bool :=
  match f !! p with
  | Some Dir => true
  | Some (File _) => false
  | None =>
      match f !! PyPath.parent p with
      | Some Dir => true
      | _ => false
      end
  end.

Definition folders_ok (f : gmap Path Node) : bool :=
  mkdir_ok f (INPUT_FOLDER SCRIPT_DIR) && mkdir_ok f (OUTPUT_FOLDER SCRIPT_DIR).

(** The store once both folders exist. *)
Definition prepared (f : gmap Path Node) : gmap Path Node :=
  <[OUTPUT_FOLDER SCRIPT_DIR := Dir]> (<[INPUT_FOLDER SCRIPT_DIR := Dir]> f).

(** The entries of the input folder that are regular files with an
    extension in [formats]. *)
Definition files_in (f : gmap Path Node) (formats : gset string) : list Path :=
  filter (fun p => has_format f formats p)
    (filter (fun p => OS.is_child (INPUT_FOLDER SCRIPT_DIR) p) (map fst (map_to_list f))).

(** Between [w] and [w'] the store changed at most at [out], and [out]
    did not turn into or from a directory. *)
Definition only_at (out : Path) (w w' : World) : Prop :=
  (forall p, p <> out -> fs w' !! p = fs w !! p) /\
  (fs w' !! out = Some Dir <-> fs w !! out = Some Dir).

(** The store of [w] is [f0] except for entries of the output folder,
    and has the same directories as [f0]. *)
Definition same_but_outputs (f0 : gmap Path Node) (w : World) : Prop :=
  (forall p, OS.is_child (OUTPUT_FOLDER SCRIPT_DIR) p = false -> fs w !! p = f0 !! p) /\
  (forall p, fs w !! p = Some Dir <-> f0 !! p = Some Dir).

(** A file the loop can be given: an entry of the input folder that is a
    regular file in [f0]. *)
Definition input_file_of (f0 : gmap Path Node) (p : Path) : Prop :=
  OS.is_child (INPUT_FOLDER SCRIPT_DIR) p = true /\ OS.is_file f0 p = true.

(** How many of [files] are converted. *)
Definition successes (f0 : gmap Path Node) (files : list Path) : nat :=
  length (filter (fun p => converted f0 p) files).

(** The file names announced by the progress lines of a console. *)
Fixpoint progress_names (out : list Line) : list string :=
  match out with
  | [] => []
  | LConverting _ _ nm :: r => nm :: progress_names r
  | _ :: r => progress_names r
  end.

Definition is_summary_line (l : Line) : bool :=
  match l with
  | LSummaryTitle | LSummaryCount _ _ | LSummaryInput _
  | LSummaryOutput _ | LSummarySaving _ _ => true
  | _ => false
  end.

(** The recognized extensions, in the words of the specification: the
    seven baseline ones, and the two HEIF ones when the HEIF decoder was
    loaded. *)
Definition recognized (heif_loaded : bool) (ext : string) : Prop :=
  ext ∈ [".jpg"; ".jpeg"; ".png"; ".bmp"; ".gif"; ".tiff"; ".tif"] \/
  (heif_loaded = true /\ ext ∈ [".heic"; ".heif"]).

(** [nm] ends with [ext] up to the case of letters, after a stem that is
    not empty. *)
Definition has_extension (nm ext : string) : Prop :=
  exists stem e, nm = (stem ++ e)%string /\ stem <> "" /\ PyStr.lower e = ext.

(** What [main] prints before it looks for files. *)
Definition banner : list Line :=
  [LRule; LTitle; LRule;
   LInputFolder (INPUT_FOLDER SCRIPT_DIR); LOutputFolder (OUTPUT_FOLDER SCRIPT_DIR)].

(** The warning of lines 100-102. *)
Definition heic_warning (HEIC_SUPPORTED : bool) (heic_files : list Path) : list Line :=
  if negb (bool_decide (heic_files = [])) && negb HEIC_SUPPORTED
  then [LHeicWarning (length heic_files); LHeicInstallHint]
  else [].

Definition is_saving_line (l : Line) : bool :=
  match l with
  | LSummarySaving _ _ => true
  | _ => false
  end.

(** The lines of the summary for the totals [t] of [total] files. *)
Definition summary_lines (t : Totals) (total : nat) : list Line :=
  [LRule; LSummaryTitle; LRule;
   LSummaryCount (success_count t) total;
   LSummaryInput (total_input_size t);
   LSummaryOutput (total_output_size t)]
  ++ (if Qpositive (total_input_size t)
      then [LSummarySaving (total_input_size t - total_output_size t)
              ((total_input_size t - total_output_size t) / total_input_size t * 100)%Q]
      else [])
  ++ [LSavedIn (OUTPUT_FOLDER SCRIPT_DIR)].

(** The lines that a turn of the loop prints. *)
Definition is_file_line (l : Line) : bool :=
  match l with
  | LConverting _ _ _ | LConvError _ _ | LConverted _ _ _ | LNewline => true
  | _ => false
  end.

Definition is_converting_line (l : Line) : bool :=
  match l with
  | LConverting _ _ _ => true
  | _ => false
  end.

Definition is_converted_line (l : Line) : bool :=
  match l with
  | LConverted _ _ _ => true
  | _ => false
  end.

Definition is_error_line (l : Line) : bool :=
  match l with
  | LConvError _ _ => true
  | _ => false
  end.

Definition is_heic_line (l : Line) : bool :=
  match l with
  | LHeicWarning _ | LHeicInstallHint => true
  | _ => false
  end.

Definition is_heic_warning (l : Line) : bool :=
  match l with
  | LHeicWarning _ => true
  | _ => false
  end.

(** How many lines of a console are of the kind [sel]. *)
Definition count_lines (sel : Line -> bool) (out : list Line) : nat :=
  length (List.filter sel out).

(** [open(out, 'wb')] succeeds in the store [f]. *)
Definition writable (f : gmap Path Node) (out : Path) : bool :=
  match f !! out with
  | Some Dir => false
  | _ =>
      match f !! PyPath.parent out with
      | Some Dir => true
      | _ => false
      end
  end.

(** What the encoder leaves at the destination, if anything. *)
Definition written (r : SaveResult) : option bytes :=
  match r with
  | Saved d => Some d
  | SaveFailed _ partial => partial
  end.

(** The store after [convert_to_webp inp out q] in the store [f]. *)
Definition store_after_convert (f : gmap Path Node) (inp out : Path) (q : Z)
  : gmap Path Node :=
  match f !! inp with
  | Some (File data) =>
      match written (encode_policy data q) with
      | Some d => if writable f out then <[out := File d]> f else f
      | None => f
      end
  | _ => f
  end.

(** The write that the turn of [input_file] makes, read off the store
    [f0] the loop started from. *)
Definition effect_of (f0 : gmap Path Node) (input_file : Path) : option (Path * bytes) :=
  match f0 !! input_file with
  | Some (File data) =>
      match written (encode_policy data 85) with
      | Some d =>
          if writable f0 (output_file_of SCRIPT_DIR input_file)
          then Some (output_file_of SCRIPT_DIR input_file, d)
          else None
      | None => None
      end
  | _ => None
  end.

Definition apply_effect (e : option (Path * bytes)) (m : gmap Path Node)
  : gmap Path Node :=
  match e with
  | Some (k, d) => <[k := File d]> m
  | None => m
  end.

(** The store after the turns of [files], in order. *)
Definition stores (f0 : gmap Path Node) (files : list Path) (m : gmap Path Node)
  : gmap Path Node :=
  foldl (fun m p => apply_effect (effect_of f0 p) m) m files.

(** The last write of the turns of [files] at the path [k]. *)
Fixpoint last_write (f0 : gmap Path Node) (files : list Path) (k : Path) : option bytes :=
  match files with
  | [] => None
  | p :: rest =>
      match last_write f0 rest k with
      | Some d => Some d
      | None =>
          match effect_of f0 p with
          | Some (k', d) => if decide (k' = k) then Some d else None
          | None => None
          end
      end
  end.

(** The entries of the input folder in the store [f]. *)
Definition entries_of (f : gmap Path Node) : list Path :=
  filter (fun p => OS.is_child (INPUT_FOLDER SCRIPT_DIR) p) (map fst (map_to_list f)).

(** The input folder may be listed and searched. *)
Definition input_accessible : bool :=
  may_list (INPUT_FOLDER SCRIPT_DIR) && may_search (INPUT_FOLDER SCRIPT_DIR).

(** The two list comprehensions of [main] succeed in the store [f]: the
    input folder may be listed, and searched unless it is empty. *)
Definition discovery_ok (f : gmap Path Node) : bool :=
  may_list (INPUT_FOLDER SCRIPT_DIR)
  && (may_search (INPUT_FOLDER SCRIPT_DIR) || bool_decide (entries_of f = [])).

(** The letters of the alphabet, and each upper-case letter with its
    lower-case form. *)
Definition upper_case_letters : string := "ABCDEFGHIJKLMNOPQRSTUVWXYZ".
Definition lower_case_letters : string := "abcdefghijklmnopqrstuvwxyz".

Definition letter_pairs : list (ascii * ascii) :=
  combine (list_ascii_of_string upper_case_letters)
          (list_ascii_of_string lower_case_letters).

(** Two characters that are equal, or the same letter in two cases. *)
Definition same_char_ignoring_case (a b : ascii) : Prop :=
  a = b \/ In (a, b) letter_pairs \/ In (b, a) letter_pairs.

(** Two strings that differ at most by the case of their letters. *)
Fixpoint same_ignoring_case (s t : string) : Prop :=
  match s, t with
  | EmptyString, EmptyString => True
  | String a s', String b t' =>
      same_char_ignoring_case a b /\ same_ignoring_case s' t'
  | _, _ => False
  end.

(** [nm] is a stem that is not empty followed by [ext], up to the case of
    the letters of [ext]. *)
Definition ends_with_extension (nm ext : string) : Prop :=
  exists stem e,
    nm = (stem ++ e)%string /\ stem <> "" /\ same_ignoring_case e ext.

(** A regular file of the input folder whose name ends in .heic or .heif,
    whatever the case of the letters. *)
Definition heic_entry (f : gmap Path Node) (p : Path) : Prop :=
  exists nm data,
    p = INPUT_FOLDER SCRIPT_DIR ++ [nm] /\ f !! p = Some (File data) /\
    (ends_with_extension nm ".heic" \/ ends_with_extension nm ".heif").

(** A string without a dot. *)
Definition no_dot (s : string) : Prop := ~ In "."%char (list_ascii_of_string s).

End Notions.

(** ** A small codec and a few directories to run the script on *)

Module Demo.

Import Byte.

Definition unidentified : PyError :=
  mkPyError "UnidentifiedImageError" "cannot identify image file".

(** The first byte of a file names the mode of the image in it. *)
Definition demo_open (data : bytes) : PyError + Image :=
  match data with
  | x01 :: px => inr (mkImage "RGB" ∅ px)
  | x02 :: px => inr (mkImage "RGBA" ∅ px)
  | x03 :: px => inr (mkImage "P" {[ "transparency" := "0" ]} px)
  | x04 :: px => inr (mkImage "L" ∅ px)
  | x05 :: px => inr (mkImage "LA" ∅ px)
  | x06 :: px => inr (mkImage "P" ∅ px)
  | x07 :: px => inr (mkImage "I;16" ∅ px)
  | x08 :: px => inr (mkImage "CMYK" ∅ px)
  | _ => inl unidentified
  end.

Definition demo_convert (img : Image) (m : string) : PyError + Image :=
  if bool_decide (mode img = "I;16")
  then inl (mkPyError "ValueError" "conversion not supported")
  else inr (mkImage m (info img) (pixels img)).

(** The encoded file records the mode, the quality and the lossless
    argument it was made with; a CMYK image fails half way. *)
Definition demo_save (img : Image) (format : string) (quality : Z)
    (lossless : option bool) : SaveResult :=
  if bool_decide (mode img = "CMYK")
  then SaveFailed (mkPyError "OSError" "cannot write mode CMYK as WEBP") (Some [x00])
  else
    let m := if bool_decide (mode img = "RGB") then x01 else x02 in
    let q := if bool_decide (quality = 85) then x55 else x00 in
    let l := match lossless with
             | None => x00
             | Some false => x01
             | Some true => x02
             end in
    Saved [m; q; l].

#[global] Instance demo_pillow : Pillow.
Proof.
  refine {| Image_open := demo_open;
            Image_convert := demo_convert;
            Image_save := demo_save |}.
  intros img m img'. unfold demo_convert.
  destruct (bool_decide (mode img = "I;16")); [discriminate|].
  intros [= <-]. reflexivity.
Defined.

Definition app : Path := ["app"].
Definition inp (n : string) : Path := INPUT_FOLDER app ++ [n].
Definition outp (n : string) : Path := OUTPUT_FOLDER app ++ [n].

(** Two images, one of them with transparency, and a corrupt file. *)
Definition fs_three : gmap Path Node :=
  {[ app := Dir;
     INPUT_FOLDER app := Dir;
     inp "photo.jpg" := File [x01; x10; x11; x12];
     inp "icon.PNG" := File [x02; x20];
     inp "broken.gif" := File [xff] ]}.

(** Only the script's folder. *)
Definition fs_fresh : gmap Path Node := {[ app := Dir ]}.

(** A regular file sits where the input folder should be. *)
Definition fs_blocked : gmap Path Node :=
  {[ app := Dir; INPUT_FOLDER app := File [] ]}.

(** One empty file with a known extension. *)
Definition fs_empty_file : gmap Path Node :=
  {[ app := Dir; INPUT_FOLDER app := Dir; inp "zero.png" := File [] ]}.

(** A HEIC file next to a JPEG, and an output that already exists. *)
Definition fs_heic : gmap Path Node :=
  {[ app := Dir;
     INPUT_FOLDER app := Dir;
     OUTPUT_FOLDER app := Dir;
     inp "a.heic" := File [x01];
     inp "b.jpg" := File [x01];
     outp "b.webp" := File [x09; x09; x09; x09; x09] ]}.

(** [fs_three] once the folders exist. *)
Definition fs_ready : gmap Path Node := prepared app fs_three.

(** Two inputs with the same stem. *)
Definition fs_collision : gmap Path Node :=
  {[ app := Dir;
     INPUT_FOLDER app := Dir;
     OUTPUT_FOLDER app := Dir;
     inp "photo.jpg" := File [x01; x10];
     inp "photo.png" := File [x02; x20; x21] ]}.

(** HEIC files with names in both cases next to a JPEG. *)
Definition fs_heic_mixed : gmap Path Node :=
  {[ app := Dir;
     INPUT_FOLDER app := Dir;
     OUTPUT_FOLDER app := Dir;
     inp "a.heic" := File [x01];
     inp "IMG.HEIC" := File [x01; x10];
     inp "b.jpg" := File [x01] ]}.

(** A codec that also decodes an empty file, to an empty RGB image. *)
Definition lenient_open (data : bytes) : PyError + Image :=
  match data with
  | [] => inr (mkImage "RGB" ∅ [])
  | _ => demo_open data
  end.

Definition lenient_pillow : Pillow :=
  {| Image_open := lenient_open;
     Image_convert := demo_convert;
     Image_save := demo_save;
     Image_convert_mode := @Image_convert_mode demo_pillow |}.

(** Every directory may be listed and searched. *)
#[global] Instance open_access : Access :=
  {| may_list := fun _ => true; may_search := fun _ => true |}.

(** No directory may be listed or searched. *)
Definition no_access : Access :=
  {| may_list := fun _ => false; may_search := fun _ => false |}.

Definition all_installed : Env := mkEnv true true.
Definition no_heif : Env := mkEnv true false.

End Demo.

(** * Properties *)

(** ** Paths *)

Lemma split_last_snoc (d : Path) (n : string) :
  PyPath.split_last (d ++ [n]) = Some (d, n).
Proof.
  induction d as [|x d IH]; [reflexivity|].
  change ((x :: d) ++ [n]) with (x :: (d ++ [n])).
  cbn [PyPath.split_last]. rewrite IH.
  destruct (d ++ [n]) eqn:E; [|reflexivity].
  destruct d; discriminate.
Qed.

Lemma split_last_inv (p d : Path) (n : string) :
  PyPath.split_last p = Some (d, n) -> p = d ++ [n].
Proof.
  revert d. induction p as [|x r IH]; intros d; [discriminate|].
  cbn [PyPath.split_last]. destruct r as [|y r'].
  - intros [= <- <-]. reflexivity.
  - destruct (PyPath.split_last (y :: r')) as [[d' n']|]; [|discriminate].
    intros [= <- <-]. rewrite (IH d' eq_refl). reflexivity.
Qed.

Lemma name_join (d : Path) (n : string) : PyPath.name (PyPath.join d n) = n.
Proof. unfold PyPath.name, PyPath.join. rewrite split_last_snoc. reflexivity. Qed.

Lemma parent_join (d : Path) (n : string) : PyPath.parent (PyPath.join d n) = d.
Proof. unfold PyPath.parent, PyPath.join. rewrite split_last_snoc. reflexivity. Qed.

Lemma is_child_spec (d p : Path) :
  OS.is_child d p = true <-> exists n, p = d ++ [n].
Proof.
  unfold OS.is_child. split.
  - destruct (PyPath.split_last p) as [[d' n]|] eqn:E; [|discriminate].
    intros H. apply bool_decide_eq_true in H. subst d'.
    exists n. apply split_last_inv, E.
  - intros [n ->]. rewrite split_last_snoc. apply bool_decide_eq_true. reflexivity.
Qed.

Section Folders.

Variable SCRIPT_DIR : Path.

Lemma input_folder_not_output : INPUT_FOLDER SCRIPT_DIR <> OUTPUT_FOLDER SCRIPT_DIR.
Proof.
  unfold INPUT_FOLDER, OUTPUT_FOLDER, PyPath.join. intros H.
  apply app_inv_head in H. discriminate.
Qed.

Lemma folder_not_script_dir (n : string) : SCRIPT_DIR ++ [n] <> SCRIPT_DIR.
Proof.
  intros H. apply (f_equal (@length string)) in H.
  rewrite length_app in H. simpl in H. lia.
Qed.

Lemma child_not_parent (d : Path) (n : string) : d ++ [n] <> d.
Proof.
  intros H. apply (f_equal (@length string)) in H.
  rewrite length_app in H. simpl in H. lia.
Qed.

Lemma grandchild_not_sibling (a b n : string) : SCRIPT_DIR ++ [a] ++ [n] <> SCRIPT_DIR ++ [b].
Proof. intros H. apply app_inv_head in H. discriminate. Qed.

(** Nothing below the input folder is the output folder or one of its
    entries. *)
Lemma below_input_not_output (q : Path) (n : string) :
  INPUT_FOLDER SCRIPT_DIR ++ q <> OUTPUT_FOLDER SCRIPT_DIR ++ [n].
Proof.
  unfold INPUT_FOLDER, OUTPUT_FOLDER, PyPath.join. rewrite <- !app_assoc.
  intros H. apply app_inv_head in H. discriminate.
Qed.

Lemma below_input_not_output_folder (q : Path) :
  INPUT_FOLDER SCRIPT_DIR ++ q <> OUTPUT_FOLDER SCRIPT_DIR.
Proof.
  unfold INPUT_FOLDER, OUTPUT_FOLDER, PyPath.join. rewrite <- !app_assoc.
  intros H. apply app_inv_head in H. discriminate.
Qed.

Lemma output_entry_not_folder (n : string) (d : Path) :
  d = INPUT_FOLDER SCRIPT_DIR \/ d = OUTPUT_FOLDER SCRIPT_DIR \/ d = SCRIPT_DIR ->
  OUTPUT_FOLDER SCRIPT_DIR ++ [n] <> d.
Proof.
  unfold INPUT_FOLDER, OUTPUT_FOLDER, PyPath.join.
  intros [-> | [-> | ->]] H; apply (f_equal (@length string)) in H;
    rewrite ?length_app in H; simpl in H; lia.
Qed.

Lemma output_file_of_child (input_file : Path) :
  output_file_of SCRIPT_DIR input_file =
  OUTPUT_FOLDER SCRIPT_DIR ++ [(PyPath.stem input_file ++ ".webp")%string].
Proof. reflexivity. Qed.

End Folders.

(** ** Numbers *)

Lemma Qpositive_nonzero (a : Q) : Qpositive a = true -> Qeq_bool a 0 = false.
Proof.
  unfold Qpositive. intros H. apply negb_true_iff in H.
  destruct (Qeq_bool a 0) eqn:E; [|reflexivity].
  apply Qeq_bool_iff in E.
  assert (Qle_bool a 0 = true) as H'.
  { apply Qle_bool_iff. rewrite E. apply Qle_refl. }
  congruence.
Qed.

Lemma Qpositive_spec (a : Q) : Qpositive a = true <-> (0 < a)%Q.
Proof.
  unfold Qpositive. rewrite negb_true_iff. split.
  - intros H. apply Qnot_le_lt. intros L. apply Qle_bool_iff in L. congruence.
  - intros H. destruct (Qle_bool a 0) eqn:E; [|reflexivity].
    apply Qle_bool_iff in E. exfalso. apply (Qlt_not_le _ _ H E).
Qed.

Lemma truediv_ok (a b : Q) (w : World) :
  Qeq_bool b 0 = false -> truediv a b w = (Ok (a / b)%Q, w).
Proof. unfold truediv. intros ->. reflexivity. Qed.

Lemma size_mb_nonneg (data : bytes) : (0 <= size_mb data)%Q.
Proof.
  unfold size_mb. apply Qle_shift_div_l; [reflexivity|].
  rewrite Qmult_0_l. change 0%Q with (inject_Z 0). rewrite <- Zle_Qle. lia.
Qed.

Lemma size_mb_zero (data : bytes) : (size_mb data == 0)%Q <-> data = [].
Proof.
  unfold size_mb. split.
  - intros H. destruct data as [|b data]; [reflexivity|]. exfalso.
    assert (0 < inject_Z (Z.of_nat (length (b :: data))) / inject_Z (1024 * 1024))%Q as L.
    { apply Qlt_shift_div_l; [reflexivity|]. rewrite Qmult_0_l.
      change 0%Q with (inject_Z 0). rewrite <- Zlt_Qlt. simpl length. lia. }
    rewrite H in L. apply (Qlt_irrefl _ L).
  - intros ->. reflexivity.
Qed.

(** The guarded division of lines 127 and 142 never divides by zero. *)
Lemma guarded_reduction (a b : Q) (w : World) :
  (if Qpositive a
   then r ← truediv (a - b) a; mret (r * 100)%Q
   else mret 0%Q) w = (Ok (reduction_value a b), w).
Proof.
  unfold reduction_value. destruct (Qpositive a) eqn:E; [|reflexivity].
  unfold mbind, M_bind. rewrite (truediv_ok _ _ _ (Qpositive_nonzero _ E)).
  reflexivity.
Qed.

(** ** Primitive operations *)

Lemma get_file_size_mb_file (p : Path) (w : World) (data : bytes) :
  fs w !! p = Some (File data) ->
  get_file_size_mb p w = (Ok (size_mb data), w).
Proof.
  intros H. unfold get_file_size_mb, mbind, M_bind, OS.stat_st_size.
  rewrite H. reflexivity.
Qed.

Lemma world_eta (w : World) : mkWorld (fs w) (stdout w) = w.
Proof. destruct w. reflexivity. Qed.

(** [write_file] either stores the data or raises an ordinary exception
    and changes nothing. *)
Lemma write_file_cases (p : Path) (data : bytes) (w : World) :
  (fs w !! p <> Some Dir /\ fs w !! PyPath.parent p = Some Dir /\
   OS.write_file p data w = (Ok tt, mkWorld (<[p := File data]> (fs w)) (stdout w)))
  \/
  ((fs w !! p = Some Dir \/ fs w !! PyPath.parent p <> Some Dir) /\
   exists cls msg, OS.write_file p data w = (Raise (Exception cls msg), w)).
Proof.
  unfold OS.write_file, OS.check_parent.
  destruct (fs w !! p) as [[d|]|] eqn:E.
  - destruct (fs w !! PyPath.parent p) as [[d'|]|] eqn:E'.
    + right. split; [right; discriminate|]. eexists _, _. reflexivity.
    + left. repeat split; congruence.
    + right. split; [right; discriminate|]. eexists _, _. reflexivity.
  - right. split; [left; reflexivity|]. eexists _, _. reflexivity.
  - destruct (fs w !! PyPath.parent p) as [[d'|]|] eqn:E'.
    + right. split; [right; discriminate|]. eexists _, _. reflexivity.
    + left. repeat split; congruence.
    + right. split; [right; discriminate|]. eexists _, _. reflexivity.
Qed.

Lemma only_at_refl (out : Path) (w : World) : only_at out w w.
Proof. split; [reflexivity | reflexivity]. Qed.

Lemma only_at_write (out : Path) (w : World) (data : bytes) (o : list Line) :
  fs w !! out <> Some Dir ->
  only_at out w (mkWorld (<[out := File data]> (fs w)) o).
Proof.
  intros H. split; simpl.
  - intros p Hp. apply lookup_insert_ne. congruence.
  - rewrite lookup_insert_eq. split; [discriminate | intros E; contradiction].
Qed.

Lemma only_at_same_fs (out : Path) (w w' : World) :
  fs w' = fs w -> only_at out w w'.
Proof. intros H. unfold only_at. rewrite H. split; reflexivity. Qed.

(** ** Running the monad *)

Lemma bind_ok {A B} (m : M A) (f : A -> M B) (w w1 : World) (a : A) :
  m w = (Ok a, w1) -> (m ≫= f) w = f a w1.
Proof. intros H. unfold mbind, M_bind. rewrite H. reflexivity. Qed.

Lemma bind_raise {A B} (m : M A) (f : A -> M B) (w w1 : World) (e : Exn) :
  m w = (Raise e, w1) -> (m ≫= f) w = (Raise e, w1).
Proof. intros H. unfold mbind, M_bind. rewrite H. reflexivity. Qed.

Lemma try_ok {A} (m : M A) (c : Exn -> bool) (h : Exn -> M A) (w w1 : World) (a : A) :
  m w = (Ok a, w1) -> try_except m c h w = (Ok a, w1).
Proof. intros H. unfold try_except. rewrite H. reflexivity. Qed.

Lemma try_caught {A} (m : M A) (c : Exn -> bool) (h : Exn -> M A) (w w1 : World) (e : Exn) :
  m w = (Raise e, w1) -> c e = true -> try_except m c h w = h e w1.
Proof. intros H Hc. unfold try_except. rewrite H, Hc. reflexivity. Qed.

Lemma try_uncaught {A} (m : M A) (c : Exn -> bool) (h : Exn -> M A) (w w1 : World) (e : Exn) :
  m w = (Raise e, w1) -> c e = false -> try_except m c h w = (Raise e, w1).
Proof. intros H Hc. unfold try_except. rewrite H, Hc. reflexivity. Qed.

Lemma print_run (l : Line) (w : World) :
  print l w = (Ok tt, mkWorld (fs w) (stdout w ++ [l])).
Proof. reflexivity. Qed.

(** ** The converter *)

Section Converter.

Context `{PIL : Pillow}.

Lemma save_image_cases (img : Image) (out : Path) (format : string) (q : Z)
    (l : option bool) (w : World) :
  (exists d, Image_save img format q l = Saved d /\
     fs w !! out <> Some Dir /\ fs w !! PyPath.parent out = Some Dir /\
     save_image img out format q l w =
       (Ok tt, mkWorld (<[out := File d]> (fs w)) (stdout w)))
  \/
  (exists cls msg w',
     save_image img out format q l w = (Raise (Exception cls msg), w') /\
     stdout w' = stdout w /\ only_at out w w' /\
     (fs w !! out = Some Dir \/ fs w !! PyPath.parent out <> Some Dir \/
      exists e partial, Image_save img format q l = SaveFailed e partial) /\
     (forall e, Image_save img format q l = SaveFailed e None ->
        msg = err_msg e /\ w' = w) /\
     (forall e partial, Image_save img format q l = SaveFailed e partial ->
        fs w !! out <> Some Dir -> fs w !! PyPath.parent out = Some Dir ->
        msg = err_msg e)).
Proof.
  unfold save_image.
  destruct (Image_save img format q l) as [d | e partial] eqn:ES.
  - destruct (write_file_cases out d w) as [(Hn & Hp & Hw) | (Hc & cls & msg & Hw)].
    + left. exists d. auto.
    + right. exists cls, msg, w. rewrite Hw.
      split; [reflexivity|]. split; [reflexivity|]. split; [apply only_at_refl|].
      split; [destruct Hc; auto|]. split; intros; discriminate.
  - right. destruct partial as [d|].
    + unfold mbind, M_bind.
      destruct (write_file_cases out d w) as [(Hn & Hp & Hw) | (Hc & cls & msg & Hw)];
        rewrite Hw.
      * eexists _, _, _. split; [reflexivity|]. simpl.
        split; [reflexivity|]. split; [apply only_at_write, Hn|].
        split; [eauto|]. split; [intros; discriminate|].
        intros e' p' [= <- <-] _ _. reflexivity.
      * exists cls, msg, w.
        split; [reflexivity|]. split; [reflexivity|]. split; [apply only_at_refl|].
        split; [eauto|]. split; [intros; discriminate|].
        intros e' p' _ Hd Hp. destruct Hc; contradiction.
    + unfold mbind, M_bind, mret, M_ret. eexists _, _, w. split; [reflexivity|].
      split; [reflexivity|]. split; [apply only_at_refl|].
      split; [eauto|]. split.
      * intros e' [= <-]. split; reflexivity.
      * intros e' p' [= <- <-] _ _. reflexivity.
Qed.

(** The statements of lines 57-64 on a decoded image. *)
Lemma encode_cases (img : Image) (data : bytes) (out : Path) (q : Z) (w : World) :
  Image_open data = inr img ->
  let m : M unit :=
    if keeps_alpha img then save_image img out "WEBP" q (Some false)
    else img ← (if negb (bool_decide (mode img = "RGB"))
                then convert_image img "RGB" else mret img);
         save_image img out "WEBP" q None in
  (exists d, encode_policy data q = Saved d /\
     fs w !! out <> Some Dir /\ fs w !! PyPath.parent out = Some Dir /\
     m w = (Ok tt, mkWorld (<[out := File d]> (fs w)) (stdout w)))
  \/
  (exists cls msg w',
     m w = (Raise (Exception cls msg), w') /\
     stdout w' = stdout w /\ only_at out w w' /\
     (fs w !! out = Some Dir \/ fs w !! PyPath.parent out <> Some Dir \/
      exists e partial, encode_policy data q = SaveFailed e partial) /\
     (forall e, encode_policy data q = SaveFailed e None ->
        msg = err_msg e /\ w' = w) /\
     (forall e partial, encode_policy data q = SaveFailed e partial ->
        fs w !! out <> Some Dir -> fs w !! PyPath.parent out = Some Dir ->
        msg = err_msg e)).
Proof.
  intros Hopen m. subst m. unfold encode_policy. rewrite Hopen.
  destruct (keeps_alpha img).
  - apply save_image_cases.
  - destruct (bool_decide (mode img = "RGB")); simpl negb; cbv iota.
    + unfold mbind, M_bind, mret, M_ret. apply save_image_cases.
    + unfold mbind, M_bind, convert_image.
      destruct (Image_convert img "RGB") as [e | rgb].
      * right. unfold raise_error, raise. eexists _, _, w.
        split; [reflexivity|]. split; [reflexivity|]. split; [apply only_at_refl|].
        split; [eauto|]. split.
        -- intros e' [= <-]. split; reflexivity.
        -- intros e' p' [= <- <-] _ _. reflexivity.
      * unfold mret, M_ret. apply save_image_cases.
Qed.

(** [convert_to_webp] either writes the encoded file and returns [True],
    or prints one error line and returns [False]. *)
Lemma convert_to_webp_cases (inp out : Path) (q : Z) (w : World) :
  (exists data d,
     fs w !! inp = Some (File data) /\ encode_policy data q = Saved d /\
     fs w !! out <> Some Dir /\ fs w !! PyPath.parent out = Some Dir /\
     convert_to_webp inp out q w =
       (Ok true, mkWorld (<[out := File d]> (fs w)) (stdout w)))
  \/
  (exists msg w',
     convert_to_webp inp out q w = (Ok false, w') /\
     stdout w' = stdout w ++ [LConvError (PyPath.name inp) msg] /\
     only_at out w w' /\
     (forall data, fs w !! inp = Some (File data) ->
        (fs w !! out = Some Dir \/ fs w !! PyPath.parent out <> Some Dir \/
         exists e partial, encode_policy data q = SaveFailed e partial) /\
        (forall e, encode_policy data q = SaveFailed e None ->
           msg = err_msg e /\ fs w' = fs w) /\
        (forall e partial, encode_policy data q = SaveFailed e partial ->
           fs w !! out <> Some Dir -> fs w !! PyPath.parent out = Some Dir ->
           msg = err_msg e))).
Proof.
  unfold convert_to_webp.
  set (handler := fun e : Exn =>
         print (LConvError (PyPath.name inp) (exn_str e));; mret false).
  destruct (fs w !! inp) as [[data|]|] eqn:Ein.
  - destruct (Image_open data) as [e | img] eqn:Eopen.
    + right.
      assert (open_image inp w = (Raise (Exception (err_cls e) (err_msg e)), w)) as Ho.
      { unfold open_image. erewrite bind_ok by (unfold OS.read_file; rewrite Ein; reflexivity).
        rewrite Eopen. reflexivity. }
      erewrite try_caught; [| erewrite bind_raise by exact Ho; reflexivity | reflexivity].
      eexists _, _. split; [reflexivity|]. split; [reflexivity|].
      split; [apply only_at_same_fs; reflexivity|].
      intros data' [= <-]. unfold encode_policy. rewrite Eopen.
      split; [eauto|]. split.
      * intros e' [= <-]. split; reflexivity.
      * intros e' p' [= <- <-] _ _. reflexivity.
    + assert (open_image inp w = (Ok img, w)) as Ho.
      { unfold open_image. erewrite bind_ok by (unfold OS.read_file; rewrite Ein; reflexivity).
        rewrite Eopen. reflexivity. }
      destruct (encode_cases img data out q w Eopen)
        as [(d & Hpol & Hn & Hp & Hrun) | (cls & msg & w' & Hrun & Hout & Hat & Hc & Hm1 & Hm2)];
        cbv zeta in Hrun.
      * left. exists data, d.
        split; [reflexivity|]. split; [exact Hpol|]. split; [exact Hn|].
        split; [exact Hp|].
        apply try_ok.
        erewrite bind_ok by exact Ho. erewrite bind_ok by exact Hrun. reflexivity.
      * right.
        erewrite try_caught;
          [| erewrite bind_ok by exact Ho; erewrite bind_raise by exact Hrun; reflexivity
           | reflexivity].
        eexists _, _. split; [reflexivity|]. simpl. rewrite Hout.
        split; [reflexivity|]. split; [exact Hat|].
        intros data' [= <-]. split; [exact Hc|]. split.
        -- intros e He. destruct (Hm1 e He) as [-> ->]. split; reflexivity.
        -- exact Hm2.
  - right.
    erewrite try_caught;
      [| erewrite bind_raise;
         [reflexivity | unfold open_image; erewrite bind_raise;
                        [reflexivity | unfold OS.read_file; rewrite Ein; reflexivity]]
       | reflexivity].
    eexists _, _. split; [reflexivity|]. split; [reflexivity|].
    split; [apply only_at_same_fs; reflexivity|]. intros data [=].
  - right.
    erewrite try_caught;
      [| erewrite bind_raise;
         [reflexivity | unfold open_image; erewrite bind_raise;
                        [reflexivity | unfold OS.read_file; rewrite Ein; reflexivity]]
       | reflexivity].
    eexists _, _. split; [reflexivity|]. split; [reflexivity|].
    split; [apply only_at_same_fs; reflexivity|]. intros data [=].
Qed.

Lemma convert_to_webp_success (inp out : Path) (q : Z) (w : World) (data d : bytes) :
  fs w !! inp = Some (File data) ->
  fs w !! out <> Some Dir ->
  fs w !! PyPath.parent out = Some Dir ->
  encode_policy data q = Saved d ->
  convert_to_webp inp out q w = (Ok true, mkWorld (<[out := File d]> (fs w)) (stdout w)).
Proof.
  intros Hin Hn Hp Hpol.
  destruct (convert_to_webp_cases inp out q w)
    as [(data' & d' & Hin' & Hpol' & _ & _ & Hrun) | (msg & w' & _ & _ & _ & Hc)].
  - rewrite Hin in Hin'. injection Hin' as <-.
    rewrite Hpol in Hpol'. injection Hpol' as <-. exact Hrun.
  - destruct (Hc data Hin) as ([Hd | [Hq | (e & partial & He)]] & _).
    + contradiction.
    + contradiction.
    + rewrite Hpol in He. discriminate.
Qed.

Lemma convert_to_webp_failure (inp out : Path) (q : Z) (w : World) (data : bytes)
    (e : PyError) (partial : option bytes) :
  fs w !! inp = Some (File data) ->
  fs w !! out <> Some Dir ->
  fs w !! PyPath.parent out = Some Dir ->
  encode_policy data q = SaveFailed e partial ->
  exists w',
    convert_to_webp inp out q w = (Ok false, w') /\
    stdout w' = stdout w ++ [LConvError (PyPath.name inp) (err_msg e)] /\
    only_at out w w'.
Proof.
  intros Hin Hn Hp Hpol.
  destruct (convert_to_webp_cases inp out q w)
    as [(data' & d' & Hin' & Hpol' & _ & _ & Hrun) | (msg & w' & Hrun & Hstd & Hat & Hc)].
  - rewrite Hin in Hin'. injection Hin' as <-.
    rewrite Hpol in Hpol'. discriminate.
  - destruct (Hc data Hin) as (_ & _ & Hmsg).
    rewrite (Hmsg e partial Hpol Hn Hp) in Hstd.
    exists w'. auto.
Qed.

Lemma keeps_alpha_spec (img : Image) :
  keeps_alpha img = true <-> has_alpha_channel img.
Proof.
  unfold keeps_alpha, has_alpha_channel.
  rewrite orb_true_iff, andb_true_iff, !bool_decide_eq_true, elem_of_dom.
  rewrite !elem_of_cons, elem_of_nil. tauto.
Qed.

Lemma encode_policy_alpha (data : bytes) (img : Image) (q : Z) :
  Image_open data = inr img -> has_alpha_channel img ->
  encode_policy data q = Image_save img "WEBP" q (Some false).
Proof.
  intros Ho Ha. unfold encode_policy. rewrite Ho.
  apply keeps_alpha_spec in Ha. rewrite Ha. reflexivity.
Qed.

Lemma encode_policy_rgb (data : bytes) (img : Image) (q : Z) :
  Image_open data = inr img -> ~ has_alpha_channel img -> mode img = "RGB" ->
  encode_policy data q = Image_save img "WEBP" q None.
Proof.
  intros Ho Ha Hm. unfold encode_policy. rewrite Ho.
  destruct (keeps_alpha img) eqn:E; [apply keeps_alpha_spec in E; contradiction|].
  rewrite (bool_decide_eq_true_2 _ Hm). reflexivity.
Qed.

Lemma encode_policy_other (data : bytes) (img : Image) (q : Z) :
  Image_open data = inr img -> ~ has_alpha_channel img -> mode img <> "RGB" ->
  encode_policy data q =
    match Image_convert img "RGB" with
    | inl e => SaveFailed e None
    | inr rgb => Image_save rgb "WEBP" q None
    end.
Proof.
  intros Ho Ha Hm. unfold encode_policy. rewrite Ho.
  destruct (keeps_alpha img) eqn:E; [apply keeps_alpha_spec in E; contradiction|].
  rewrite (bool_decide_eq_false_2 _ Hm). reflexivity.
Qed.

End Converter.

(** ** The loop *)

Section Loop.

Context `{PIL : Pillow} `{ACL : Access}.
Variable SCRIPT_DIR : Path.

Local Abbreviation IN := (INPUT_FOLDER SCRIPT_DIR).
Local Abbreviation OUT := (OUTPUT_FOLDER SCRIPT_DIR).
Local Abbreviation out_of := (output_file_of SCRIPT_DIR).

Lemma parent_output_file (input_file : Path) : PyPath.parent (out_of input_file) = OUT.
Proof. unfold output_file_of. apply parent_join. Qed.

(** One turn of the loop on an existing file. *)
Lemma convert_one_spec (total i : nat) (input_file : Path) (t : Totals)
    (w : World) (data : bytes) :
  fs w !! input_file = Some (File data) ->
  fs w !! OUT = Some Dir ->
  exists t' w',
    convert_one SCRIPT_DIR total i input_file t w = (Ok t', w') /\
    only_at (out_of input_file) w w' /\
    total_input_size t' = (total_input_size t + size_mb data)%Q /\
    match conv_outcome SCRIPT_DIR (fs w) input_file with
    | Some d =>
        fs w' = <[out_of input_file := File d]> (fs w) /\
        success_count t' = (success_count t + 1)%nat /\
        total_output_size t' = (total_output_size t + size_mb d)%Q /\
        stdout w' = stdout w ++
          [LConverting i total (PyPath.name input_file);
           LConverted (size_mb data) (size_mb d)
             (reduction_value (size_mb data) (size_mb d))]
    | None =>
        success_count t' = success_count t /\
        total_output_size t' = total_output_size t /\
        exists msg,
          stdout w' = stdout w ++
            [LConverting i total (PyPath.name input_file);
             LConvError (PyPath.name input_file) msg;
             LNewline]
    end.
Proof.
  intros Hin Hout. unfold convert_one. cbv zeta.
  erewrite bind_ok by apply print_run.
  set (w1 := mkWorld (fs w) (stdout w ++ [LConverting i total (PyPath.name input_file)])).
  erewrite bind_ok by (apply (get_file_size_mb_file input_file w1 data); exact Hin).
  destruct (convert_to_webp_cases input_file (out_of input_file) 85 w1)
    as [(data' & d & Hin' & Hpol & Hn & Hp & Hrun) | (msg & w' & Hrun & Hstd & Hat & Hc)].
  - simpl in Hin', Hn. rewrite Hin in Hin'. injection Hin' as <-.
    erewrite bind_ok by exact Hrun. cbv iota.
    erewrite bind_ok by
      (apply (get_file_size_mb_file _ _ d); simpl; apply lookup_insert_eq).
    erewrite bind_ok by apply guarded_reduction.
    erewrite bind_ok by apply print_run.
    eexists _, _. split; [reflexivity|].
    split; [exact (only_at_write _ w d _ Hn)|].
    split; [reflexivity|].
    unfold conv_outcome. rewrite Hin, Hpol.
    destruct (fs w !! out_of input_file) as [[?|]|] eqn:E; try contradiction;
      (split; [reflexivity|]); (split; [reflexivity|]); (split; [reflexivity|]);
      simpl; rewrite <- app_assoc; reflexivity.
  - erewrite bind_ok by exact Hrun. cbv iota.
    erewrite bind_ok by apply print_run.
    eexists _, _. split; [reflexivity|].
    split; [exact Hat|]. split; [reflexivity|].
    destruct (Hc data Hin) as (Hcause & _ & _).
    assert (conv_outcome SCRIPT_DIR (fs w) input_file = None) as ->.
    { unfold conv_outcome. rewrite Hin. simpl in Hcause.
      destruct Hcause as [-> | [Hp | (e & partial & ->)]].
      - reflexivity.
      - rewrite parent_output_file in Hp. contradiction.
      - destruct (fs w !! out_of input_file) as [[?|]|]; reflexivity. }
    split; [reflexivity|]. split; [reflexivity|].
    exists msg. simpl. rewrite Hstd. simpl. rewrite <- !app_assoc. reflexivity.
Qed.

Lemma input_not_output_entry (p : Path) :
  OS.is_child IN p = true -> OS.is_child OUT p = false.
Proof.
  intros H. apply is_child_spec in H as [n ->].
  destruct (OS.is_child OUT (IN ++ [n])) eqn:E; [|reflexivity].
  apply is_child_spec in E as [m E].
  exfalso. exact (below_input_not_output SCRIPT_DIR [n] m E).
Qed.

Lemma output_folder_not_entry : OS.is_child OUT OUT = false.
Proof.
  destruct (OS.is_child OUT OUT) eqn:E; [|reflexivity].
  apply is_child_spec in E as [m E]. symmetry in E.
  exfalso. exact (child_not_parent _ _ E).
Qed.

Lemma same_but_outputs_refl (w : World) : same_but_outputs SCRIPT_DIR (fs w) w.
Proof. split; intros; reflexivity. Qed.

Lemma same_but_outputs_step (f0 : gmap Path Node) (w w' : World) (input_file : Path) :
  same_but_outputs SCRIPT_DIR f0 w ->
  only_at (out_of input_file) w w' ->
  same_but_outputs SCRIPT_DIR f0 w'.
Proof.
  intros [H1 H2] [A1 A2]. split.
  - intros p Hp. rewrite A1; [apply H1, Hp|].
    intros ->. unfold output_file_of, PyPath.join in Hp.
    assert (OS.is_child OUT (OUT ++ [(PyPath.stem input_file ++ ".webp")%string]) = true) as E
      by (apply is_child_spec; eauto).
    congruence.
  - intros p. destruct (decide (p = out_of input_file)) as [-> | Hne].
    + rewrite A2. apply H2.
    + rewrite (A1 p Hne). apply H2.
Qed.

Lemma conv_outcome_same (f0 : gmap Path Node) (w : World) (input_file : Path) :
  same_but_outputs SCRIPT_DIR f0 w ->
  OS.is_child IN input_file = true ->
  conv_outcome SCRIPT_DIR (fs w) input_file = conv_outcome SCRIPT_DIR f0 input_file.
Proof.
  intros [H1 H2] Hc. unfold conv_outcome.
  rewrite (H1 input_file (input_not_output_entry _ Hc)).
  destruct (f0 !! input_file) as [[data|]|]; try reflexivity.
  pose proof (H2 (out_of input_file)) as Hd.
  destruct (fs w !! out_of input_file) as [[?|]|], (f0 !! out_of input_file) as [[?|]|];
    try reflexivity; exfalso;
    try (destruct Hd as [Hd _]; specialize (Hd eq_refl); discriminate);
    try (destruct Hd as [_ Hd]; specialize (Hd eq_refl); discriminate).
Qed.

Lemma Qsum_cons (x : Q) (l : list Q) : Qsum (x :: l) = (x + Qsum l)%Q.
Proof. reflexivity. Qed.

Lemma Qsum_app (l1 l2 : list Q) : (Qsum (l1 ++ l2) == Qsum l1 + Qsum l2)%Q.
Proof.
  induction l1 as [|x l1 IH]; simpl.
  - ring.
  - change (foldr Qplus 0%Q (l1 ++ l2)) with (Qsum (l1 ++ l2)).
    change (foldr Qplus 0%Q l1) with (Qsum l1). rewrite IH. ring.
Qed.

Lemma successes_cons (f0 : gmap Path Node) (p : Path) (files : list Path) :
  successes SCRIPT_DIR f0 (p :: files) =
  ((if converted SCRIPT_DIR f0 p then 1 else 0) + successes SCRIPT_DIR f0 files)%nat.
Proof.
  unfold successes. rewrite filter_cons.
  destruct (converted SCRIPT_DIR f0 p); simpl; reflexivity.
Qed.

(** The loop over files of the input folder: it ends normally, leaves
    everything outside the output folder as it was, and its totals are
    the sums over the files. *)
Lemma convert_all_spec (f0 : gmap Path Node) (files : list Path) :
  f0 !! OUT = Some Dir ->
  Forall (input_file_of SCRIPT_DIR f0) files ->
  forall (total i : nat) (t : Totals) (w : World),
    same_but_outputs SCRIPT_DIR f0 w ->
    exists t' w' lines,
      convert_all SCRIPT_DIR total i files t w = (Ok t', w') /\
      same_but_outputs SCRIPT_DIR f0 w' /\
      stdout w' = stdout w ++ lines /\
      progress_names lines = map PyPath.name files /\
      Forall (fun l => is_summary_line l = false) lines /\
      success_count t' = (success_count t + successes SCRIPT_DIR f0 files)%nat /\
      (total_input_size t' == total_input_size t + Qsum (map (file_mb f0) files))%Q /\
      (total_output_size t' ==
         total_output_size t + Qsum (map (output_mb SCRIPT_DIR f0) files))%Q.
Proof.
  intros Hout Hfiles. induction Hfiles as [|input_file files [Hc Hf] _ IH];
    intros total i t w Hw.
  - exists t, w, []. simpl. rewrite app_nil_r.
    split; [reflexivity|]. split; [exact Hw|]. split; [reflexivity|].
    split; [reflexivity|]. split; [constructor|].
    unfold successes. simpl. split; [lia|]. split; ring.
  - unfold OS.is_file in Hf.
    destruct (f0 !! input_file) as [[data|]|] eqn:E0; try discriminate.
    assert (fs w !! input_file = Some (File data)) as Hin.
    { destruct Hw as [H1 _]. rewrite H1; [exact E0 | apply input_not_output_entry, Hc]. }
    assert (fs w !! OUT = Some Dir) as Hout'.
    { destruct Hw as [_ H2]. apply H2, Hout. }
    destruct (convert_one_spec total i input_file t w data Hin Hout')
      as (t1 & w1 & Hrun & Hat & Hti & Hres).
    pose proof (same_but_outputs_step f0 w w1 input_file Hw Hat) as Hw1.
    destruct (IH total (S i) t1 w1 Hw1)
      as (t' & w' & lines & Hrun' & Hw' & Hstd & Hnames & Hnosum & Hsc & Hin' & Hout'').
    rewrite (conv_outcome_same f0 w input_file Hw Hc) in Hres.
    assert (file_mb f0 input_file = size_mb data) as Hmb
      by (unfold file_mb; rewrite E0; reflexivity).
    cbn [convert_all]. erewrite bind_ok by exact Hrun.
    rewrite successes_cons. cbn [map]. rewrite !Qsum_cons.
    unfold output_mb at 1, converted.
    destruct (conv_outcome SCRIPT_DIR f0 input_file) as [d|].
    + destruct Hres as (_ & Hs1 & Ho1 & Hstd1).
      eexists t', w', (_ :: _ :: lines).
      split; [exact Hrun'|]. split; [exact Hw'|].
      split; [rewrite Hstd, Hstd1, <- app_assoc; reflexivity|].
      split; [simpl; rewrite Hnames; reflexivity|].
      split; [repeat constructor; exact Hnosum|].
      split; [rewrite Hsc, Hs1; lia|].
      split; [rewrite Hin', Hti, Hmb; ring|].
      rewrite Hout'', Ho1. ring.
    + destruct Hres as (Hs1 & Ho1 & msg & Hstd1).
      eexists t', w', (_ :: _ :: _ :: lines).
      split; [exact Hrun'|]. split; [exact Hw'|].
      split; [rewrite Hstd, Hstd1, <- app_assoc; reflexivity|].
      split; [simpl; rewrite Hnames; reflexivity|].
      split; [repeat constructor; exact Hnosum|].
      split; [rewrite Hsc, Hs1; lia|].
      split; [rewrite Hin', Hti, Hmb; ring|].
      rewrite Hout'', Ho1. ring.
Qed.

End Loop.

(** ** The whole script *)

Section Script.

Context `{PIL : Pillow} `{ACL : Access}.
Variable SCRIPT_DIR : Path.

Local Abbreviation IN := (INPUT_FOLDER SCRIPT_DIR).
Local Abbreviation OUT := (OUTPUT_FOLDER SCRIPT_DIR).

Lemma parent_input_folder : PyPath.parent IN = SCRIPT_DIR.
Proof. apply parent_join. Qed.

Lemma parent_output_folder : PyPath.parent OUT = SCRIPT_DIR.
Proof. apply parent_join. Qed.

Lemma mkdir_cases (p : Path) (w : World) :
  (mkdir_ok (fs w) p = true /\
   OS.mkdir_exist_ok p w = (Ok tt, mkWorld (<[p := Dir]> (fs w)) (stdout w)))
  \/
  (mkdir_ok (fs w) p = false /\
   exists cls msg, OS.mkdir_exist_ok p w = (Raise (Exception cls msg), w)).
Proof.
  unfold mkdir_ok, OS.mkdir_exist_ok, OS.check_parent.
  destruct (fs w !! p) as [[d|]|] eqn:E.
  - right. split; [reflexivity|]. eexists _, _. reflexivity.
  - left. split; [reflexivity|]. rewrite (insert_id _ _ _ E), world_eta. reflexivity.
  - destruct (fs w !! PyPath.parent p) as [[d|]|].
    + right. split; [reflexivity|]. eexists _, _. reflexivity.
    + left. split; reflexivity.
    + right. split; [reflexivity|]. eexists _, _. reflexivity.
Qed.

Lemma mkdir_ok_after_input (f : gmap Path Node) :
  mkdir_ok (<[IN := Dir]> f) OUT = mkdir_ok f OUT.
Proof.
  unfold mkdir_ok. rewrite parent_output_folder.
  rewrite !lookup_insert_ne; [reflexivity | apply child_not_parent |].
  apply input_folder_not_output.
Qed.

Lemma create_folders_cases (w : World) :
  (folders_ok SCRIPT_DIR (fs w) = true /\
   create_folders SCRIPT_DIR w =
     (Ok tt, mkWorld (prepared SCRIPT_DIR (fs w))
               (stdout w ++ [LInputFolder IN; LOutputFolder OUT])))
  \/
  (folders_ok SCRIPT_DIR (fs w) = false /\
   exists cls msg w',
     create_folders SCRIPT_DIR w = (Raise (Exception cls msg), w') /\
     stdout w' = stdout w /\
     forall p, p <> IN -> fs w' !! p = fs w !! p).
Proof.
  unfold folders_ok, create_folders.
  destruct (mkdir_cases IN w) as [[Hok Hrun] | [Hok (cls & msg & Hrun)]]; rewrite Hok.
  - erewrite bind_ok by exact Hrun.
    set (w1 := mkWorld (<[IN := Dir]> (fs w)) (stdout w)).
    destruct (mkdir_cases OUT w1) as [[Hok' Hrun'] | [Hok' (cls & msg & Hrun')]];
      simpl in Hok'; rewrite mkdir_ok_after_input in Hok'; rewrite Hok'.
    + left. split; [reflexivity|].
      erewrite bind_ok by exact Hrun'.
      erewrite bind_ok by apply print_run. rewrite print_run.
      unfold prepared. simpl. rewrite <- app_assoc. reflexivity.
    + right. split; [reflexivity|].
      erewrite bind_raise by exact Hrun'.
      eexists _, _, _. split; [reflexivity|]. split; [reflexivity|].
      intros p Hp. simpl. apply lookup_insert_ne. congruence.
  - right. split; [reflexivity|].
    erewrite bind_raise by exact Hrun.
    eexists _, _, _. split; [reflexivity|]. split; reflexivity.
Qed.

Lemma prepared_input (f : gmap Path Node) : prepared SCRIPT_DIR f !! IN = Some Dir.
Proof.
  unfold prepared. rewrite lookup_insert_ne by (apply not_eq_sym, input_folder_not_output).
  apply lookup_insert_eq.
Qed.

Lemma prepared_output (f : gmap Path Node) : prepared SCRIPT_DIR f !! OUT = Some Dir.
Proof. unfold prepared. apply lookup_insert_eq. Qed.

Lemma prepared_other (f : gmap Path Node) (p : Path) :
  p <> IN -> p <> OUT -> prepared SCRIPT_DIR f !! p = f !! p.
Proof.
  intros H1 H2. unfold prepared. rewrite !lookup_insert_ne by congruence. reflexivity.
Qed.

Lemma comprehension_filter {A} (test : A -> M bool) (P : A -> bool) (l : list A)
    (w : World) :
  (forall x, x ∈ l -> test x w = (Ok (P x), w)) ->
  comprehension test l w = (Ok (filter (fun x => P x) l), w).
Proof.
  induction l as [|x l IH]; intros H; [reflexivity|].
  cbn [comprehension].
  erewrite bind_ok by (apply H, list_elem_of_here).
  erewrite bind_ok by (apply IH; intros y Hy; apply H, list_elem_of_further, Hy).
  rewrite filter_cons. destruct (P x); reflexivity.
Qed.

Lemma entry_parent (f : gmap Path Node) (p : Path) :
  p ∈ entries_of SCRIPT_DIR f -> PyPath.parent p = IN.
Proof.
  unfold entries_of. rewrite list_elem_of_filter. intros [H _].
  apply Is_true_eq_true, is_child_spec in H as [nm ->]. apply parent_join.
Qed.

Lemma input_accessible_discovery (f : gmap Path Node) :
  input_accessible SCRIPT_DIR = true -> discovery_ok SCRIPT_DIR f = true.
Proof.
  unfold input_accessible, discovery_ok. rewrite !andb_true_iff, orb_true_iff. tauto.
Qed.

(** The list comprehension when the input folder can be read. *)
Lemma list_files_run (formats : gset string) (w : World) :
  fs w !! IN = Some Dir ->
  discovery_ok SCRIPT_DIR (fs w) = true ->
  list_files SCRIPT_DIR formats w = (Ok (files_in SCRIPT_DIR (fs w) formats), w).
Proof.
  intros H Hd. unfold discovery_ok in Hd. apply andb_true_iff in Hd as [Hl Hs].
  unfold list_files, files_in. fold (entries_of SCRIPT_DIR (fs w)).
  erewrite bind_ok by (unfold OS.iterdir; rewrite H, Hl; reflexivity).
  fold (entries_of SCRIPT_DIR (fs w)).
  apply orb_true_iff in Hs as [Hs | He].
  - apply (comprehension_filter _ (has_format (fs w) formats)).
    intros p Hp. unfold OS.path_is_file.
    erewrite bind_ok; [reflexivity|]. rewrite (entry_parent _ _ Hp), Hs. reflexivity.
  - apply bool_decide_eq_true in He. rewrite He. reflexivity.
Qed.

(** The list comprehension when the input folder cannot be read: the
    permission error leaves the call. *)
Lemma list_files_denied (formats : gset string) (w : World) :
  fs w !! IN = Some Dir ->
  discovery_ok SCRIPT_DIR (fs w) = false ->
  exists msg,
    list_files SCRIPT_DIR formats w = (Raise (Exception "PermissionError" msg), w).
Proof.
  intros H Hd. unfold discovery_ok in Hd. unfold list_files.
  destruct (may_list IN) eqn:Hl.
  - cbn [andb] in Hd. apply orb_false_iff in Hd as [Hs He].
    apply bool_decide_eq_false in He.
    erewrite bind_ok by (unfold OS.iterdir; rewrite H, Hl; reflexivity).
    fold (entries_of SCRIPT_DIR (fs w)).
    destruct (entries_of SCRIPT_DIR (fs w)) as [|p rest] eqn:E; [contradiction|].
    assert (PyPath.parent p = IN) as Hp
      by (apply (entry_parent (fs w)); rewrite E; apply list_elem_of_here).
    cbn [comprehension]. eexists.
    erewrite bind_raise; [reflexivity|].
    erewrite bind_raise; [reflexivity|].
    unfold OS.path_is_file. rewrite Hp, Hs. reflexivity.
  - eexists. erewrite bind_raise; [reflexivity|].
    unfold OS.iterdir. rewrite H, Hl. reflexivity.
Qed.

Lemma files_in_input_files (f : gmap Path Node) (formats : gset string) :
  Forall (input_file_of SCRIPT_DIR f) (files_in SCRIPT_DIR f formats).
Proof.
  apply Forall_forall. intros p Hp. unfold files_in in Hp.
  apply list_elem_of_filter in Hp as [Hfmt Hp].
  apply list_elem_of_filter in Hp as [Hchild _].
  split.
  - apply Is_true_eq_true, Hchild.
  - apply Is_true_eq_true in Hfmt. unfold has_format in Hfmt.
    apply andb_true_iff in Hfmt as [Hfile _]. exact Hfile.
Qed.

Lemma total_reduction_run (a b : Q) (w : World) :
  Qpositive a = true ->
  (r ← truediv (a - b) a; mret (r * 100)%Q) w = (Ok ((a - b) / a * 100)%Q, w).
Proof.
  intros H. erewrite bind_ok by (apply truediv_ok, Qpositive_nonzero, H). reflexivity.
Qed.

(** [main] when the folders cannot be created: the error of [mkdir]
    leaves the function. *)
Lemma main_blocked (HEIC_SUPPORTED : bool) (w : World) :
  folders_ok SCRIPT_DIR (fs w) = false ->
  exists cls msg w',
    main SCRIPT_DIR HEIC_SUPPORTED w = (Raise (Exception cls msg), w') /\
    stdout w' = stdout w ++ [LRule; LTitle; LRule] /\
    forall p, p <> IN -> fs w' !! p = fs w !! p.
Proof.
  intros Hbad. unfold main.
  do 3 (erewrite bind_ok by apply print_run).
  match goal with |- context [create_folders SCRIPT_DIR ≫= _] => idtac end.
  match goal with
  | |- exists _ _ _, (_ ≫= _) ?w0 = _ /\ _ =>
      destruct (create_folders_cases w0) as [[Hok _] | (_ & cls & msg & w' & Hrun & Hstd & Hfr)]
  end.
  - simpl in Hok. congruence.
  - erewrite bind_raise by exact Hrun.
    exists cls, msg, w'. split; [reflexivity|]. split.
    + rewrite Hstd. simpl. rewrite <- !app_assoc. reflexivity.
    + intros p Hp. rewrite (Hfr p Hp). reflexivity.
Qed.

(** [main] when the folders are there but the input folder cannot be
    read: the permission error of the first list comprehension leaves the
    function, after the lines about the folders. *)
Lemma main_denied (HEIC_SUPPORTED : bool) (w : World) :
  folders_ok SCRIPT_DIR (fs w) = true ->
  discovery_ok SCRIPT_DIR (prepared SCRIPT_DIR (fs w)) = false ->
  exists msg,
    main SCRIPT_DIR HEIC_SUPPORTED w =
      (Raise (Exception "PermissionError" msg),
       mkWorld (prepared SCRIPT_DIR (fs w)) (stdout w ++ banner SCRIPT_DIR)).
Proof.
  intros Hok Hd. unfold main.
  do 3 (erewrite bind_ok by apply print_run).
  match goal with
  | |- exists _, (_ ≫= _) ?w0 = _ =>
      destruct (create_folders_cases w0) as [[_ Hrun] | [Hbad _]];
        [| simpl in Hbad; congruence]
  end.
  erewrite bind_ok by exact Hrun. cbn [fs stdout]. cbv zeta.
  match goal with
  | |- exists _, (list_files _ ?fm ≫= _) ?w1 = _ =>
      destruct (list_files_denied fm w1 (prepared_input (fs w)) Hd) as [msg Hl]
  end.
  exists msg. erewrite bind_raise by exact Hl.
  unfold banner. rewrite <- !app_assoc. reflexivity.
Qed.

(** [main] when the folders exist or can be created. *)
Lemma main_spec (HEIC_SUPPORTED : bool) (w : World) :
  folders_ok SCRIPT_DIR (fs w) = true ->
  discovery_ok SCRIPT_DIR (prepared SCRIPT_DIR (fs w)) = true ->
  let f1 := prepared SCRIPT_DIR (fs w) in
  let image_files := files_in SCRIPT_DIR f1 (all_formats_of HEIC_SUPPORTED) in
  let heic_files := files_in SCRIPT_DIR f1 HEIC_FORMATS in
  exists w' tail,
    main SCRIPT_DIR HEIC_SUPPORTED w = (Ok tt, w') /\
    same_but_outputs SCRIPT_DIR f1 w' /\
    stdout w' = stdout w ++ banner SCRIPT_DIR
                  ++ heic_warning HEIC_SUPPORTED heic_files ++ tail /\
    ((image_files = [] /\
      tail = [LNoImages IN; LSupportedFormats (all_formats_of HEIC_SUPPORTED)] /\
      fs w' = f1)
     \/
     (image_files <> [] /\
      exists t lines,
        tail = LFound (length image_files) :: lines
                 ++ summary_lines SCRIPT_DIR t (length image_files) /\
        progress_names lines = map PyPath.name image_files /\
        Forall (fun l => is_summary_line l = false) lines /\
        success_count t = successes SCRIPT_DIR f1 image_files /\
        (total_input_size t == Qsum (map (file_mb f1) image_files))%Q /\
        (total_output_size t == Qsum (map (output_mb SCRIPT_DIR f1) image_files))%Q)).
Proof.
  intros Hok Hd f1 image_files heic_files. unfold main.
  do 3 (erewrite bind_ok by apply print_run).
  match goal with
  | |- exists _ _, (_ ≫= _) ?w0 = _ /\ _ =>
      destruct (create_folders_cases w0) as [[_ Hrun] | [Hbad _]];
        [| simpl in Hbad; congruence]
  end.
  erewrite bind_ok by exact Hrun. cbn [fs stdout]. fold f1. cbv zeta.
  erewrite bind_ok by (apply list_files_run; [apply prepared_input | exact Hd]).
  erewrite bind_ok by (apply list_files_run; [apply prepared_input | exact Hd]).
  cbn [fs stdout]. fold f1. fold image_files. fold heic_files.
  set (out0 := ((((stdout w ++ [LRule]) ++ [LTitle]) ++ [LRule]) ++
                 [LInputFolder IN; LOutputFolder OUT])).
  assert (out0 = stdout w ++ banner SCRIPT_DIR) as Hout0
    by (unfold out0, banner; rewrite <- !app_assoc; reflexivity).
  set (w2 := mkWorld f1 (out0 ++ heic_warning HEIC_SUPPORTED heic_files)).
  assert ((if negb (bool_decide (heic_files = [])) && negb HEIC_SUPPORTED
           then print (LHeicWarning (length heic_files));; print LHeicInstallHint
           else mret tt) (mkWorld f1 out0) = (Ok tt, w2)) as Hwarn.
  { unfold w2, heic_warning.
    destruct (negb (bool_decide (heic_files = [])) && negb HEIC_SUPPORTED).
    - erewrite bind_ok by apply print_run. rewrite print_run. simpl.
      rewrite <- app_assoc. reflexivity.
    - rewrite app_nil_r. reflexivity. }
  erewrite bind_ok by exact Hwarn.
  destruct (bool_decide (image_files = [])) eqn:Eempty.
  - apply bool_decide_eq_true in Eempty.
    erewrite bind_ok by apply print_run. rewrite print_run.
    eexists _, _. split; [reflexivity|]. cbn [fs stdout].
    split; [split; intros; reflexivity|].
    split; [unfold w2; cbn [fs stdout]; rewrite Hout0, <- !app_assoc; reflexivity|].
    left. split; [exact Eempty|]. split; reflexivity.
  - apply bool_decide_eq_false in Eempty.
    erewrite bind_ok by apply print_run.
    set (w3 := mkWorld (fs w2) (stdout w2 ++ [LFound (length image_files)])).
    destruct (convert_all_spec SCRIPT_DIR f1 image_files (prepared_output (fs w))
                (files_in_input_files f1 _) (length image_files) 1%nat
                (mkTotals 0 0 0) w3)
      as (t & w4 & lines & Hloop & Hsame & Hstd & Hnames & Hnosum & Hsc & Hti & Hto).
    { split; intros; reflexivity. }
    erewrite bind_ok by exact Hloop.
    do 6 (erewrite bind_ok by apply print_run).
    cbn [fs stdout].
    set (o5 := ((((((stdout w4 ++ [LRule]) ++ [LSummaryTitle]) ++ [LRule]) ++
                  [LSummaryCount (success_count t) (length image_files)]) ++
                  [LSummaryInput (total_input_size t)]) ++
                  [LSummaryOutput (total_output_size t)])).
    assert (exists w6,
      ((if Qpositive (total_input_size t)
        then total_reduction ←
               (r ← truediv (total_input_size t - total_output_size t)
                      (total_input_size t);
                mret (r * 100)%Q);
             print (LSummarySaving (total_input_size t - total_output_size t)
                      total_reduction)
        else mret tt);; print (LSavedIn OUT)) (mkWorld (fs w4) o5) = (Ok tt, w6) /\
      fs w6 = fs w4 /\
      stdout w6 = stdout w4 ++ summary_lines SCRIPT_DIR t (length image_files))
      as (w6 & Hsum & Hfs6 & Hstd6).
    { unfold summary_lines. destruct (Qpositive (total_input_size t)) eqn:Epos.
      - erewrite bind_ok;
          [| erewrite bind_ok by (apply total_reduction_run, Epos); apply print_run].
        rewrite print_run. eexists. split; [reflexivity|]. split; [reflexivity|].
        unfold o5. cbn [fs stdout]. rewrite <- !app_assoc. reflexivity.
      - erewrite bind_ok by reflexivity. rewrite print_run.
        eexists. split; [reflexivity|]. split; [reflexivity|].
        unfold o5. cbn [fs stdout]. rewrite <- !app_assoc. reflexivity. }
    rewrite Hsum. exists w6, (LFound (length image_files) :: lines
                   ++ summary_lines SCRIPT_DIR t (length image_files)).
    split; [reflexivity|].
    split; [destruct Hsame as [S1 S2]; split; intros; rewrite Hfs6; auto|].
    split.
    { rewrite Hstd6, Hstd. unfold w3, w2. cbn [fs stdout]. rewrite Hout0.
      rewrite <- !app_assoc. reflexivity. }
    right. split; [exact Eempty|]. exists t, lines.
    split; [reflexivity|]. split; [exact Hnames|]. split; [exact Hnosum|].
    split; [rewrite Hsc; reflexivity|].
    split; [rewrite Hti; simpl; ring | rewrite Hto; simpl; ring].
Qed.

Lemma script_no_pillow (env : Env) (w : World) :
  pillow_installed env = false ->
  script SCRIPT_DIR env w =
    (Raise (SystemExit 1),
     mkWorld (fs w) (stdout w ++ [LPillowMissing; LPillowInstallHint])).
Proof.
  intros H. unfold script, import_module. rewrite H.
  erewrite bind_raise; [reflexivity|].
  erewrite try_caught; [| reflexivity | reflexivity].
  erewrite bind_ok by apply print_run.
  erewrite bind_ok by apply print_run.
  unfold py_exit, raise. cbn [fs stdout]. rewrite <- app_assoc. reflexivity.
Qed.

Lemma script_pillow (env : Env) (w : World) :
  pillow_installed env = true ->
  script SCRIPT_DIR env w = main SCRIPT_DIR (pillow_heif_installed env) w.
Proof.
  intros H. unfold script, import_module. rewrite H.
  erewrite bind_ok by (apply try_ok; reflexivity).
  destruct (pillow_heif_installed env).
  - erewrite bind_ok; [reflexivity|]. apply try_ok. reflexivity.
  - erewrite bind_ok; [reflexivity|].
    erewrite try_caught; [reflexivity | reflexivity | reflexivity].
Qed.

End Script.

(** * The claims *)

Section Claims.

Context `{PIL : Pillow} `{ACL : Access}.
Variable SCRIPT_DIR : Path.

Local Abbreviation IN := (INPUT_FOLDER SCRIPT_DIR).
Local Abbreviation OUT := (OUTPUT_FOLDER SCRIPT_DIR).
Local Abbreviation out_of := (output_file_of SCRIPT_DIR).

(** C1.  For a decoded image whose destination can be written, the file
    that [convert_to_webp] leaves is the one Pillow's [save] makes
    - from the image as it is, with format WEBP, the given quality and
      [lossless=False], when the image has an alpha channel (mode RGBA, LA,
      or P with a transparency entry);
    - from the image converted to RGB, with format WEBP and the given
      quality, when it has no alpha channel and its mode is not RGB;
    - from the image as it is, with format WEBP and the given quality, when
      its mode is RGB;
    and when that call of [save] fails the function returns [False]. *)
Theorem convert_to_webp_policy (inp out : Path) (q : Z) (w : World)
    (data : bytes) (img : Image) :
  fs w !! inp = Some (File data) ->
  Image_open data = inr img ->
  fs w !! out <> Some Dir ->
  fs w !! PyPath.parent out = Some Dir ->
  let written d := (Ok true, mkWorld (<[out := File d]> (fs w)) (stdout w)) in
  let failed := fst (convert_to_webp inp out q w) = Ok false in
  (has_alpha_channel img ->
     match Image_save img "WEBP" q (Some false) with
     | Saved d => convert_to_webp inp out q w = written d
     | SaveFailed _ _ => failed
     end)
  /\
  (~ has_alpha_channel img -> mode img <> "RGB" ->
     match Image_convert img "RGB" with
     | inr rgb =>
         mode rgb = "RGB" /\
         match Image_save rgb "WEBP" q None with
         | Saved d => convert_to_webp inp out q w = written d
         | SaveFailed _ _ => failed
         end
     | inl _ => failed
     end)
  /\
  (~ has_alpha_channel img -> mode img = "RGB" ->
     match Image_save img "WEBP" q None with
     | Saved d => convert_to_webp inp out q w = written d
     | SaveFailed _ _ => failed
     end).
Proof.
  intros Hin Hopen Hn Hp written failed.
  assert (forall d, encode_policy data q = Saved d ->
            convert_to_webp inp out q w = written d) as Hok
    by (intros d; apply convert_to_webp_success; assumption).
  assert (forall e partial, encode_policy data q = SaveFailed e partial -> failed) as Hko.
  { intros e partial He.
    destruct (convert_to_webp_failure inp out q w data e partial Hin Hn Hp He)
      as (w' & Hrun & _). unfold failed. rewrite Hrun. reflexivity. }
  split; [|split].
  - intros Ha. pose proof (encode_policy_alpha data img q Hopen Ha) as E.
    destruct (Image_save img "WEBP" q (Some false)); eauto.
  - intros Ha Hm. pose proof (encode_policy_other data img q Hopen Ha Hm) as E.
    destruct (Image_convert img "RGB") as [e | rgb] eqn:Ec; [eauto|].
    split; [apply (Image_convert_mode img "RGB" rgb Ec)|].
    destruct (Image_save rgb "WEBP" q None); eauto.
  - intros Ha Hm. pose proof (encode_policy_rgb data img q Hopen Ha Hm) as E.
    destruct (Image_save img "WEBP" q None); eauto.
Qed.

(** C2.  [convert_to_webp] never lets an exception out: it returns a
    boolean, [True] without printing, or [False] after printing one line
    with the name of the file and the message of the error, and touches
    nothing but its destination.  A decoding error and an error of the
    conversion or of the encoder are reported with their own message.  The
    loop goes on after a failure: each file of the list has its turn. *)
Theorem convert_to_webp_catches_errors :
  (forall (inp out : Path) (q : Z) (w : World),
     exists (b : bool) (w' : World),
       convert_to_webp inp out q w = (Ok b, w') /\
       only_at out w w' /\
       if b then stdout w' = stdout w
       else exists msg, stdout w' = stdout w ++ [LConvError (PyPath.name inp) msg])
  /\
  (forall (inp out : Path) (q : Z) (w : World) (data : bytes) (e : PyError),
     fs w !! inp = Some (File data) ->
     Image_open data = inl e ->
     convert_to_webp inp out q w =
       (Ok false, mkWorld (fs w) (stdout w ++ [LConvError (PyPath.name inp) (err_msg e)])))
  /\
  (forall (inp out : Path) (q : Z) (w : World) (data : bytes) (e : PyError)
          (partial : option bytes),
     fs w !! inp = Some (File data) ->
     fs w !! out <> Some Dir ->
     fs w !! PyPath.parent out = Some Dir ->
     encode_policy data q = SaveFailed e partial ->
     exists w',
       convert_to_webp inp out q w = (Ok false, w') /\
       stdout w' = stdout w ++ [LConvError (PyPath.name inp) (err_msg e)])
  /\
  (forall (f0 : gmap Path Node) (files : list Path) (total i : nat) (t : Totals)
          (w : World),
     f0 !! OUT = Some Dir ->
     Forall (input_file_of SCRIPT_DIR f0) files ->
     same_but_outputs SCRIPT_DIR f0 w ->
     exists t' w' lines,
       convert_all SCRIPT_DIR total i files t w = (Ok t', w') /\
       stdout w' = stdout w ++ lines /\
       progress_names lines = map PyPath.name files /\
       success_count t' = (success_count t + successes SCRIPT_DIR f0 files)%nat).
Proof.
  split; [|split; [|split]].
  - intros inp out q w.
    destruct (convert_to_webp_cases inp out q w)
      as [(data & d & _ & _ & Hn & _ & Hrun) | (msg & w' & Hrun & Hstd & Hat & _)].
    + eexists true, _. split; [exact Hrun|].
      split; [apply only_at_write, Hn | reflexivity].
    + exists false, w'. split; [exact Hrun|]. split; [exact Hat|]. eauto.
  - intros inp out q w data e Hin Hopen.
    destruct (convert_to_webp_cases inp out q w)
      as [(data' & d & Hin' & Hpol & _) | (msg & w' & Hrun & Hstd & _ & Hc)].
    + rewrite Hin in Hin'. injection Hin' as <-.
      unfold encode_policy in Hpol. rewrite Hopen in Hpol. discriminate.
    + destruct (Hc data Hin) as (_ & Hmsg & _).
      destruct (Hmsg e) as [-> Hfs].
      { unfold encode_policy. rewrite Hopen. reflexivity. }
      rewrite Hrun. f_equal. destruct w' as [f' o']. simpl in *. congruence.
  - intros inp out q w data e partial Hin Hn Hp He.
    destruct (convert_to_webp_failure inp out q w data e partial Hin Hn Hp He)
      as (w' & Hrun & Hstd & _). eauto.
  - intros f0 files total i t w Hout Hfiles Hw.
    destruct (convert_all_spec SCRIPT_DIR f0 files Hout Hfiles total i t w Hw)
      as (t' & w' & lines & Hrun & _ & Hstd & Hnames & _ & Hsc & _).
    exists t', w', lines. auto.
Qed.

End Claims.

Lemma convert_to_webp_policy_witness :
  convert_to_webp (Demo.inp "icon.PNG") (Demo.outp "icon.webp") 85
    (mkWorld Demo.fs_ready []) =
  (Ok true,
   mkWorld (<[Demo.outp "icon.webp" := File [Byte.x02; Byte.x55; Byte.x01]]> Demo.fs_ready) []).
Proof.
  refine (proj1 (convert_to_webp_policy (Demo.inp "icon.PNG") (Demo.outp "icon.webp") 85
            (mkWorld Demo.fs_ready []) [Byte.x02; Byte.x20]
            (mkImage "RGBA" ∅ [Byte.x20]) _ _ _ _) _).
  - vm_compute. reflexivity.
  - reflexivity.
  - vm_compute. discriminate.
  - vm_compute. reflexivity.
  - left. reflexivity.
Defined.

Lemma convert_to_webp_catches_errors_witness :
  convert_to_webp (Demo.inp "broken.gif") (Demo.outp "broken.webp") 85
    (mkWorld Demo.fs_ready []) =
  (Ok false,
   mkWorld Demo.fs_ready [LConvError "broken.gif" "cannot identify image file"]).
Proof.
  refine (proj1 (proj2 (convert_to_webp_catches_errors Demo.app))
            (Demo.inp "broken.gif") (Demo.outp "broken.webp") 85
            (mkWorld Demo.fs_ready []) [Byte.xff] Demo.unidentified _ _).
  - vm_compute. reflexivity.
  - reflexivity.
Defined.

Section ExitStatus.

Context `{PIL : Pillow} `{ACL : Access}.
Variable SCRIPT_DIR : Path.


End ExitStatus.



(** ** Extensions *)

Lemma recognized_spec (heif_loaded : bool) (ext : string) :
  ext ∈ all_formats_of heif_loaded <-> recognized heif_loaded ext.
Proof.
  unfold recognized, all_formats_of, SUPPORTED_FORMATS, HEIC_FORMATS.
  destruct heif_loaded; set_unfold; intuition congruence.
Qed.


Lemma rfind_cons (c a : ascii) (r : string) :
  PyStr.rfind c (String a r) =
  if 0 <=? PyStr.rfind c r then PyStr.rfind c r + 1
  else if Ascii.eqb a c then 0 else -1.
Proof. reflexivity. Qed.

Lemma lower_ascii_dot (c : ascii) :
  Ascii.eqb (PyStr.lower_ascii c) "." = Ascii.eqb c ".".
Proof. destruct c as [[] [] [] [] [] [] [] []]; reflexivity. Qed.

Lemma rfind_lower (s : string) : PyStr.rfind "." (PyStr.lower s) = PyStr.rfind "." s.
Proof.
  induction s as [|a r IH]; [reflexivity|].
  cbn [PyStr.lower]. rewrite !rfind_cons, IH, lower_ascii_dot. reflexivity.
Qed.

Lemma length_lower (s : string) : String.length (PyStr.lower s) = String.length s.
Proof. induction s as [|a r IH]; simpl; congruence. Qed.

Lemma rfind_lower_bound (c : ascii) (s : string) : -1 <= PyStr.rfind c s < PyStr.len s.
Proof.
  unfold PyStr.len. induction s as [|a r IH]; [simpl; lia|].
  rewrite rfind_cons. cbn [String.length].
  destruct (0 <=? PyStr.rfind c r) eqn:E; [apply Z.leb_le in E; lia|].
  destruct (Ascii.eqb a c); lia.
Qed.

Lemma rfind_app (c : ascii) (s e : string) :
  0 <= PyStr.rfind c e ->
  PyStr.rfind c (s ++ e)%string = PyStr.len s + PyStr.rfind c e.
Proof.
  intros H. unfold PyStr.len. induction s as [|a r IH].
  - reflexivity.
  - change ((String a r ++ e)%string) with (String a (r ++ e)%string).
    rewrite rfind_cons, IH.
    destruct (0 <=? Z.of_nat (String.length r) + PyStr.rfind c e) eqn:E.
    + cbn [String.length]. lia.
    + apply Z.leb_gt in E. lia.
Qed.

Lemma take_drop (n : nat) (s : string) : (PyStr.take n s ++ PyStr.drop n s)%string = s.
Proof.
  revert s. induction n as [|n IH]; intros s.
  - destruct s; reflexivity.
  - destruct s as [|a r]; [reflexivity|].
    cbn [PyStr.take PyStr.drop]. change (String a (PyStr.take n r) ++ PyStr.drop n r)%string
      with (String a (PyStr.take n r ++ PyStr.drop n r)%string).
    f_equal. apply IH.
Qed.

Lemma drop_app_length (s e : string) : PyStr.drop (String.length s) (s ++ e)%string = e.
Proof. induction s as [|a r IH]; [destruct e; reflexivity | exact IH]. Qed.

Lemma take_app_length (s e : string) : PyStr.take (String.length s) (s ++ e)%string = s.
Proof.
  induction s as [|a r IH]; [destruct e; reflexivity|].
  change (PyStr.take (String.length (String a r)) (String a r ++ e)%string)
    with (String a (PyStr.take (String.length r) (r ++ e)%string)).
  f_equal. exact IH.
Qed.

Lemma length_append (s e : string) :
  String.length (s ++ e)%string = (String.length s + String.length e)%nat.
Proof.
  induction s as [|a r IH]; [reflexivity|].
  change (String.length (String a r ++ e)%string) with (S (String.length (r ++ e)%string)).
  rewrite IH. reflexivity.
Qed.

(** The suffix of a name made of a stem and an extension with one dot, at
    its start. *)
Lemma suffix_of_append (stem e : string) :
  stem <> "" -> PyStr.rfind "." e = 0 -> (2 <= String.length e)%nat ->
  PyPath.suffix_of (stem ++ e)%string = e /\ PyPath.stem_of (stem ++ e)%string = stem.
Proof.
  intros Hs Hr Hl. unfold PyPath.suffix_of, PyPath.stem_of.
  rewrite rfind_app by lia. rewrite Hr, Z.add_0_r.
  unfold PyStr.len. rewrite length_append.
  assert (0 < String.length stem)%nat by (destruct stem; [contradiction | simpl; lia]).
  assert ((0 <? Z.of_nat (String.length stem)) &&
          (Z.of_nat (String.length stem) <?
             Z.of_nat (String.length stem + String.length e) - 1) = true) as ->.
  { apply andb_true_iff. split; apply Z.ltb_lt; lia. }
  rewrite Nat2Z.id. split; [apply drop_app_length | apply take_app_length].
Qed.

(** A recognized extension is a dot followed by letters. *)
Lemma recognized_shape (ext : string) :
  recognized true ext -> PyStr.rfind "." ext = 0 /\ (2 <= String.length ext)%nat.
Proof.
  intros Hrec. unfold recognized in Hrec. set_unfold.
  assert (forall x, x = ext -> PyStr.rfind "." x = 0 /\ (2 <= String.length x)%nat ->
            PyStr.rfind "." ext = 0 /\ (2 <= String.length ext)%nat) as Hsub
    by (intros x -> Hx; exact Hx).
  intuition (try contradiction;
             match goal with
             | E : ext = ?x |- _ =>
                 apply (Hsub x (eq_sym E)); split; [reflexivity | simpl; lia]
             end).
Qed.

(** A recognized extension is the lower-case suffix of a name exactly when
    the name ends with it up to case. *)
Lemma suffix_lower_spec (nm ext : string) :
  recognized true ext ->
  PyStr.lower (PyPath.suffix_of nm) = ext <-> has_extension nm ext.
Proof.
  intros Hrec.
  destruct (recognized_shape ext Hrec) as [Hr Hl].
  split.
  - intros H. unfold PyPath.suffix_of in H.
    destruct ((0 <? PyStr.rfind "." nm) && (PyStr.rfind "." nm <? PyStr.len nm - 1)) eqn:E.
    + apply andb_true_iff in E as [E1 E2].
      apply Z.ltb_lt in E1. apply Z.ltb_lt in E2.
      exists (PyStr.take (Z.to_nat (PyStr.rfind "." nm)) nm),
             (PyStr.drop (Z.to_nat (PyStr.rfind "." nm)) nm).
      split; [symmetry; apply take_drop|]. split; [|exact H].
      destruct (Z.to_nat (PyStr.rfind "." nm)) eqn:En; [lia|].
      destruct nm; [unfold PyStr.len in E2; simpl in E2; lia | discriminate].
    + subst ext. simpl in Hl. lia.
  - intros (stem & e & -> & Hs & He).
    assert (PyStr.rfind "." e = 0) as Hr' by (rewrite <- rfind_lower, He; exact Hr).
    assert (2 <= String.length e)%nat as Hl' by (rewrite <- length_lower, He; exact Hl).
    rewrite (proj1 (suffix_of_append stem e Hs Hr' Hl')). exact He.
Qed.

(** ** Letter case *)

Ltac unfold_pairs :=
  cbv [letter_pairs upper_case_letters lower_case_letters combine list_ascii_of_string In].

Ltac find_pair := unfold_pairs; repeat (first [left; reflexivity | right]).

(** [lower_ascii] sends a character to the character that is the same up
    to case and is not an upper-case letter. *)
Lemma lower_ascii_same (a b : ascii) :
  PyStr.lower_ascii b = b ->
  PyStr.lower_ascii a = b <-> same_char_ignoring_case a b.
Proof.
  intros Hb. unfold same_char_ignoring_case. split.
  - intros <-. clear Hb.
    destruct a as [[] [] [] [] [] [] [] []];
      first [left; reflexivity | right; left; find_pair].
  - intros [-> | [H | H]]; [exact Hb | |];
      cbv [letter_pairs upper_case_letters lower_case_letters combine
             list_ascii_of_string In] in H;
      repeat (destruct H as [H | H];
              [injection H as <- <-; first [reflexivity | discriminate Hb] |]);
      contradiction.
Qed.

Lemma lower_same (s : string) :
  forall t, PyStr.lower t = t -> PyStr.lower s = t <-> same_ignoring_case s t.
Proof.
  induction s as [|a s IH]; intros [|b t] Ht; cbn [PyStr.lower same_ignoring_case].
  - tauto.
  - split; [discriminate | contradiction].
  - split; [discriminate | contradiction].
  - cbn [PyStr.lower] in Ht. injection Ht as Hb Ht.
    rewrite <- (IH t Ht), <- (lower_ascii_same a b Hb). split.
    + intros [= H1 H2]. auto.
    + intros [-> ->]. reflexivity.
Qed.

Lemma recognized_lower (ext : string) : recognized true ext -> PyStr.lower ext = ext.
Proof.
  intros Hrec. unfold recognized in Hrec. set_unfold.
  intuition (try contradiction; subst; reflexivity).
Qed.

(** The test of the script on the suffix, in terms of the name. *)
Lemma suffix_extension_spec (nm ext : string) :
  recognized true ext ->
  PyStr.lower (PyPath.suffix_of nm) = ext <-> ends_with_extension nm ext.
Proof.
  intros Hrec. rewrite (suffix_lower_spec nm ext Hrec).
  unfold has_extension, ends_with_extension.
  split; intros (stem & e & Hn & Hs & He); exists stem, e;
    (split; [exact Hn|]); (split; [exact Hs|]);
    apply (lower_same e ext (recognized_lower ext Hrec)); exact He.
Qed.

Lemma recognized_mono (heif_loaded : bool) (ext : string) :
  recognized heif_loaded ext -> recognized true ext.
Proof. unfold recognized. intros [H | [_ H]]; auto. Qed.

Section Discovery.

Context `{PIL : Pillow} `{ACL : Access}.
Variable SCRIPT_DIR : Path.

Local Abbreviation IN := (INPUT_FOLDER SCRIPT_DIR).
Local Abbreviation OUT := (OUTPUT_FOLDER SCRIPT_DIR).

Lemma elem_of_files_in (f : gmap Path Node) (formats : gset string) (p : Path) :
  p ∈ files_in SCRIPT_DIR f formats <->
  exists nm data,
    p = IN ++ [nm] /\ f !! p = Some (File data) /\
    PyStr.lower (PyPath.suffix_of nm) ∈ formats.
Proof.
  unfold files_in. rewrite !list_elem_of_filter. split.
  - intros (Hfmt & Hchild & _).
    apply Is_true_eq_true, is_child_spec in Hchild as [nm ->].
    apply Is_true_eq_true in Hfmt. unfold has_format in Hfmt.
    apply andb_true_iff in Hfmt as [Hfile Hext].
    apply bool_decide_eq_true in Hext.
    unfold PyPath.suffix in Hext. change (IN ++ [nm]) with (PyPath.join IN nm) in Hext.
    rewrite name_join in Hext.
    unfold OS.is_file in Hfile.
    destruct (f !! (IN ++ [nm])) as [[data|]|] eqn:E; try discriminate.
    exists nm, data. auto.
  - intros (nm & data & -> & Hfile & Hext). split; [|split].
    + apply Is_true_true. unfold has_format, OS.is_file. rewrite Hfile. simpl.
      apply bool_decide_eq_true. unfold PyPath.suffix.
      change (IN ++ [nm]) with (PyPath.join IN nm). rewrite name_join. exact Hext.
    + apply Is_true_true, is_child_spec. eauto.
    + apply list_elem_of_In, in_map_iff. exists (IN ++ [nm], File data).
      split; [reflexivity|]. apply list_elem_of_In, elem_of_map_to_list. exact Hfile.
Qed.

Lemma NoDup_files_in (f : gmap Path Node) (formats : gset string) :
  NoDup (files_in SCRIPT_DIR f formats).
Proof.
  unfold files_in. apply NoDup_filter, NoDup_filter.
  apply (NoDup_fst_map_to_list f).
Qed.

(** C4.  In a store where the input folder exists and can be read, the
    list comprehension of lines 90-93 yields, without repetition, exactly
    the entries of the input folder that are regular files and whose name
    is a stem followed by a recognized extension, in any case of its
    letters: one of .jpg, .jpeg, .png, .bmp, .gif, .tiff, .tif, or, when
    [HEIC_SUPPORTED] holds, .heic or .heif.  [main] is called with
    [HEIC_SUPPORTED] true exactly when [pillow_heif] was imported. *)
Theorem file_discovery_exact (HEIC_SUPPORTED : bool) (w : World) :
  fs w !! IN = Some Dir ->
  discovery_ok SCRIPT_DIR (fs w) = true ->
  (exists image_files,
     list_files SCRIPT_DIR (all_formats_of HEIC_SUPPORTED) w = (Ok image_files, w) /\
     NoDup image_files /\
     forall p,
       p ∈ image_files <->
       exists nm data ext,
         p = IN ++ [nm] /\ fs w !! p = Some (File data) /\
         recognized HEIC_SUPPORTED ext /\ ends_with_extension nm ext)
  /\
  (forall env w0,
     script SCRIPT_DIR env w0 =
       if pillow_installed env
       then main SCRIPT_DIR (pillow_heif_installed env) w0
       else (Raise (SystemExit 1),
             mkWorld (fs w0) (stdout w0 ++ [LPillowMissing; LPillowInstallHint]))).
Proof.
  intros Hin Hd. split.
  2:{ intros env w0. destruct (pillow_installed env) eqn:E.
      - apply script_pillow, E.
      - apply script_no_pillow, E. }
  exists (files_in SCRIPT_DIR (fs w) (all_formats_of HEIC_SUPPORTED)).
  split; [apply list_files_run; assumption|]. split; [apply NoDup_files_in|].
  intros p. rewrite elem_of_files_in. split.
  - intros (nm & data & -> & Hfile & Hext).
    apply recognized_spec in Hext.
    exists nm, data, (PyStr.lower (PyPath.suffix_of nm)).
    repeat (split; [assumption || reflexivity|]).
    apply (suffix_extension_spec nm _ (recognized_mono _ _ Hext)). reflexivity.
  - intros (nm & data & ext & -> & Hfile & Hrec & Hext).
    exists nm, data. split; [reflexivity|]. split; [exact Hfile|].
    apply recognized_spec.
    rewrite (proj2 (suffix_extension_spec nm ext (recognized_mono _ _ Hrec)) Hext).
    exact Hrec.
Qed.

End Discovery.

Lemma file_discovery_exact_witness :
  exists image_files,
    list_files Demo.app (all_formats_of false) (mkWorld Demo.fs_ready []) =
      (Ok image_files, mkWorld Demo.fs_ready []) /\
    Demo.inp "icon.PNG" ∈ image_files.
Proof.
  destruct (proj1 (file_discovery_exact Demo.app false (mkWorld Demo.fs_ready [])
                     ltac:(vm_compute; reflexivity) ltac:(vm_compute; reflexivity)))
    as (image_files & Hrun & _ & Hiff).
  exists image_files. split; [exact Hrun|].
  apply Hiff. exists "icon.PNG", [Byte.x02; Byte.x20], ".png".
  split; [reflexivity|]. split; [vm_compute; reflexivity|]. split.
  - left. do 2 apply list_elem_of_further. apply list_elem_of_here.
  - exists "icon", ".PNG". split; [reflexivity|]. split; [discriminate|].
    cbn [same_ignoring_case]. unfold same_char_ignoring_case.
    repeat split; first [left; reflexivity | right; left; find_pair].
Defined.

(** ** Console *)

Lemma progress_names_app (l1 l2 : list Line) :
  progress_names (l1 ++ l2) = progress_names l1 ++ progress_names l2.
Proof.
  induction l1 as [|l l1 IH]; [reflexivity|].
  destruct l; simpl; rewrite ?IH; reflexivity.
Qed.

Lemma progress_names_summary (SCRIPT_DIR : Path) (t : Totals) (total : nat) :
  progress_names (summary_lines SCRIPT_DIR t total) = [].
Proof. unfold summary_lines. destruct (Qpositive (total_input_size t)); reflexivity. Qed.

Lemma progress_names_heic_warning (h : bool) (heic_files : list Path) :
  progress_names (heic_warning h heic_files) = [].
Proof.
  unfold heic_warning.
  destruct (negb (bool_decide (heic_files = [])) && negb h); reflexivity.
Qed.

Section SoftSkip.

Context `{PIL : Pillow} `{ACL : Access}.
Variable SCRIPT_DIR : Path.

Local Abbreviation IN := (INPUT_FOLDER SCRIPT_DIR).
Local Abbreviation OUT := (OUTPUT_FOLDER SCRIPT_DIR).

Lemma heic_entry_files_in (f : gmap Path Node) (p : Path) :
  p ∈ files_in SCRIPT_DIR f HEIC_FORMATS <-> heic_entry SCRIPT_DIR f p.
Proof.
  rewrite elem_of_files_in. unfold heic_entry.
  assert (recognized true ".heic") as R1
    by (right; split; [reflexivity | apply list_elem_of_here]).
  assert (recognized true ".heif") as R2
    by (right; split; [reflexivity | apply list_elem_of_further, list_elem_of_here]).
  split; intros (nm & data & Hp & Hfile & Hext); exists nm, data;
    (split; [exact Hp|]); (split; [exact Hfile|]).
  - unfold HEIC_FORMATS in Hext. set_unfold.
    destruct Hext as [Hext | Hext]; [left | right].
    + apply (suffix_extension_spec nm ".heic" R1), Hext.
    + apply (suffix_extension_spec nm ".heif" R2), Hext.
  - unfold HEIC_FORMATS. set_unfold.
    destruct Hext as [Hext | Hext]; [left | right].
    + apply (suffix_extension_spec nm ".heic" R1), Hext.
    + apply (suffix_extension_spec nm ".heif" R2), Hext.
Qed.

Lemma heic_entry_prepared (f : gmap Path Node) (p : Path) :
  heic_entry SCRIPT_DIR (prepared SCRIPT_DIR f) p <-> heic_entry SCRIPT_DIR f p.
Proof.
  unfold heic_entry.
  split; intros (nm & data & -> & Hfile & Hext); exists nm, data;
    (split; [reflexivity|]); (split; [|exact Hext]).
  - rewrite prepared_other in Hfile; [exact Hfile | apply child_not_parent |].
    apply (below_input_not_output_folder SCRIPT_DIR [nm]).
  - rewrite prepared_other; [exact Hfile | apply child_not_parent |].
    apply (below_input_not_output_folder SCRIPT_DIR [nm]).
Qed.

(** A list without repetition of the HEIC files of the input folder is the
    list that line 96 computes, up to the order. *)
Lemma heic_files_length (f : gmap Path Node) (heic_files : list Path) :
  NoDup heic_files ->
  (forall p, p ∈ heic_files <-> heic_entry SCRIPT_DIR f p) ->
  (forall p, p ∈ heic_files <->
             p ∈ files_in SCRIPT_DIR (prepared SCRIPT_DIR f) HEIC_FORMATS) /\
  length heic_files = length (files_in SCRIPT_DIR (prepared SCRIPT_DIR f) HEIC_FORMATS).
Proof.
  intros Hnd Hiff.
  assert (forall p, p ∈ heic_files <->
                    p ∈ files_in SCRIPT_DIR (prepared SCRIPT_DIR f) HEIC_FORMATS) as H.
  { intros p. rewrite Hiff, heic_entry_files_in, heic_entry_prepared. reflexivity. }
  split; [exact H|].
  apply Permutation_length, NoDup_Permutation; [exact Hnd | apply NoDup_files_in | exact H].
Qed.

(** The progress lines of a whole run name the discovered files, in
    order. *)
Lemma run_progress_names (env : Env) (f : gmap Path Node) :
  pillow_installed env = true ->
  folders_ok SCRIPT_DIR f = true ->
  discovery_ok SCRIPT_DIR (prepared SCRIPT_DIR f) = true ->
  progress_names (stdout (snd (run SCRIPT_DIR env f))) =
  map PyPath.name
    (files_in SCRIPT_DIR (prepared SCRIPT_DIR f) (all_formats_of (pillow_heif_installed env))).
Proof.
  intros Hp Hf Hd. unfold run. rewrite (script_pillow SCRIPT_DIR env _ Hp).
  destruct (main_spec SCRIPT_DIR (pillow_heif_installed env) (mkWorld f []) Hf Hd)
    as (w' & tail & Hrun & _ & Hstd & Htail).
  rewrite Hrun. cbn [snd]. rewrite Hstd. cbn [fs stdout] in *.
  rewrite !progress_names_app, progress_names_heic_warning. cbn [app].
  destruct Htail as [(-> & -> & _) | (_ & t & lines & -> & Hnames & _)].
  - reflexivity.
  - cbn [progress_names]. rewrite progress_names_app, progress_names_summary, app_nil_r.
    exact Hnames.
Qed.



End SoftSkip.



Section PerFile.

Context `{PIL : Pillow} `{ACL : Access}.
Variable SCRIPT_DIR : Path.

Local Abbreviation IN := (INPUT_FOLDER SCRIPT_DIR).
Local Abbreviation OUT := (OUTPUT_FOLDER SCRIPT_DIR).
Local Abbreviation out_of := (output_file_of SCRIPT_DIR).

(** C6.  The output path of an input file is the output folder joined
    with the stem of the file's name followed by [.webp]; for a name made
    of a stem and a recognized extension that is the stem itself followed
    by [.webp].  When the conversion succeeds, the encoded file is stored
    at that path whether the path was free or held a file, and the turn
    prints its two usual lines and nothing about the file it replaced. *)
Theorem output_path_and_overwrite (total i : nat) (input_file : Path) (t : Totals)
    (w : World) (data d : bytes) :
  fs w !! input_file = Some (File data) ->
  fs w !! OUT = Some Dir ->
  fs w !! out_of input_file <> Some Dir ->
  encode_policy data 85 = Saved d ->
  out_of input_file =
    PyPath.join OUT (PyPath.stem_of (PyPath.name input_file) ++ ".webp")%string /\
  (forall stem e ext,
     recognized true ext -> PyStr.lower e = ext -> stem <> "" ->
     out_of (IN ++ [(stem ++ e)%string]) = OUT ++ [(stem ++ ".webp")%string]) /\
  exists t',
    convert_one SCRIPT_DIR total i input_file t w =
      (Ok t',
       mkWorld (<[out_of input_file := File d]> (fs w))
         (stdout w ++
            [LConverting i total (PyPath.name input_file);
             LConverted (size_mb data) (size_mb d)
               (reduction_value (size_mb data) (size_mb d))])).
Proof.
  intros Hin Hout Hn Hpol. split; [reflexivity|]. split.
  - intros stem e ext Hrec He Hs.
    unfold output_file_of, PyPath.stem, PyPath.join.
    change (IN ++ [(stem ++ e)%string]) with (PyPath.join IN (stem ++ e)%string).
    rewrite name_join.
    assert (PyPath.stem_of (stem ++ e)%string = stem) as ->; [|reflexivity].
    assert (has_extension (stem ++ e)%string ext) as Hext by (exists stem, e; auto).
    apply (suffix_lower_spec _ _ Hrec) in Hext.
    destruct (recognized_shape ext Hrec) as [Hr Hl].
    apply suffix_of_append; [exact Hs | |].
    + rewrite <- rfind_lower, He. exact Hr.
    + rewrite <- length_lower, He. exact Hl.
  - destruct (convert_one_spec SCRIPT_DIR total i input_file t w data Hin Hout)
      as (t' & w' & Hrun & _ & _ & Hres).
    assert (conv_outcome SCRIPT_DIR (fs w) input_file = Some d) as E.
    { unfold conv_outcome. rewrite Hin, Hpol.
      destruct (fs w !! out_of input_file) as [[?|]|]; [reflexivity | contradiction | reflexivity]. }
    rewrite E in Hres. destruct Hres as (Hfs & _ & _ & Hstd).
    exists t'. rewrite Hrun. destruct w' as [f' o']. simpl in Hfs, Hstd. subst. reflexivity.
Qed.

(** C7.  The reduction printed for a converted file is
    [(input - output) / input * 100] when the input size is positive and 0
    when it is 0; the division is never reached with a zero divisor, so the
    turn of a file that exists always ends normally. *)
Theorem reduction_guard :
  (forall (a b : Q) (w : World),
     (if Qpositive a
      then r ← truediv (a - b) a; mret (r * 100)%Q
      else mret 0%Q) w = (Ok (reduction_value a b), w))
  /\
  (forall a b : Q,
     ((0 < a)%Q -> reduction_value a b = ((a - b) / a * 100)%Q) /\
     ((a == 0)%Q -> reduction_value a b = 0%Q))
  /\
  (forall (total i : nat) (input_file : Path) (t : Totals) (w : World) (data : bytes),
     fs w !! input_file = Some (File data) ->
     fs w !! OUT = Some Dir ->
     exists t' w',
       convert_one SCRIPT_DIR total i input_file t w = (Ok t', w') /\
       forall d,
         conv_outcome SCRIPT_DIR (fs w) input_file = Some d ->
         stdout w' = stdout w ++
           [LConverting i total (PyPath.name input_file);
            LConverted (size_mb data) (size_mb d)
              (reduction_value (size_mb data) (size_mb d))]).
Proof.
  split; [exact guarded_reduction|]. split.
  - intros a b. unfold reduction_value. split.
    + intros H. apply Qpositive_spec in H. rewrite H. reflexivity.
    + intros H. destruct (Qpositive a) eqn:E; [|reflexivity].
      apply Qpositive_spec in E. rewrite H in E. exfalso. apply (Qlt_irrefl _ E).
  - intros total i input_file t w data Hin Hout.
    destruct (convert_one_spec SCRIPT_DIR total i input_file t w data Hin Hout)
      as (t' & w' & Hrun & _ & _ & Hres).
    exists t', w'. split; [exact Hrun|].
    intros d E. rewrite E in Hres. apply Hres.
Qed.

End PerFile.

Lemma output_path_and_overwrite_witness :
  exists t',
    convert_one Demo.app 2 2 (Demo.inp "b.jpg") (mkTotals 0 0 0)
      (mkWorld Demo.fs_heic []) =
    (Ok t',
     mkWorld (<[Demo.outp "b.webp" := File [Byte.x01; Byte.x55; Byte.x00]]> Demo.fs_heic)
       [LConverting 2 2 "b.jpg";
        LConverted (size_mb [Byte.x01]) (size_mb [Byte.x01; Byte.x55; Byte.x00])
          (reduction_value (size_mb [Byte.x01])
             (size_mb [Byte.x01; Byte.x55; Byte.x00]))]).
Proof.
  refine (proj2 (proj2 (output_path_and_overwrite Demo.app 2 2 (Demo.inp "b.jpg")
            (mkTotals 0 0 0) (mkWorld Demo.fs_heic [])
            [Byte.x01] [Byte.x01; Byte.x55; Byte.x00] _ _ _ _))).
  - vm_compute. reflexivity.
  - vm_compute. reflexivity.
  - vm_compute. discriminate.
  - reflexivity.
Defined.

Lemma reduction_guard_witness :
  (exists t' w',
     @convert_one Demo.lenient_pillow Demo.app 1 1 (Demo.inp "zero.png") (mkTotals 0 0 0)
       (mkWorld (prepared Demo.app Demo.fs_empty_file) []) = (Ok t', w') /\
     stdout w' =
       [LConverting 1 1 "zero.png";
        LConverted (size_mb []) (size_mb [Byte.x01; Byte.x55; Byte.x00]) 0%Q]) /\
  (exists t' w',
     convert_one Demo.app 2 2 (Demo.inp "b.jpg") (mkTotals 0 0 0)
       (mkWorld Demo.fs_heic []) = (Ok t', w') /\
     stdout w' =
       [LConverting 2 2 "b.jpg";
        LConverted (size_mb [Byte.x01]) (size_mb [Byte.x01; Byte.x55; Byte.x00])
          ((size_mb [Byte.x01] - size_mb [Byte.x01; Byte.x55; Byte.x00])
             / size_mb [Byte.x01] * 100)%Q]).
Proof.
  split.
  - destruct (@reduction_guard Demo.lenient_pillow Demo.app) as (_ & Hval & Hone).
    destruct (Hone 1%nat 1%nat (Demo.inp "zero.png") (mkTotals 0 0 0)
                (mkWorld (prepared Demo.app Demo.fs_empty_file) []) [])
      as (t' & w' & Hrun & Hout).
    + vm_compute. reflexivity.
    + vm_compute. reflexivity.
    + exists t', w'. split; [exact Hrun|].
      rewrite (Hout [Byte.x01; Byte.x55; Byte.x00]) by (vm_compute; reflexivity).
      rewrite (proj2 (Hval (size_mb []) (size_mb [Byte.x01; Byte.x55; Byte.x00])))
        by reflexivity.
      reflexivity.
  - destruct (reduction_guard Demo.app) as (_ & Hval & Hone).
    destruct (Hone 2%nat 2%nat (Demo.inp "b.jpg") (mkTotals 0 0 0)
                (mkWorld Demo.fs_heic []) [Byte.x01])
      as (t' & w' & Hrun & Hout).
    + vm_compute. reflexivity.
    + vm_compute. reflexivity.
    + exists t', w'. split; [exact Hrun|].
      rewrite (Hout [Byte.x01; Byte.x55; Byte.x00]) by (vm_compute; reflexivity).
      rewrite (proj1 (Hval (size_mb [Byte.x01]) (size_mb [Byte.x01; Byte.x55; Byte.x00])))
        by reflexivity.
      reflexivity.
Defined.

Section Summary.

Context `{PIL : Pillow} `{ACL : Access}.
Variable SCRIPT_DIR : Path.

Local Abbreviation IN := (INPUT_FOLDER SCRIPT_DIR).
Local Abbreviation OUT := (OUTPUT_FOLDER SCRIPT_DIR).

Lemma banner_no_summary :
  Forall (fun l => is_summary_line l = false) (banner SCRIPT_DIR).
Proof. unfold banner. repeat constructor. Qed.

Lemma heic_warning_no_summary (h : bool) (heic_files : list Path) :
  Forall (fun l => is_summary_line l = false) (heic_warning h heic_files).
Proof.
  unfold heic_warning.
  destruct (negb (bool_decide (heic_files = [])) && negb h); repeat constructor.
Qed.

Lemma successes_le (f0 : gmap Path Node) (files : list Path) :
  (successes SCRIPT_DIR f0 files <= length files)%nat.
Proof. unfold successes. apply length_filter. Qed.

(** The console and the totals of a run that gets as far as [main] with
    both folders. *)
Lemma run_spec (env : Env) (f : gmap Path Node) :
  pillow_installed env = true ->
  folders_ok SCRIPT_DIR f = true ->
  discovery_ok SCRIPT_DIR (prepared SCRIPT_DIR f) = true ->
  let f1 := prepared SCRIPT_DIR f in
  let image_files :=
    files_in SCRIPT_DIR f1 (all_formats_of (pillow_heif_installed env)) in
  exists w',
    run SCRIPT_DIR env f = (Ok tt, w') /\
    same_but_outputs SCRIPT_DIR f1 w' /\
    (image_files <> [] ->
     exists pre t,
       stdout w' = pre ++ summary_lines SCRIPT_DIR t (length image_files) /\
       Forall (fun l => is_summary_line l = false) pre /\
       success_count t = successes SCRIPT_DIR f1 image_files /\
       (total_input_size t == Qsum (map (file_mb f1) image_files))%Q /\
       (total_output_size t == Qsum (map (output_mb SCRIPT_DIR f1) image_files))%Q) /\
    (image_files = [] ->
     Forall (fun l => is_summary_line l = false) (stdout w') /\
     LNoImages IN ∈ stdout w').
Proof.
  intros Hp Hf Hd f1 image_files. unfold run.
  rewrite (script_pillow SCRIPT_DIR env _ Hp).
  destruct (main_spec SCRIPT_DIR (pillow_heif_installed env) (mkWorld f []) Hf Hd)
    as (w' & tail & Hrun & Hsame & Hstd & Htail).
  cbn [fs stdout app] in *. fold f1 in Hsame, Hstd, Htail. fold image_files in Htail.
  exists w'. split; [exact Hrun|]. split; [exact Hsame|]. split.
  - intros Hne.
    destruct Htail as [(He & _) | (_ & t & lines & -> & _ & Hnosum & Hsc & Hti & Hto)];
      [contradiction|].
    exists (banner SCRIPT_DIR
              ++ heic_warning (pillow_heif_installed env) (files_in SCRIPT_DIR f1 HEIC_FORMATS)
              ++ LFound (length image_files) :: lines), t.
    split; [rewrite Hstd, <- !app_assoc; reflexivity|].
    split; [|auto].
    apply Forall_app. split; [apply banner_no_summary|].
    apply Forall_app. split; [apply heic_warning_no_summary|].
    constructor; [reflexivity | exact Hnosum].
  - intros He.
    destruct Htail as [(_ & -> & _) | (Hne & _)]; [|contradiction].
    rewrite Hstd. split.
    + apply Forall_app. split; [apply banner_no_summary|].
      apply Forall_app. split; [apply heic_warning_no_summary|]. repeat constructor.
    + rewrite !elem_of_app. right. right. apply list_elem_of_here.
Qed.

(** C8, amended.  A run that finds at least one file ends its output with
    the summary: the number of converted files out of the number of files
    found, the total input size and the total output size, then, only
    when the total input size is positive, one line with the space saved
    and its percentage, then the output folder.  No other line of the run is
    a summary line.  A run that finds no file prints the notice that there
    is nothing to convert and no summary at all. *)
Theorem summary_printed (env : Env) (f : gmap Path Node) :
  pillow_installed env = true ->
  folders_ok SCRIPT_DIR f = true ->
  discovery_ok SCRIPT_DIR (prepared SCRIPT_DIR f) = true ->
  let f1 := prepared SCRIPT_DIR f in
  let image_files :=
    files_in SCRIPT_DIR f1 (all_formats_of (pillow_heif_installed env)) in
  exists w',
    run SCRIPT_DIR env f = (Ok tt, w') /\
    (image_files <> [] ->
     exists pre t,
       stdout w' =
         pre ++ [LRule; LSummaryTitle; LRule;
                 LSummaryCount (success_count t) (length image_files);
                 LSummaryInput (total_input_size t);
                 LSummaryOutput (total_output_size t)]
             ++ (if Qpositive (total_input_size t)
                 then [LSummarySaving (total_input_size t - total_output_size t)
                         ((total_input_size t - total_output_size t)
                            / total_input_size t * 100)%Q]
                 else [])
             ++ [LSavedIn OUT] /\
       Forall (fun l => is_summary_line l = false) pre /\
       success_count t = successes SCRIPT_DIR f1 image_files /\
       (success_count t <= length image_files)%nat /\
       (total_input_size t == Qsum (map (file_mb f1) image_files))%Q /\
       (total_output_size t == Qsum (map (output_mb SCRIPT_DIR f1) image_files))%Q) /\
    (image_files = [] ->
     Forall (fun l => is_summary_line l = false) (stdout w') /\
     LNoImages IN ∈ stdout w').
Proof.
  intros Hp Hf Hd f1 image_files.
  destruct (run_spec env f Hp Hf Hd) as (w' & Hrun & _ & Hsome & Hnone).
  exists w'. split; [exact Hrun|]. split; [|exact Hnone].
  intros Hne. destruct (Hsome Hne) as (pre & t & Hstd & Hpre & Hsc & Hti & Hto).
  exists pre, t. split; [exact Hstd|]. split; [exact Hpre|].
  split; [exact Hsc|]. split; [rewrite Hsc; apply successes_le|]. auto.
Qed.

End Summary.

(** C8 as stated fails on a run that finds no file, where no summary is
    printed, and on a run whose only file is empty, where the summary has
    no line for the space saved, absolute or in percent. *)
Lemma summary_counterexample :
  ~ (exists l, In l (stdout (snd (run Demo.app Demo.all_installed Demo.fs_fresh))) /\
               is_summary_line l = true) /\
  ~ (exists l, In l (stdout (snd (run Demo.app Demo.all_installed Demo.fs_empty_file))) /\
               is_saving_line l = true).
Proof.
  split; intros H; apply existsb_exists in H; vm_compute in H; discriminate.
Qed.

Lemma summary_printed_witness :
  exists w',
    run Demo.app Demo.all_installed Demo.fs_three = (Ok tt, w') /\
    exists pre t, stdout w' = pre ++ summary_lines Demo.app t 3.
Proof.
  destruct (summary_printed Demo.app Demo.all_installed Demo.fs_three)
    as (w' & Hrun & Hsome & _).
  - reflexivity.
  - vm_compute. reflexivity.
  - vm_compute. reflexivity.
  - exists w'. split; [exact Hrun|].
    destruct Hsome as (pre & t & Hstd & _).
    + vm_compute. discriminate.
    + exists pre, t. rewrite Hstd.
      assert (length (files_in Demo.app (prepared Demo.app Demo.fs_three)
                        (all_formats_of (pillow_heif_installed Demo.all_installed))) = 3%nat)
        as -> by (vm_compute; reflexivity).
      reflexivity.
Defined.

Section Totals.

Context `{PIL : Pillow} `{ACL : Access}.
Variable SCRIPT_DIR : Path.

Local Abbreviation IN := (INPUT_FOLDER SCRIPT_DIR).
Local Abbreviation OUT := (OUTPUT_FOLDER SCRIPT_DIR).

(** The loop over a list is the loop over a prefix, then over the rest. *)
Lemma convert_all_app (total : nat) (pre post : list Path) :
  forall (i : nat) (t : Totals) (w : World),
    convert_all SCRIPT_DIR total i (pre ++ post) t w =
    (t1 ← convert_all SCRIPT_DIR total i pre t;
     convert_all SCRIPT_DIR total (i + length pre) post t1) w.
Proof.
  induction pre as [|p pre IH]; intros i t w.
  - cbn [app length convert_all]. rewrite Nat.add_0_r. reflexivity.
  - cbn [app length convert_all]. unfold mbind, M_bind.
    destruct (convert_one SCRIPT_DIR total i p t w) as [[t1 | e] w1]; [|reflexivity].
    rewrite IH. unfold mbind, M_bind. rewrite Nat.add_succ_comm. reflexivity.
Qed.

(** C9.  After any number of turns of the loop, the input total has grown
    by the sizes of all the files handled so far, converted or not, and the
    output total by the sizes of the WebP files of those that were
    converted; a file whose conversion fails adds its size to the input
    total and nothing to the output total.  The summary of a run prints
    these two totals for the whole list of files found. *)
Theorem totals_are_sums :
  (forall (f0 : gmap Path Node) (pre post : list Path) (total i : nat) (t : Totals)
          (w : World),
     f0 !! OUT = Some Dir ->
     Forall (input_file_of SCRIPT_DIR f0) (pre ++ post) ->
     same_but_outputs SCRIPT_DIR f0 w ->
     exists t1 w1,
       convert_all SCRIPT_DIR total i pre t w = (Ok t1, w1) /\
       convert_all SCRIPT_DIR total i (pre ++ post) t w =
         convert_all SCRIPT_DIR total (i + length pre) post t1 w1 /\
       (total_input_size t1 == total_input_size t + Qsum (map (file_mb f0) pre))%Q /\
       (total_output_size t1 ==
          total_output_size t + Qsum (map (output_mb SCRIPT_DIR f0) pre))%Q /\
       success_count t1 = (success_count t + successes SCRIPT_DIR f0 pre)%nat)
  /\
  (forall (f0 : gmap Path Node) (p : Path) (data : bytes),
     f0 !! p = Some (File data) ->
     file_mb f0 p = size_mb data /\
     (converted SCRIPT_DIR f0 p = false -> output_mb SCRIPT_DIR f0 p = 0%Q) /\
     (forall d, conv_outcome SCRIPT_DIR f0 p = Some d ->
                output_mb SCRIPT_DIR f0 p = size_mb d))
  /\
  (forall (env : Env) (f : gmap Path Node),
     pillow_installed env = true ->
     folders_ok SCRIPT_DIR f = true ->
     discovery_ok SCRIPT_DIR (prepared SCRIPT_DIR f) = true ->
     let f1 := prepared SCRIPT_DIR f in
     let image_files :=
       files_in SCRIPT_DIR f1 (all_formats_of (pillow_heif_installed env)) in
     image_files <> [] ->
     exists pre t,
       stdout (snd (run SCRIPT_DIR env f)) =
         pre ++ summary_lines SCRIPT_DIR t (length image_files) /\
       (total_input_size t == Qsum (map (file_mb f1) image_files))%Q /\
       (total_output_size t == Qsum (map (output_mb SCRIPT_DIR f1) image_files))%Q).
Proof.
  split; [|split].
  - intros f0 pre post total i t w Hout Hfiles Hw.
    apply Forall_app in Hfiles as [Hpre _].
    destruct (convert_all_spec SCRIPT_DIR f0 pre Hout Hpre total i t w Hw)
      as (t1 & w1 & lines & Hrun & _ & _ & _ & _ & Hsc & Hti & Hto).
    exists t1, w1. split; [exact Hrun|]. split; [|auto].
    rewrite convert_all_app. erewrite bind_ok by exact Hrun. reflexivity.
  - intros f0 p data Hp. unfold file_mb, output_mb, converted. rewrite Hp.
    split; [reflexivity|]. split.
    + destruct (conv_outcome SCRIPT_DIR f0 p); [discriminate | reflexivity].
    + intros d ->. reflexivity.
  - intros env f Hp Hf Hd f1 image_files Hne.
    destruct (run_spec SCRIPT_DIR env f Hp Hf Hd) as (w' & Hrun & _ & Hsome & _).
    destruct (Hsome Hne) as (pre & t & Hstd & _ & _ & Hti & Hto).
    exists pre, t. rewrite Hrun. auto.
Qed.

(** C10.  Whatever the run does, every path below the input folder holds at
    the end what it held at the start.  [convert_to_webp] changes the store
    at its output path at most, and the output path that the loop derives
    for a file is never a path below the input folder. *)
Theorem input_files_untouched :
  (forall (env : Env) (f : gmap Path Node) (nm : string) (q : Path),
     fs (snd (run SCRIPT_DIR env f)) !! (IN ++ nm :: q) = f !! (IN ++ nm :: q))
  /\
  (forall (inp out : Path) (q : Z) (w : World),
     only_at out w (snd (convert_to_webp inp out q w)))
  /\
  (forall (input_file : Path) (nm : string) (q : Path),
     output_file_of SCRIPT_DIR input_file <> IN ++ nm :: q).
Proof.
  split; [|split].
  - intros env f nm q.
    assert (IN ++ nm :: q <> IN) as Hin.
    { intros H. apply (f_equal (@length string)) in H.
      rewrite length_app in H. simpl in H. lia. }
    unfold run. destruct (pillow_installed env) eqn:Ep.
    + rewrite (script_pillow SCRIPT_DIR env _ Ep).
      destruct (folders_ok SCRIPT_DIR f) eqn:Ef.
      * destruct (discovery_ok SCRIPT_DIR (prepared SCRIPT_DIR f)) eqn:Ed.
        -- destruct (main_spec SCRIPT_DIR (pillow_heif_installed env) (mkWorld f []) Ef Ed)
             as (w' & tail & Hrun & [Hsame _] & _).
           rewrite Hrun. cbn [snd fs] in *.
           rewrite Hsame.
           ++ apply prepared_other; [exact Hin | apply below_input_not_output_folder].
           ++ destruct (OS.is_child OUT (IN ++ nm :: q)) eqn:E; [|reflexivity].
              apply is_child_spec in E as [m E].
              exfalso. exact (below_input_not_output SCRIPT_DIR (nm :: q) m E).
        -- destruct (main_denied SCRIPT_DIR (pillow_heif_installed env) (mkWorld f []) Ef Ed)
             as (msg & Hrun).
           rewrite Hrun. cbn [snd fs].
           apply prepared_other; [exact Hin | apply below_input_not_output_folder].
      * destruct (main_blocked SCRIPT_DIR (pillow_heif_installed env) (mkWorld f []) Ef)
          as (cls & msg & w' & Hrun & _ & Hfr).
        rewrite Hrun. cbn [snd fs] in *. apply Hfr, Hin.
    + rewrite (script_no_pillow SCRIPT_DIR env _ Ep). reflexivity.
  - intros inp out q w.
    destruct (convert_to_webp_cases inp out q w)
      as [(data & d & _ & _ & Hn & _ & Hrun) | (msg & w' & Hrun & _ & Hat & _)];
      rewrite Hrun; cbn [snd].
    + apply only_at_write, Hn.
    + exact Hat.
  - intros input_file nm q H. symmetry in H.
    exact (below_input_not_output SCRIPT_DIR (nm :: q) _ H).
Qed.

End Totals.

Lemma totals_are_sums_witness :
  exists pre t,
    stdout (snd (run Demo.app Demo.all_installed Demo.fs_three)) =
      pre ++ summary_lines Demo.app t 3 /\
    (total_input_size t == 7 # 1048576)%Q /\
    (total_output_size t == 6 # 1048576)%Q.
Proof.
  destruct (proj2 (proj2 (totals_are_sums Demo.app)) Demo.all_installed Demo.fs_three)
    as (pre & t & Hstd & Hti & Hto).
  - reflexivity.
  - vm_compute. reflexivity.
  - vm_compute. reflexivity.
  - vm_compute. discriminate.
  - exists pre, t. split; [|split].
    + rewrite Hstd.
      assert (length (files_in Demo.app (prepared Demo.app Demo.fs_three)
                        (all_formats_of (pillow_heif_installed Demo.all_installed))) = 3%nat)
        as -> by (vm_compute; reflexivity).
      reflexivity.
    + rewrite Hti. vm_compute. reflexivity.
    + rewrite Hto. vm_compute. reflexivity.
Defined.

Lemma input_files_untouched_witness :
  fs (snd (run Demo.app Demo.all_installed Demo.fs_three)) !! Demo.inp "broken.gif" =
  Some (File [Byte.xff]).
Proof.
  rewrite (proj1 (input_files_untouched Demo.app) Demo.all_installed Demo.fs_three
             "broken.gif" []).
  vm_compute. reflexivity.
Defined.

(** * Further properties of the script *)

Section Sizes.

Context `{PIL : Pillow}.

(** X1.  [get_file_size_mb] on a regular file returns its length in bytes
    divided by 2^20 and leaves the world as it is; the result is not
    negative, is 0 only for an empty file, gives the byte count back when
    multiplied by 2^20, and grows with the file.  On a path that does not
    exist it raises the error of [stat()], which is not a
    [ZeroDivisionError], and changes nothing. *)
Theorem get_file_size_mb_spec (p : Path) (w : World) :
  (forall data,
     fs w !! p = Some (File data) ->
     get_file_size_mb p w = (Ok (size_mb data), w) /\
     (0 <= size_mb data)%Q /\
     ((size_mb data == 0)%Q <-> data = []) /\
     (size_mb data * inject_Z (1024 * 1024) == inject_Z (Z.of_nat (length data)))%Q /\
     (forall data', (length data <= length data')%nat ->
                    (size_mb data <= size_mb data')%Q))
  /\
  (fs w !! p = None ->
     exists msg,
       get_file_size_mb p w = (Raise (Exception "FileNotFoundError" msg), w)).
Proof.
  split.
  - intros data H. split; [apply get_file_size_mb_file, H|].
    split; [apply size_mb_nonneg|]. split; [apply size_mb_zero|]. split.
    + unfold size_mb. field. discriminate.
    + intros data' Hl. unfold size_mb.
      apply Qmult_le_compat_r; [|discriminate].
      rewrite <- Zle_Qle. lia.
  - intros H. exists (PyPath.name p).
    unfold get_file_size_mb. erewrite bind_raise; [reflexivity|].
    unfold OS.stat_st_size. rewrite H. reflexivity.
Qed.

(** Bounds on [(a - b) / a * 100]. *)
Lemma reduction_value_bounds (a b : Q) :
  ((0 <= b)%Q -> (reduction_value a b <= 100)%Q) /\
  ((0 < a)%Q ->
     ((reduction_value a b < 0)%Q <-> (a < b)%Q) /\
     ((reduction_value a b == 0)%Q <-> (a == b)%Q) /\
     ((b == 0)%Q -> (reduction_value a b == 100)%Q)).
Proof.
  unfold reduction_value. split.
  - intros Hb. destruct (Qpositive a) eqn:E; [|discriminate].
    apply Qpositive_spec in E.
    apply (Qle_trans _ (1 * 100)%Q); [|discriminate].
    apply Qmult_le_compat_r; [|discriminate].
    apply Qle_shift_div_r; [exact E|].
    rewrite Qmult_1_l. apply Qle_minus_iff.
    assert (a + - (a - b) == b)%Q as -> by ring. exact Hb.
  - intros Ha. pose proof Ha as E. apply Qpositive_spec in E. rewrite E.
    assert (~ a == 0)%Q as Hnz by (intros H; rewrite H in Ha; exact (Qlt_irrefl _ Ha)).
    assert (forall x : Q, (x / a * 100 < 0 <-> x < 0)%Q) as Hneg.
    { intros x. split.
      - intros H. apply Qnot_le_lt. intros Hx. apply (Qlt_not_le _ _ H).
        apply (Qle_trans _ (0 * 100)%Q); [discriminate|].
        apply Qmult_le_compat_r; [|discriminate].
        apply Qle_shift_div_l; [exact Ha|]. rewrite Qmult_0_l. exact Hx.
      - intros H. apply (Qlt_le_trans _ (0 * 100)%Q); [|discriminate].
        apply Qmult_lt_r; [reflexivity|].
        apply Qlt_shift_div_r; [exact Ha|]. rewrite Qmult_0_l. exact H. }
    split; [|split].
    + rewrite Hneg. rewrite (Qlt_minus_iff a b), (Qlt_minus_iff (a - b) 0).
      assert (0 + - (a - b) == b + - a)%Q as -> by ring. reflexivity.
    + split; intros H.
      * assert ((a - b) * 100 == 0)%Q as H''.
        { assert ((a - b) * 100 == (a - b) / a * 100 * a)%Q as -> by (field; exact Hnz).
          rewrite H. ring. }
        apply Qmult_integral in H''. destruct H'' as [H'' | H'']; [|discriminate].
        assert (a == a - b + b)%Q as -> by ring. rewrite H''. ring.
      * rewrite H. field. intros Hb. apply Hnz. rewrite H. exact Hb.
    + intros Hb. rewrite Hb. field. exact Hnz.
Qed.

(** X2.  The conditional expression of line 127 (and of line 142) yields a
    value that is at most 100 when the output size is not negative; for a
    positive input size the value is negative exactly when the output is
    larger than the input, zero exactly when both sizes are equal, and 100
    when the output size is 0. *)
Theorem reduction_bounds (a b : Q) (w : World) :
  exists r,
    (if Qpositive a
     then r ← truediv (a - b) a; mret (r * 100)%Q
     else mret 0%Q) w = (Ok r, w) /\
    ((0 <= b)%Q -> (r <= 100)%Q) /\
    ((0 < a)%Q ->
       ((r < 0)%Q <-> (a < b)%Q) /\
       ((r == 0)%Q <-> (a == b)%Q) /\
       ((b == 0)%Q -> (r == 100)%Q)).
Proof.
  exists (reduction_value a b). split; [apply guarded_reduction|].
  apply reduction_value_bounds.
Qed.

End Sizes.

Lemma reduction_bounds_witness :
  exists r,
    (if Qpositive (4 # 1)
     then r ← truediv ((4 # 1) - (6 # 1)) (4 # 1); mret (r * 100)%Q
     else mret 0%Q) (mkWorld ∅ []) = (Ok r, mkWorld ∅ []) /\
    (r < 0)%Q.
Proof.
  destruct (reduction_bounds (4 # 1) (6 # 1) (mkWorld ∅ [])) as (r & Hrun & _ & H).
  exists r. split; [exact Hrun|].
  apply (proj1 (H ltac:(reflexivity))). reflexivity.
Defined.

Lemma get_file_size_mb_spec_witness :
  get_file_size_mb (Demo.inp "photo.jpg") (mkWorld Demo.fs_three []) =
  (Ok (size_mb [Byte.x01; Byte.x10; Byte.x11; Byte.x12]), mkWorld Demo.fs_three []).
Proof.
  refine (proj1 (proj1 (get_file_size_mb_spec (Demo.inp "photo.jpg")
                          (mkWorld Demo.fs_three [])) _ _)).
  vm_compute. reflexivity.
Defined.

Section Edges.

Context `{PIL : Pillow} `{ACL : Access}.
Variable SCRIPT_DIR : Path.

Local Abbreviation IN := (INPUT_FOLDER SCRIPT_DIR).
Local Abbreviation OUT := (OUTPUT_FOLDER SCRIPT_DIR).

(** X3.  [convert_to_webp] on an input path that does not exist, or that is a
    directory, returns [False], prints one error line with the name of the
    path, and leaves the store as it was: nothing is created at the output
    path. *)
Theorem convert_to_webp_unreadable_input (inp out : Path) (q : Z) (w : World) :
  (forall data, fs w !! inp <> Some (File data)) ->
  exists msg,
    convert_to_webp inp out q w =
      (Ok false, mkWorld (fs w) (stdout w ++ [LConvError (PyPath.name inp) msg])).
Proof.
  intros Hno. exists (PyPath.name inp). unfold convert_to_webp.
  assert (exists cls,
            open_image inp w = (Raise (Exception cls (PyPath.name inp)), w)) as [cls Ho].
  { unfold open_image, OS.read_file.
    destruct (fs w !! inp) as [[data|]|] eqn:E.
    - exfalso. exact (Hno data eq_refl).
    - eexists. erewrite bind_raise; [reflexivity|]. rewrite E. reflexivity.
    - eexists. erewrite bind_raise; [reflexivity|]. rewrite E. reflexivity. }
  erewrite try_caught; [| erewrite bind_raise by exact Ho; reflexivity | reflexivity].
  reflexivity.
Qed.

Lemma folders_ok_prepared (f : gmap Path Node) :
  folders_ok SCRIPT_DIR (prepared SCRIPT_DIR f) = true.
Proof.
  unfold folders_ok, mkdir_ok.
  rewrite prepared_input, prepared_output. reflexivity.
Qed.

Lemma prepared_idempotent (f : gmap Path Node) :
  prepared SCRIPT_DIR (prepared SCRIPT_DIR f) = prepared SCRIPT_DIR f.
Proof.
  apply map_eq. intros p.
  destruct (decide (p = IN)) as [-> | H1]; [rewrite !prepared_input; reflexivity|].
  destruct (decide (p = OUT)) as [-> | H2]; [rewrite !prepared_output; reflexivity|].
  rewrite !prepared_other by assumption. reflexivity.
Qed.

(** X4.  [create_folders], when both folders exist or can be made, leaves both
    as directories, changes no other path (what the folders contain stays),
    and can be called again: the second call succeeds and changes nothing
    in the store. *)
Theorem create_folders_idempotent (w : World) :
  folders_ok SCRIPT_DIR (fs w) = true ->
  exists w1 w2,
    create_folders SCRIPT_DIR w = (Ok tt, w1) /\
    fs w1 !! IN = Some Dir /\ fs w1 !! OUT = Some Dir /\
    (forall p, p <> IN -> p <> OUT -> fs w1 !! p = fs w !! p) /\
    create_folders SCRIPT_DIR w1 = (Ok tt, w2) /\
    fs w2 = fs w1.
Proof.
  intros Hok.
  destruct (create_folders_cases SCRIPT_DIR w) as [[_ Hrun] | [Hbad _]]; [|congruence].
  set (w1 := mkWorld (prepared SCRIPT_DIR (fs w))
               (stdout w ++ [LInputFolder IN; LOutputFolder OUT])) in *.
  destruct (create_folders_cases SCRIPT_DIR w1) as [[_ Hrun'] | [Hbad _]].
  - eexists w1, _. split; [exact Hrun|].
    split; [apply prepared_input|]. split; [apply prepared_output|].
    split; [intros p H1 H2; apply prepared_other; assumption|].
    split; [exact Hrun'|]. cbn [fs]. apply prepared_idempotent.
  - unfold w1 in Hbad. cbn [fs] in Hbad. rewrite folders_ok_prepared in Hbad.
    discriminate.
Qed.

(** X5.  [create_folders] raises exactly when one of the folders cannot be made,
    and then prints nothing.  When the input folder is the one that cannot
    be made the store is untouched; when only the output folder cannot be
    made, the input folder has been created before the error. *)
Theorem create_folders_failure (w : World) :
  folders_ok SCRIPT_DIR (fs w) = false ->
  exists cls msg w',
    create_folders SCRIPT_DIR w = (Raise (Exception cls msg), w') /\
    stdout w' = stdout w /\
    (mkdir_ok (fs w) IN = false -> w' = w) /\
    (mkdir_ok (fs w) IN = true ->
       fs w' = <[IN := Dir]> (fs w) /\ mkdir_ok (fs w) OUT = false).
Proof.
  intros Hbad. unfold folders_ok in Hbad. unfold create_folders.
  destruct (mkdir_cases IN w) as [[Hok Hrun] | [Hok (cls & msg & Hrun)]].
  - rewrite Hok in Hbad. cbn [andb] in Hbad.
    erewrite bind_ok by exact Hrun.
    set (w1 := mkWorld (<[IN := Dir]> (fs w)) (stdout w)).
    destruct (mkdir_cases OUT w1) as [[Hok' _] | [_ (cls & msg & Hrun')]].
    + unfold w1 in Hok'. cbn [fs] in Hok'. rewrite mkdir_ok_after_input in Hok'.
      congruence.
    + erewrite bind_raise by exact Hrun'.
      exists cls, msg, w1. split; [reflexivity|]. split; [reflexivity|].
      split; [congruence|]. intros _. split; [reflexivity | exact Hbad].
  - erewrite bind_raise by exact Hrun.
    exists cls, msg, w. split; [reflexivity|]. split; [reflexivity|].
    split; [reflexivity | congruence].
Qed.

(** The test of [PurePath.suffix] fails on a name: it has no suffix, it is
    its own stem and no set of formats selects it. *)
Lemma suffix_test_fails (f : gmap Path Node) (HEIC_SUPPORTED : bool) (nm : string) :
  PyStr.rfind "." nm <= 0 \/ PyStr.rfind "." nm = PyStr.len nm - 1 ->
  PyPath.suffix_of nm = "" /\
  PyPath.stem_of nm = nm /\
  IN ++ [nm] ∉ files_in SCRIPT_DIR f (all_formats_of HEIC_SUPPORTED).
Proof.
  intros H.
  assert ((0 <? PyStr.rfind "." nm) && (PyStr.rfind "." nm <? PyStr.len nm - 1) = false)
    as Hc.
  { apply andb_false_iff. destruct H as [H | H].
    - left. apply Z.ltb_ge. exact H.
    - right. apply Z.ltb_ge. lia. }
  assert (PyPath.suffix_of nm = "") as Hs
    by (unfold PyPath.suffix_of; rewrite Hc; reflexivity).
  split; [exact Hs|]. split; [unfold PyPath.stem_of; rewrite Hc; reflexivity|].
  intros Hin. apply elem_of_files_in in Hin as (nm' & data & E & _ & Hext).
  apply app_inj_tail in E as [_ <-]. rewrite Hs in Hext.
  apply recognized_spec, recognized_mono, recognized_shape in Hext as [_ Hl].
  simpl in Hl. lia.
Qed.

Lemma rfind_found (s : string) :
  0 <= PyStr.rfind "." s -> In "."%char (list_ascii_of_string s).
Proof.
  induction s as [|a r IH]; [simpl; lia|].
  rewrite rfind_cons. cbn [list_ascii_of_string In].
  destruct (0 <=? PyStr.rfind "." r) eqn:E.
  - apply Z.leb_le in E. intros _. right. exact (IH E).
  - destruct (Ascii.eqb a ".") eqn:Ea; [|lia].
    apply Ascii.eqb_eq in Ea. intros _. left. exact Ea.
Qed.

Lemma rfind_no_dot (s : string) : no_dot s <-> PyStr.rfind "." s = -1.
Proof.
  unfold no_dot. induction s as [|a r IH]; [simpl; tauto|].
  cbn [list_ascii_of_string In]. rewrite rfind_cons.
  pose proof (rfind_lower_bound "." r) as Hb.
  destruct (0 <=? PyStr.rfind "." r) eqn:E.
  - apply Z.leb_le in E. split; [|lia].
    intros H. exfalso. apply H. right. exact (rfind_found r E).
  - apply Z.leb_gt in E. assert (PyStr.rfind "." r = -1) as Hr by lia.
    apply IH in Hr.
    destruct (Ascii.eqb a ".") eqn:Ea.
    + apply Ascii.eqb_eq in Ea. split; [|lia]. intros H. exfalso. apply H. left. exact Ea.
    + apply Ascii.eqb_neq in Ea. split; [reflexivity|].
      intros _ [H | H]; [exact (Ea H) | exact (Hr H)].
Qed.

Lemma rfind_leading_dot (s : string) :
  PyStr.rfind "." s = 0 <-> exists rest, s = String "." rest /\ no_dot rest.
Proof.
  split.
  - destruct s as [|a r]; [discriminate|]. rewrite rfind_cons.
    pose proof (rfind_lower_bound "." r) as Hb.
    destruct (0 <=? PyStr.rfind "." r) eqn:E; [apply Z.leb_le in E; lia|].
    apply Z.leb_gt in E.
    destruct (Ascii.eqb a ".") eqn:Ea; [|discriminate].
    apply Ascii.eqb_eq in Ea. subst a. intros _. exists r.
    split; [reflexivity|]. apply rfind_no_dot. lia.
  - intros (rest & -> & Hn). apply rfind_no_dot in Hn.
    rewrite rfind_cons, Hn. reflexivity.
Qed.

Lemma rfind_trailing_dot (s : string) :
  PyStr.rfind "." s = PyStr.len s - 1 /\ s <> "" <->
  exists stem, s = (stem ++ ".")%string.
Proof.
  split.
  - intros [H Hne]. induction s as [|a r IH]; [contradiction|].
    rewrite rfind_cons in H. unfold PyStr.len in *. cbn [String.length] in H.
    pose proof (rfind_lower_bound "." r) as Hb. unfold PyStr.len in Hb.
    destruct (0 <=? PyStr.rfind "." r) eqn:E.
    + apply Z.leb_le in E.
      destruct IH as [stem ->]; [lia | intros ->; simpl in E; lia |].
      exists (String a stem). reflexivity.
    + apply Z.leb_gt in E. destruct r as [|b r]; [|destruct (Ascii.eqb a "."); simpl in H; lia].
      destruct (Ascii.eqb a ".") eqn:Ea; [|simpl in H; lia].
      apply Ascii.eqb_eq in Ea. subst a. exists "". reflexivity.
  - intros [stem ->]. split.
    + rewrite rfind_app by (simpl; lia). unfold PyStr.len.
      rewrite length_append. simpl. lia.
    + destruct stem; discriminate.
Qed.

Lemma drop_empty (n : nat) (s : string) :
  PyStr.drop n s = "" -> (String.length s <= n)%nat.
Proof.
  revert s. induction n as [|n IH]; intros [|a r]; cbn [PyStr.drop String.length];
    try discriminate; try lia.
  intros H. apply IH in H. lia.
Qed.

(** X6.  A name has no suffix exactly when it has no dot, or its only dot is
    its first character (such as [.png]), or it ends with a dot.  Such a
    name is its own stem, and a file of the input folder with such a name
    is never selected, whatever the formats. *)
Theorem no_extension_not_selected (f : gmap Path Node) (HEIC_SUPPORTED : bool)
    (nm : string) :
  (PyPath.suffix_of nm = "" <->
   no_dot nm \/
   (exists rest, nm = String "." rest /\ no_dot rest) \/
   (exists stem, nm = (stem ++ ".")%string)) /\
  (PyPath.suffix_of nm = "" ->
   PyPath.stem_of nm = nm /\
   IN ++ [nm] ∉ files_in SCRIPT_DIR f (all_formats_of HEIC_SUPPORTED)).
Proof.
  pose proof (rfind_lower_bound "." nm) as Hb.
  assert (PyPath.suffix_of nm = "" <->
          PyStr.rfind "." nm <= 0 \/ PyStr.rfind "." nm = PyStr.len nm - 1) as Htest.
  { split; [|intros H; apply (suffix_test_fails f HEIC_SUPPORTED nm H)].
    unfold PyPath.suffix_of.
    destruct ((0 <? PyStr.rfind "." nm) && (PyStr.rfind "." nm <? PyStr.len nm - 1))
      eqn:E.
    - apply andb_prop in E as [E1 E2]. apply Z.ltb_lt in E1, E2.
      intros H. apply drop_empty in H. unfold PyStr.len in *. lia.
    - intros _. apply andb_false_iff in E as [E | E]; apply Z.ltb_ge in E; lia. }
  split.
  - rewrite Htest. split.
    + intros [H | H].
      * destruct (Z.eq_dec (PyStr.rfind "." nm) 0) as [E | E].
        -- right. left. apply rfind_leading_dot, E.
        -- left. apply rfind_no_dot. lia.
      * destruct nm as [|a r]; [left; intros []|].
        right. right. apply rfind_trailing_dot. split; [exact H | discriminate].
    + intros [H | [H | H]].
      * apply rfind_no_dot in H. lia.
      * apply rfind_leading_dot in H. lia.
      * apply rfind_trailing_dot in H as [H _]. right. exact H.
  - intros H. apply Htest in H.
    apply (suffix_test_fails f HEIC_SUPPORTED nm H).
Qed.

End Edges.

Lemma convert_to_webp_unreadable_input_witness :
  exists msg,
    convert_to_webp (Demo.inp "missing.jpg") (Demo.outp "missing.webp") 85
      (mkWorld Demo.fs_ready []) =
    (Ok false, mkWorld Demo.fs_ready [LConvError "missing.jpg" msg]).
Proof.
  refine (convert_to_webp_unreadable_input (Demo.inp "missing.jpg")
            (Demo.outp "missing.webp") 85 (mkWorld Demo.fs_ready []) _).
  intros data. vm_compute. discriminate.
Defined.

Lemma create_folders_idempotent_witness :
  exists w1 w2,
    create_folders Demo.app (mkWorld Demo.fs_fresh []) = (Ok tt, w1) /\
    create_folders Demo.app w1 = (Ok tt, w2) /\ fs w2 = fs w1.
Proof.
  destruct (create_folders_idempotent Demo.app (mkWorld Demo.fs_fresh []))
    as (w1 & w2 & H1 & _ & _ & _ & H2 & H3).
  - vm_compute. reflexivity.
  - exists w1, w2. auto.
Defined.

Lemma create_folders_failure_witness :
  exists cls msg,
    create_folders Demo.app (mkWorld Demo.fs_blocked []) =
      (Raise (Exception cls msg), mkWorld Demo.fs_blocked []).
Proof.
  destruct (create_folders_failure Demo.app (mkWorld Demo.fs_blocked []))
    as (cls & msg & w' & Hrun & _ & Hsame & _).
  - vm_compute. reflexivity.
  - exists cls, msg. rewrite Hrun, Hsame; [reflexivity|]. vm_compute. reflexivity.
Defined.

Lemma no_extension_not_selected_witness :
  (PyPath.suffix_of "README" = "" /\ PyPath.suffix_of ".png" = "" /\
   PyPath.suffix_of "photo." = "") /\
  INPUT_FOLDER Demo.app ++ [".png"] ∉ files_in Demo.app Demo.fs_three (all_formats_of true).
Proof.
  split; [split; [|split]|].
  - apply (proj1 (no_extension_not_selected Demo.app Demo.fs_three true "README")).
    left. unfold no_dot. vm_compute. intuition discriminate.
  - apply (proj1 (no_extension_not_selected Demo.app Demo.fs_three true ".png")).
    right. left. exists "png". split; [reflexivity|].
    unfold no_dot. vm_compute. intuition discriminate.
  - apply (proj1 (no_extension_not_selected Demo.app Demo.fs_three true "photo.")).
    right. right. exists "photo". reflexivity.
  - apply (proj2 (no_extension_not_selected Demo.app Demo.fs_three true ".png")).
    reflexivity.
Defined.

(** ** The store after a conversion *)

Section Stores.

Context `{PIL : Pillow}.

Lemma write_file_store (p : Path) (d : bytes) (w : World) :
  fs (snd (OS.write_file p d w)) =
  if writable (fs w) p then <[p := File d]> (fs w) else fs w.
Proof.
  unfold OS.write_file, writable, OS.check_parent.
  destruct (fs w !! p) as [[?|]|]; try reflexivity;
    destruct (fs w !! PyPath.parent p) as [[?|]|]; reflexivity.
Qed.

Lemma save_image_store (img : Image) (out : Path) (format : string) (q : Z)
    (l : option bool) (w : World) :
  fs (snd (save_image img out format q l w)) =
  match written (Image_save img format q l) with
  | Some d => if writable (fs w) out then <[out := File d]> (fs w) else fs w
  | None => fs w
  end.
Proof.
  unfold save_image. destruct (Image_save img format q l) as [d | e [d|]]; cbn [written].
  - apply write_file_store.
  - unfold mbind, M_bind. pose proof (write_file_store out d w) as H.
    destruct (OS.write_file out d w) as [[[]|e'] w1]; exact H.
  - reflexivity.
Qed.

Lemma try_except_store {A} (body : M A) (c : Exn -> bool) (l : Exn -> Line) (a : A)
    (w : World) :
  fs (snd (try_except body c (fun e => print (l e);; mret a) w)) = fs (snd (body w)).
Proof.
  unfold try_except. destruct (body w) as [[x|e] w1]; [reflexivity|].
  destruct (c e); reflexivity.
Qed.

Lemma bind_ret_store {A B} (m : M A) (b : B) (w : World) :
  fs (snd ((m ≫= fun _ => mret b) w)) = fs (snd (m w)).
Proof. unfold mbind, M_bind. destruct (m w) as [[a|e] w1]; reflexivity. Qed.

(** The store after [convert_to_webp], whatever its result. *)
Lemma convert_to_webp_store (inp out : Path) (q : Z) (w : World) :
  fs (snd (convert_to_webp inp out q w)) = store_after_convert (fs w) inp out q.
Proof.
  unfold convert_to_webp.
  rewrite (try_except_store _ is_Exception
             (fun e => LConvError (PyPath.name inp) (exn_str e)) false w).
  unfold store_after_convert, encode_policy.
  destruct (fs w !! inp) as [[data|]|] eqn:Ein.
  - destruct (Image_open data) as [e | img] eqn:Eopen.
    + erewrite bind_raise; [reflexivity|].
      unfold open_image. erewrite bind_ok by (unfold OS.read_file; rewrite Ein; reflexivity).
      rewrite Eopen. reflexivity.
    + erewrite bind_ok;
        [| unfold open_image;
           erewrite bind_ok by (unfold OS.read_file; rewrite Ein; reflexivity);
           rewrite Eopen; reflexivity].
      rewrite bind_ret_store.
      destruct (keeps_alpha img); [apply save_image_store|].
      destruct (bool_decide (mode img = "RGB")); cbn [negb].
      * erewrite bind_ok by reflexivity. apply save_image_store.
      * unfold convert_image. destruct (Image_convert img "RGB") as [e | rgb].
        -- erewrite bind_raise by reflexivity. reflexivity.
        -- erewrite bind_ok by reflexivity. apply save_image_store.
  - erewrite bind_raise; [reflexivity|].
    unfold open_image. erewrite bind_raise; [reflexivity|].
    unfold OS.read_file. rewrite Ein. reflexivity.
  - erewrite bind_raise; [reflexivity|].
    unfold open_image. erewrite bind_raise; [reflexivity|].
    unfold OS.read_file. rewrite Ein. reflexivity.
Qed.

End Stores.

(** ** Running the loop again *)

Section Rerun.

Context `{PIL : Pillow} `{ACL : Access}.
Variable SCRIPT_DIR : Path.

Local Abbreviation IN := (INPUT_FOLDER SCRIPT_DIR).
Local Abbreviation OUT := (OUTPUT_FOLDER SCRIPT_DIR).
Local Abbreviation out_of := (output_file_of SCRIPT_DIR).

(** A turn of the loop changes the store as its call of [convert_to_webp]
    does. *)
Lemma convert_one_store (total i : nat) (input_file : Path) (t : Totals)
    (w : World) (data : bytes) :
  fs w !! input_file = Some (File data) ->
  fs w !! OUT = Some Dir ->
  fs (snd (convert_one SCRIPT_DIR total i input_file t w)) =
  store_after_convert (fs w) input_file (out_of input_file) 85.
Proof.
  intros Hin Hout. unfold convert_one. cbv zeta.
  erewrite bind_ok by apply print_run.
  set (w1 := mkWorld (fs w) (stdout w ++ [LConverting i total (PyPath.name input_file)])).
  erewrite bind_ok by (apply (get_file_size_mb_file input_file w1 data); exact Hin).
  pose proof (convert_to_webp_store input_file (out_of input_file) 85 w1) as Hst.
  destruct (convert_to_webp_cases input_file (out_of input_file) 85 w1)
    as [(data' & d & _ & _ & _ & _ & Hrun) | (msg & w' & Hrun & _)];
    rewrite Hrun in Hst; cbn [snd fs] in Hst.
  - erewrite bind_ok by exact Hrun. cbv iota.
    erewrite bind_ok by
      (apply (get_file_size_mb_file _ _ d); cbn [fs]; apply lookup_insert_eq).
    erewrite bind_ok by apply guarded_reduction.
    erewrite bind_ok by apply print_run.
    cbn [snd fs]. exact Hst.
  - erewrite bind_ok by exact Hrun. cbv iota.
    erewrite bind_ok by apply print_run.
    cbn [snd fs]. exact Hst.
Qed.

Lemma writable_same (f0 : gmap Path Node) (w : World) (p : Path) :
  same_but_outputs SCRIPT_DIR f0 w ->
  writable (fs w) p = writable f0 p.
Proof.
  intros [_ H2]. unfold writable.
  pose proof (H2 p) as Hp. pose proof (H2 (PyPath.parent p)) as Hq.
  assert (forall (a b : option Node), (a = Some Dir <-> b = Some Dir) ->
            forall (X Y : bool),
              match a with Some Dir => X | _ => Y end =
              match b with Some Dir => X | _ => Y end) as Hm.
  { intros a b Hab X Y.
    destruct a as [[?|]|], b as [[?|]|]; try reflexivity; exfalso;
      try (destruct Hab as [Hab _]; specialize (Hab eq_refl); discriminate);
      try (destruct Hab as [_ Hab]; specialize (Hab eq_refl); discriminate). }
  rewrite (Hm _ _ Hq true false). apply (Hm _ _ Hp).
Qed.

Lemma store_after_convert_effect (f0 : gmap Path Node) (w : World) (p : Path) :
  same_but_outputs SCRIPT_DIR f0 w ->
  OS.is_child IN p = true ->
  store_after_convert (fs w) p (out_of p) 85 =
  apply_effect (effect_of SCRIPT_DIR f0 p) (fs w).
Proof.
  intros Hw Hc. unfold store_after_convert, effect_of.
  rewrite (writable_same f0 w _ Hw).
  destruct Hw as [H1 _]. rewrite (H1 p (input_not_output_entry SCRIPT_DIR p Hc)).
  destruct (f0 !! p) as [[data|]|]; try reflexivity.
  destruct (written (encode_policy data 85)) as [d|]; [|reflexivity].
  destruct (writable f0 (out_of p)); reflexivity.
Qed.

(** The store after the loop is the store before it with the writes of
    the turns, in order. *)
Lemma convert_all_store (f0 : gmap Path Node) (files : list Path) :
  f0 !! OUT = Some Dir ->
  Forall (input_file_of SCRIPT_DIR f0) files ->
  forall (total i : nat) (t : Totals) (w : World),
    same_but_outputs SCRIPT_DIR f0 w ->
    fs (snd (convert_all SCRIPT_DIR total i files t w)) =
    stores SCRIPT_DIR f0 files (fs w).
Proof.
  intros Hout Hfiles. induction Hfiles as [|p files [Hc Hf] _ IH];
    intros total i t w Hw; [reflexivity|].
  unfold OS.is_file in Hf.
  destruct (f0 !! p) as [[data|]|] eqn:E0; try discriminate.
  assert (fs w !! p = Some (File data)) as Hin.
  { destruct Hw as [H1 _]. rewrite H1; [exact E0 | apply input_not_output_entry, Hc]. }
  assert (fs w !! OUT = Some Dir) as Hout'.
  { destruct Hw as [_ H2]. apply H2, Hout. }
  pose proof (convert_one_store total i p t w data Hin Hout') as Hst.
  destruct (convert_one_spec SCRIPT_DIR total i p t w data Hin Hout')
    as (t1 & w1 & Hrun & Hat & _).
  rewrite Hrun in Hst. cbn [snd] in Hst.
  cbn [convert_all]. erewrite bind_ok by exact Hrun.
  rewrite (IH total (S i) t1 w1 (same_but_outputs_step SCRIPT_DIR f0 w w1 p Hw Hat)).
  rewrite Hst, (store_after_convert_effect f0 w p Hw Hc). reflexivity.
Qed.

Lemma stores_lookup (f0 : gmap Path Node) (files : list Path) :
  forall (m : gmap Path Node) (k : Path),
    stores SCRIPT_DIR f0 files m !! k =
    match last_write SCRIPT_DIR f0 files k with
    | Some d => Some (File d)
    | None => m !! k
    end.
Proof.
  induction files as [|p files IH]; intros m k; [reflexivity|].
  unfold stores in *. cbn [foldl last_write]. rewrite IH.
  destruct (last_write SCRIPT_DIR f0 files k) as [d|]; [reflexivity|].
  unfold apply_effect.
  destruct (effect_of SCRIPT_DIR f0 p) as [[k' d]|]; [|reflexivity].
  destruct (decide (k' = k)) as [-> | Hne].
  - apply lookup_insert_eq.
  - apply lookup_insert_ne, Hne.
Qed.

Lemma stores_idempotent (f0 : gmap Path Node) (files : list Path) (m : gmap Path Node) :
  stores SCRIPT_DIR f0 files (stores SCRIPT_DIR f0 files m) = stores SCRIPT_DIR f0 files m.
Proof.
  apply map_eq. intros k. rewrite !stores_lookup.
  destruct (last_write SCRIPT_DIR f0 files k); reflexivity.
Qed.

(** X7.  Running the loop a second time over the same files, on the store the
    first pass left, ends normally, leaves that store exactly as it is
    (the same output files with the same contents) and reports the same
    number of converted files and the same totals as the first pass. *)
Theorem loop_rerun_idempotent (files : list Path) (total i : nat) (t : Totals)
    (w : World) :
  fs w !! OUT = Some Dir ->
  Forall (input_file_of SCRIPT_DIR (fs w)) files ->
  exists t1 w1 t2 w2,
    convert_all SCRIPT_DIR total i files t w = (Ok t1, w1) /\
    convert_all SCRIPT_DIR total i files t w1 = (Ok t2, w2) /\
    fs w2 = fs w1 /\
    success_count t2 = success_count t1 /\
    (total_input_size t2 == total_input_size t1)%Q /\
    (total_output_size t2 == total_output_size t1)%Q.
Proof.
  intros Hout Hfiles.
  pose proof (same_but_outputs_refl SCRIPT_DIR w) as Hw.
  destruct (convert_all_spec SCRIPT_DIR (fs w) files Hout Hfiles total i t w Hw)
    as (t1 & w1 & l1 & Hrun1 & Hw1 & _ & _ & _ & Hsc1 & Hti1 & Hto1).
  destruct (convert_all_spec SCRIPT_DIR (fs w) files Hout Hfiles total i t w1 Hw1)
    as (t2 & w2 & l2 & Hrun2 & _ & _ & _ & _ & Hsc2 & Hti2 & Hto2).
  exists t1, w1, t2, w2. split; [exact Hrun1|]. split; [exact Hrun2|]. split.
  - pose proof (convert_all_store (fs w) files Hout Hfiles total i t w Hw) as S1.
    pose proof (convert_all_store (fs w) files Hout Hfiles total i t w1 Hw1) as S2.
    rewrite Hrun1 in S1. rewrite Hrun2 in S2. cbn [snd] in S1, S2.
    rewrite S2, S1. apply stores_idempotent.
  - split; [congruence|]. split.
    + rewrite Hti2, Hti1. reflexivity.
    + rewrite Hto2, Hto1. reflexivity.
Qed.

End Rerun.

Lemma loop_rerun_idempotent_witness :
  exists t1 w1 t2 w2,
    convert_all Demo.app 2 1 [Demo.inp "photo.jpg"; Demo.inp "photo.png"]
      (mkTotals 0 0 0) (mkWorld Demo.fs_collision []) = (Ok t1, w1) /\
    convert_all Demo.app 2 1 [Demo.inp "photo.jpg"; Demo.inp "photo.png"]
      (mkTotals 0 0 0) w1 = (Ok t2, w2) /\
    fs w2 = fs w1.
Proof.
  destruct (loop_rerun_idempotent Demo.app [Demo.inp "photo.jpg"; Demo.inp "photo.png"]
              2 1 (mkTotals 0 0 0) (mkWorld Demo.fs_collision []))
    as (t1 & w1 & t2 & w2 & H1 & H2 & H3 & _).
  - vm_compute. reflexivity.
  - repeat constructor; vm_compute; reflexivity.
  - exists t1, w1, t2, w2. auto.
Defined.

Section Collision.

Context `{PIL : Pillow} `{ACL : Access}.
Variable SCRIPT_DIR : Path.

Local Abbreviation IN := (INPUT_FOLDER SCRIPT_DIR).
Local Abbreviation OUT := (OUTPUT_FOLDER SCRIPT_DIR).
Local Abbreviation out_of := (output_file_of SCRIPT_DIR).

Lemma input_file_data (f0 : gmap Path Node) (p : Path) :
  input_file_of SCRIPT_DIR f0 p -> exists data, f0 !! p = Some (File data).
Proof.
  intros [_ H]. unfold OS.is_file in H.
  destruct (f0 !! p) as [[data|]|]; try discriminate. eauto.
Qed.

(** X8.  Two input files with the same stem have the same output path.  When
    both are converted, one after the other, the second conversion replaces
    the file of the first: the output path ends with the encoding of the
    second file and nothing else changes in the store, yet both count as
    converted and both output sizes are added to the output total. *)
Theorem same_stem_collision (p1 p2 : Path) (total i : nat) (t : Totals) (w : World)
    (d1 d2 : bytes) :
  fs w !! OUT = Some Dir ->
  input_file_of SCRIPT_DIR (fs w) p1 ->
  input_file_of SCRIPT_DIR (fs w) p2 ->
  PyPath.stem p1 = PyPath.stem p2 ->
  conv_outcome SCRIPT_DIR (fs w) p1 = Some d1 ->
  conv_outcome SCRIPT_DIR (fs w) p2 = Some d2 ->
  out_of p1 = out_of p2 /\
  exists t' w',
    convert_all SCRIPT_DIR total i [p1; p2] t w = (Ok t', w') /\
    fs w' = <[out_of p1 := File d2]> (fs w) /\
    success_count t' = (success_count t + 2)%nat /\
    (total_output_size t' == total_output_size t + size_mb d1 + size_mb d2)%Q.
Proof.
  intros Hout H1 H2 Hstem C1 C2.
  assert (out_of p1 = out_of p2) as Hsame by (unfold output_file_of; rewrite Hstem; reflexivity).
  split; [exact Hsame|].
  destruct (input_file_data _ _ H1) as [data1 E1].
  destruct (input_file_data _ _ H2) as [data2 E2].
  destruct (convert_one_spec SCRIPT_DIR total i p1 t w data1 E1 Hout)
    as (t1 & w1 & Hrun1 & Hat1 & _ & Hres1).
  rewrite C1 in Hres1. destruct Hres1 as (Hfs1 & Hs1 & Ho1 & _).
  pose proof (same_but_outputs_step SCRIPT_DIR (fs w) w w1 p1
                (same_but_outputs_refl SCRIPT_DIR w) Hat1) as Hw1.
  assert (fs w1 !! p2 = Some (File data2)) as E2'.
  { destruct Hw1 as [F _]. rewrite F; [exact E2|].
    apply input_not_output_entry. apply H2. }
  assert (fs w1 !! OUT = Some Dir) as Hout1.
  { destruct Hw1 as [_ F]. apply F, Hout. }
  destruct (convert_one_spec SCRIPT_DIR total (S i) p2 t1 w1 data2 E2' Hout1)
    as (t2 & w2 & Hrun2 & _ & _ & Hres2).
  rewrite (conv_outcome_same SCRIPT_DIR (fs w) w1 p2 Hw1 (proj1 H2)), C2 in Hres2.
  destruct Hres2 as (Hfs2 & Hs2 & Ho2 & _).
  exists t2, w2. split.
  - cbn [convert_all]. erewrite bind_ok by exact Hrun1.
    erewrite bind_ok by exact Hrun2. reflexivity.
  - split; [|split].
    + rewrite Hfs2, Hfs1, <- Hsame. apply insert_insert_eq.
    + rewrite Hs2, Hs1. lia.
    + rewrite Ho2, Ho1. reflexivity.
Qed.

End Collision.

Lemma same_stem_collision_witness :
  exists t' w',
    convert_all Demo.app 2 1 [Demo.inp "photo.jpg"; Demo.inp "photo.png"]
      (mkTotals 0 0 0) (mkWorld Demo.fs_collision []) = (Ok t', w') /\
    fs w' = <[Demo.outp "photo.webp" := File [Byte.x02; Byte.x55; Byte.x01]]>
              Demo.fs_collision /\
    success_count t' = 2%nat.
Proof.
  destruct (same_stem_collision Demo.app (Demo.inp "photo.jpg") (Demo.inp "photo.png")
              2 1 (mkTotals 0 0 0) (mkWorld Demo.fs_collision [])
              [Byte.x01; Byte.x55; Byte.x00] [Byte.x02; Byte.x55; Byte.x01])
    as (_ & t' & w' & Hrun & Hfs & Hsc & _).
  - vm_compute. reflexivity.
  - split; vm_compute; reflexivity.
  - split; vm_compute; reflexivity.
  - vm_compute. reflexivity.
  - vm_compute. reflexivity.
  - vm_compute. reflexivity.
  - exists t', w'. split; [exact Hrun|]. split; [exact Hfs | exact Hsc].
Defined.

(** ** The console of a run *)

Lemma count_lines_cons (sel : Line -> bool) (l : Line) (r : list Line) :
  count_lines sel (l :: r) = ((if sel l then 1 else 0) + count_lines sel r)%nat.
Proof. unfold count_lines. simpl. destruct (sel l); reflexivity. Qed.

Lemma count_lines_app (sel : Line -> bool) (l1 l2 : list Line) :
  count_lines sel (l1 ++ l2) = (count_lines sel l1 + count_lines sel l2)%nat.
Proof. unfold count_lines. rewrite List.filter_app, length_app. reflexivity. Qed.

Lemma count_lines_none (sel : Line -> bool) (l : list Line) :
  Forall (fun x => sel x = false) l -> count_lines sel l = 0%nat.
Proof.
  induction 1 as [|x l Hx _ IH]; [reflexivity|].
  rewrite count_lines_cons, Hx, IH. reflexivity.
Qed.

Section Console.

Context `{PIL : Pillow} `{ACL : Access}.
Variable SCRIPT_DIR : Path.

Local Abbreviation IN := (INPUT_FOLDER SCRIPT_DIR).
Local Abbreviation OUT := (OUTPUT_FOLDER SCRIPT_DIR).

(** The lines of the loop: one progress line per file, then a line with the
    sizes for a converted file, or an error line and an empty line. *)
Lemma convert_all_lines (f0 : gmap Path Node) (files : list Path) :
  f0 !! OUT = Some Dir ->
  Forall (input_file_of SCRIPT_DIR f0) files ->
  forall (total i : nat) (t : Totals) (w : World),
    same_but_outputs SCRIPT_DIR f0 w ->
    exists t' w' lines,
      convert_all SCRIPT_DIR total i files t w = (Ok t', w') /\
      stdout w' = stdout w ++ lines /\
      Forall (fun l => is_file_line l = true) lines /\
      count_lines is_converting_line lines = length files /\
      count_lines is_converted_line lines = successes SCRIPT_DIR f0 files /\
      (count_lines is_error_line lines + successes SCRIPT_DIR f0 files = length files)%nat /\
      success_count t' = (success_count t + successes SCRIPT_DIR f0 files)%nat.
Proof.
  intros Hout Hfiles. induction Hfiles as [|p files [Hc Hf] _ IH];
    intros total i t w Hw.
  - exists t, w, []. rewrite app_nil_r. unfold successes. simpl.
    repeat split; auto.
  - unfold OS.is_file in Hf.
    destruct (f0 !! p) as [[data|]|] eqn:E0; try discriminate.
    assert (fs w !! p = Some (File data)) as Hin.
    { destruct Hw as [H1 _]. rewrite H1; [exact E0 | apply input_not_output_entry, Hc]. }
    assert (fs w !! OUT = Some Dir) as Hout'.
    { destruct Hw as [_ H2]. apply H2, Hout. }
    destruct (convert_one_spec SCRIPT_DIR total i p t w data Hin Hout')
      as (t1 & w1 & Hrun & Hat & _ & Hres).
    pose proof (same_but_outputs_step SCRIPT_DIR f0 w w1 p Hw Hat) as Hw1.
    destruct (IH total (S i) t1 w1 Hw1)
      as (t' & w' & lines & Hrun' & Hstd & Hshape & Hn & Hok & Hko & Hsc).
    rewrite (conv_outcome_same SCRIPT_DIR f0 w p Hw Hc) in Hres.
    cbn [convert_all]. erewrite bind_ok by exact Hrun.
    rewrite successes_cons. unfold converted. cbn [length].
    destruct (conv_outcome SCRIPT_DIR f0 p) as [d|].
    + destruct Hres as (_ & Hs1 & _ & Hstd1).
      eexists t', w', (_ :: _ :: lines).
      split; [exact Hrun'|].
      split; [rewrite Hstd, Hstd1, <- app_assoc; reflexivity|].
      split; [repeat constructor; exact Hshape|].
      rewrite !count_lines_cons. cbn [is_converting_line is_converted_line is_error_line].
      repeat split; lia.
    + destruct Hres as (Hs1 & _ & msg & Hstd1).
      eexists t', w', (_ :: _ :: _ :: lines).
      split; [exact Hrun'|].
      split; [rewrite Hstd, Hstd1, <- app_assoc; reflexivity|].
      split; [repeat constructor; exact Hshape|].
      rewrite !count_lines_cons. cbn [is_converting_line is_converted_line is_error_line].
      repeat split; lia.
Qed.

(** [main] with both folders and at least one file: the banner, the
    warning if any, the number of files, the loop and the summary. *)
Lemma main_run (HEIC_SUPPORTED : bool) (w : World) :
  folders_ok SCRIPT_DIR (fs w) = true ->
  discovery_ok SCRIPT_DIR (prepared SCRIPT_DIR (fs w)) = true ->
  let f1 := prepared SCRIPT_DIR (fs w) in
  let image_files := files_in SCRIPT_DIR f1 (all_formats_of HEIC_SUPPORTED) in
  let heic_files := files_in SCRIPT_DIR f1 HEIC_FORMATS in
  let w3 := mkWorld f1 (stdout w ++ banner SCRIPT_DIR
                          ++ heic_warning HEIC_SUPPORTED heic_files
                          ++ [LFound (length image_files)]) in
  image_files <> [] ->
  forall t w4,
    convert_all SCRIPT_DIR (length image_files) 1 image_files (mkTotals 0 0 0) w3
      = (Ok t, w4) ->
    main SCRIPT_DIR HEIC_SUPPORTED w =
      (Ok tt, mkWorld (fs w4)
                (stdout w4 ++ summary_lines SCRIPT_DIR t (length image_files))).
Proof.
  intros Hok Hd f1 image_files heic_files w3 Hne t w4 Hloop. unfold main.
  do 3 (erewrite bind_ok by apply print_run).
  match goal with
  | |- (_ ≫= _) ?w0 = _ =>
      destruct (create_folders_cases SCRIPT_DIR w0) as [[_ Hrun] | [Hbad _]];
        [| simpl in Hbad; congruence]
  end.
  erewrite bind_ok by exact Hrun. cbn [fs stdout]. fold f1. cbv zeta.
  erewrite bind_ok by (apply list_files_run; [apply prepared_input | exact Hd]).
  erewrite bind_ok by (apply list_files_run; [apply prepared_input | exact Hd]).
  cbn [fs stdout]. fold f1. fold image_files. fold heic_files.
  set (out0 := ((((stdout w ++ [LRule]) ++ [LTitle]) ++ [LRule]) ++
                 [LInputFolder IN; LOutputFolder OUT])).
  assert (out0 = stdout w ++ banner SCRIPT_DIR) as Hout0
    by (unfold out0, banner; rewrite <- !app_assoc; reflexivity).
  assert ((if negb (bool_decide (heic_files = [])) && negb HEIC_SUPPORTED
           then print (LHeicWarning (length heic_files));; print LHeicInstallHint
           else mret tt) (mkWorld f1 out0) =
          (Ok tt, mkWorld f1 (out0 ++ heic_warning HEIC_SUPPORTED heic_files))) as Hwarn.
  { unfold heic_warning.
    destruct (negb (bool_decide (heic_files = [])) && negb HEIC_SUPPORTED).
    - erewrite bind_ok by apply print_run. rewrite print_run. simpl.
      rewrite <- app_assoc. reflexivity.
    - rewrite app_nil_r. reflexivity. }
  erewrite bind_ok by exact Hwarn.
  rewrite (bool_decide_eq_false_2 _ Hne).
  erewrite bind_ok by apply print_run. cbn [fs stdout].
  assert (mkWorld f1 ((out0 ++ heic_warning HEIC_SUPPORTED heic_files)
                        ++ [LFound (length image_files)]) = w3) as ->.
  { unfold w3. rewrite Hout0, <- !app_assoc. reflexivity. }
  erewrite bind_ok by exact Hloop.
  do 6 (erewrite bind_ok by apply print_run).
  cbn [fs stdout]. unfold summary_lines.
  destruct (Qpositive (total_input_size t)) eqn:Epos.
  - erewrite bind_ok;
      [| erewrite bind_ok by (apply total_reduction_run, Epos); apply print_run].
    rewrite print_run. cbn [fs stdout]. rewrite <- !app_assoc. reflexivity.
  - erewrite bind_ok by reflexivity. rewrite print_run.
    cbn [fs stdout]. rewrite <- !app_assoc. reflexivity.
Qed.

End Console.

Section RunConsole.

Context `{PIL : Pillow} `{ACL : Access}.
Variable SCRIPT_DIR : Path.

Local Abbreviation IN := (INPUT_FOLDER SCRIPT_DIR).
Local Abbreviation OUT := (OUTPUT_FOLDER SCRIPT_DIR).

Lemma summary_lines_counts (t : Totals) (total : nat) :
  count_lines is_converting_line (summary_lines SCRIPT_DIR t total) = 0%nat /\
  count_lines is_converted_line (summary_lines SCRIPT_DIR t total) = 0%nat /\
  count_lines is_error_line (summary_lines SCRIPT_DIR t total) = 0%nat /\
  Forall (fun l => is_heic_line l = false) (summary_lines SCRIPT_DIR t total).
Proof.
  unfold summary_lines. destruct (Qpositive (total_input_size t));
    repeat split; repeat constructor.
Qed.

Lemma heic_warning_counts (h : bool) (heic_files : list Path) :
  count_lines is_converting_line (heic_warning h heic_files) = 0%nat /\
  count_lines is_converted_line (heic_warning h heic_files) = 0%nat /\
  count_lines is_error_line (heic_warning h heic_files) = 0%nat.
Proof.
  unfold heic_warning.
  destruct (negb (bool_decide (heic_files = [])) && negb h); repeat split.
Qed.

(** The console of a run that finds files, around the lines of the loop. *)
Lemma run_lines (env : Env) (f : gmap Path Node) :
  pillow_installed env = true ->
  folders_ok SCRIPT_DIR f = true ->
  discovery_ok SCRIPT_DIR (prepared SCRIPT_DIR f) = true ->
  let f1 := prepared SCRIPT_DIR f in
  let image_files :=
    files_in SCRIPT_DIR f1 (all_formats_of (pillow_heif_installed env)) in
  let heic_files := files_in SCRIPT_DIR f1 HEIC_FORMATS in
  image_files <> [] ->
  exists t lines,
    stdout (snd (run SCRIPT_DIR env f)) =
      banner SCRIPT_DIR ++ heic_warning (pillow_heif_installed env) heic_files
        ++ LFound (length image_files) :: lines
        ++ summary_lines SCRIPT_DIR t (length image_files) /\
    Forall (fun l => is_file_line l = true) lines /\
    count_lines is_converting_line lines = length image_files /\
    count_lines is_converted_line lines = success_count t /\
    (count_lines is_error_line lines + success_count t = length image_files)%nat /\
    success_count t = successes SCRIPT_DIR f1 image_files.
Proof.
  intros Hp Hf Hd f1 image_files heic_files Hne. unfold run.
  rewrite (script_pillow SCRIPT_DIR env _ Hp).
  set (w3 := mkWorld f1 ([] ++ banner SCRIPT_DIR
                           ++ heic_warning (pillow_heif_installed env) heic_files
                           ++ [LFound (length image_files)])).
  destruct (convert_all_lines SCRIPT_DIR f1 image_files (prepared_output SCRIPT_DIR f)
              (files_in_input_files SCRIPT_DIR f1 _) (length image_files) 1%nat
              (mkTotals 0 0 0) w3 (same_but_outputs_refl SCRIPT_DIR w3))
    as (t & w4 & lines & Hloop & Hstd & Hshape & Hn & Hok & Hko & Hsc).
  rewrite (main_run SCRIPT_DIR (pillow_heif_installed env) (mkWorld f []) Hf Hd Hne t w4 Hloop).
  exists t, lines. cbn [snd stdout]. rewrite Hstd. unfold w3. cbn [stdout app].
  cbn [success_count] in Hsc. rewrite Nat.add_0_l in Hsc.
  split; [rewrite <- !app_assoc; reflexivity|].
  split; [exact Hshape|]. split; [exact Hn|]. split; [congruence|].
  split; [rewrite Hsc; exact Hko | exact Hsc].
Qed.

(** X9.  In a run that finds files, the console has one progress line per file
    found; the number of lines reporting sizes is the number of converted
    files that the summary prints, and the number of error lines is the
    number of the other files. *)
Theorem run_outcome_counts (env : Env) (f : gmap Path Node) :
  pillow_installed env = true ->
  folders_ok SCRIPT_DIR f = true ->
  discovery_ok SCRIPT_DIR (prepared SCRIPT_DIR f) = true ->
  let f1 := prepared SCRIPT_DIR f in
  let image_files :=
    files_in SCRIPT_DIR f1 (all_formats_of (pillow_heif_installed env)) in
  let out := stdout (snd (run SCRIPT_DIR env f)) in
  image_files <> [] ->
  exists s,
    LSummaryCount s (length image_files) ∈ out /\
    count_lines is_converting_line out = length image_files /\
    count_lines is_converted_line out = s /\
    (count_lines is_error_line out + s = length image_files)%nat /\
    (s <= length image_files)%nat.
Proof.
  intros Hp Hf Hd f1 image_files out Hne.
  destruct (run_lines env f Hp Hf Hd Hne) as (t & lines & Hstd & _ & Hn & Hok & Hko & Hsc).
  destruct (summary_lines_counts t (length image_files)) as (S1 & S2 & S3 & _).
  destruct (heic_warning_counts (pillow_heif_installed env)
              (files_in SCRIPT_DIR f1 HEIC_FORMATS)) as (W1 & W2 & W3).
  exists (success_count t). subst out image_files f1. rewrite Hstd. clear Hstd.
  split.
  - rewrite !elem_of_app. right. right. apply list_elem_of_further.
    rewrite elem_of_app. right. unfold summary_lines.
    do 3 apply list_elem_of_further. apply list_elem_of_here.
  - rewrite !count_lines_app, !count_lines_cons, !count_lines_app.
    rewrite S1, S2, S3, W1, W2, W3. cbn. rewrite !Nat.add_0_r.
    split; [exact Hn|]. split; [exact Hok|]. split; [exact Hko|]. lia.
Qed.

(** The console of any run that reaches [main] with both folders: the
    banner, the warning about HEIC files if any, and lines that are not
    about HEIC files. *)
Lemma run_console_shape (env : Env) (f : gmap Path Node) :
  pillow_installed env = true ->
  folders_ok SCRIPT_DIR f = true ->
  discovery_ok SCRIPT_DIR (prepared SCRIPT_DIR f) = true ->
  let f1 := prepared SCRIPT_DIR f in
  let heic_files := files_in SCRIPT_DIR f1 HEIC_FORMATS in
  exists tail,
    stdout (snd (run SCRIPT_DIR env f)) =
      banner SCRIPT_DIR ++ heic_warning (pillow_heif_installed env) heic_files ++ tail /\
    Forall (fun l => is_heic_line l = false) tail.
Proof.
  intros Hp Hf Hd f1 heic_files.
  destruct (decide (files_in SCRIPT_DIR f1 (all_formats_of (pillow_heif_installed env)) = []))
    as [He | Hne].
  - unfold run. rewrite (script_pillow SCRIPT_DIR env _ Hp).
    destruct (main_spec SCRIPT_DIR (pillow_heif_installed env) (mkWorld f []) Hf Hd)
      as (w' & tail & Hrun & _ & Hstd & Htail).
    rewrite Hrun. cbn [snd fs stdout app] in *. exists tail. split; [exact Hstd|].
    destruct Htail as [(_ & -> & _) | (Hne & _)]; [repeat constructor | contradiction].
  - destruct (run_lines env f Hp Hf Hd Hne) as (t & lines & Hstd & Hshape & _).
    eexists. split; [exact Hstd|].
    constructor; [reflexivity|]. apply Forall_app. split.
    + eapply Forall_impl; [exact Hshape|]. intros l Hl. destruct l; try discriminate; reflexivity.
    + apply summary_lines_counts.
Qed.

(** A run that does not reach the warning prints nothing about HEIC
    files: Pillow is missing, or a folder cannot be created, or the input
    folder cannot be read. *)
Lemma run_no_heic_lines (env : Env) (f : gmap Path Node) :
  (pillow_installed env && folders_ok SCRIPT_DIR f
     && discovery_ok SCRIPT_DIR (prepared SCRIPT_DIR f)) = false ->
  Forall (fun l => is_heic_line l = false) (stdout (snd (run SCRIPT_DIR env f))).
Proof.
  intros H. unfold run.
  destruct (pillow_installed env) eqn:Hp.
  - rewrite (script_pillow SCRIPT_DIR env _ Hp).
    destruct (folders_ok SCRIPT_DIR f) eqn:Hf.
    + cbn [andb] in H.
      destruct (main_denied SCRIPT_DIR (pillow_heif_installed env) (mkWorld f []) Hf H)
        as (msg & Hrun).
      rewrite Hrun. cbn. repeat constructor.
    + destruct (main_blocked SCRIPT_DIR (pillow_heif_installed env) (mkWorld f []) Hf)
        as (cls & msg & w' & Hrun & Hstd & _).
      rewrite Hrun. cbn [snd]. rewrite Hstd. repeat constructor.
  - rewrite (script_no_pillow SCRIPT_DIR env _ Hp). repeat constructor.
Qed.

Lemma heic_warning_line_weaker (l : list Line) :
  Forall (fun x => is_heic_line x = false) l ->
  Forall (fun x => is_heic_warning x = false) l.
Proof.
  intros H. eapply Forall_impl; [exact H|].
  intros x Hx. destruct x; try reflexivity; discriminate.
Qed.

(** X10.  [heic_files] is any list without repetition of the regular files
    of the input folder whose names end in .heic or .heif, in any case of
    the letters.  The warning about HEIC files is printed exactly when
    Pillow is there, the two folders exist or can be created, the input
    folder can be read, [pillow_heif] is missing and [heic_files] is not
    empty; it is then printed with the length of [heic_files].  No run
    prints it twice, and no run prints more than two lines about HEIC
    files.  When [pillow_heif] is there and the run reaches the loop, a
    progress line names each of these files. *)
Theorem heic_warning_iff (env : Env) (f : gmap Path Node) (heic_files : list Path) :
  NoDup heic_files ->
  (forall p, p ∈ heic_files <-> heic_entry SCRIPT_DIR f p) ->
  let out := stdout (snd (run SCRIPT_DIR env f)) in
  let reaches_discovery :=
    (pillow_installed env = true /\ folders_ok SCRIPT_DIR f = true /\
     discovery_ok SCRIPT_DIR (prepared SCRIPT_DIR f) = true) in
  (forall n,
     LHeicWarning n ∈ out <->
     reaches_discovery /\ pillow_heif_installed env = false /\
     heic_files <> [] /\ n = length heic_files) /\
  (count_lines is_heic_warning out <= 1)%nat /\
  (count_lines is_heic_line out <= 2)%nat /\
  (reaches_discovery -> pillow_heif_installed env = true ->
   forall p, p ∈ heic_files -> PyPath.name p ∈ progress_names out).
Proof.
  intros Hnd Hiff out reaches_discovery.
  destruct (heic_files_length SCRIPT_DIR f heic_files Hnd Hiff) as [Hsame Hlen].
  set (hf := files_in SCRIPT_DIR (prepared SCRIPT_DIR f) HEIC_FORMATS) in *.
  assert (heic_files <> [] <-> hf <> []) as Hne.
  { destruct heic_files, hf; simpl in Hlen; split; intros H; congruence. }
  destruct (pillow_installed env && folders_ok SCRIPT_DIR f
              && discovery_ok SCRIPT_DIR (prepared SCRIPT_DIR f)) eqn:E.
  - apply andb_prop in E as [E Hd]. apply andb_prop in E as [Hp Hf].
    destruct (run_console_shape env f Hp Hf Hd) as (tail & Hstd & Htail).
    fold hf in Hstd.
    assert (forall n, LHeicWarning n ∉ tail) as Hnot.
    { intros n Hin. rewrite Forall_forall in Htail. specialize (Htail _ Hin). discriminate. }
    split; [|split; [|split]].
    + intros n. subst out. rewrite Hstd. clear Hstd.
      rewrite !elem_of_app. unfold heic_warning, banner. split.
      * intros [H | [H | H]].
        -- set_unfold. intuition discriminate.
        -- destruct (pillow_heif_installed env); destruct (bool_decide (hf = [])) eqn:Eh;
             cbn [negb andb] in H; set_unfold; try contradiction.
           apply bool_decide_eq_false in Eh.
           destruct H as [[= ->] | [H | H]]; [|discriminate | contradiction].
           split; [exact (conj Hp (conj Hf Hd))|].
           split; [reflexivity|]. split; [apply Hne, Eh | symmetry; exact Hlen].
        -- exfalso. exact (Hnot n H).
      * intros (_ & Hh & Hn & ->). right. left.
        rewrite Hh, (bool_decide_eq_false_2 _ (proj1 Hne Hn)), Hlen.
        apply list_elem_of_here.
    + subst out. rewrite Hstd.
      rewrite !count_lines_app, (count_lines_none _ _ (heic_warning_line_weaker _ Htail)).
      unfold heic_warning.
      destruct (negb (bool_decide (hf = [])) && negb (pillow_heif_installed env));
        cbn; lia.
    + subst out. rewrite Hstd.
      rewrite !count_lines_app, (count_lines_none _ _ Htail).
      unfold heic_warning.
      destruct (negb (bool_decide (hf = [])) && negb (pillow_heif_installed env));
        cbn; lia.
    + intros _ Hh p Hin. subst out.
      rewrite (run_progress_names SCRIPT_DIR env f Hp Hf Hd), Hh.
      apply list_elem_of_In, in_map, list_elem_of_In.
      apply Hsame in Hin. unfold hf in Hin.
      apply elem_of_files_in in Hin as (nm & data & -> & Hfile & Hext).
      apply elem_of_files_in. exists nm, data.
      split; [reflexivity|]. split; [exact Hfile|].
      unfold all_formats_of. apply elem_of_union. right. exact Hext.
  - pose proof (run_no_heic_lines env f E) as Hno. fold out in Hno.
    assert (~ reaches_discovery) as Hnr.
    { intros (Hp & Hf & Hd). rewrite Hp, Hf, Hd in E. discriminate. }
    split; [|split; [|split]].
    + intros n. split.
      * intros Hin. rewrite Forall_forall in Hno. specialize (Hno _ Hin). discriminate.
      * intros (Hr & _). contradiction.
    + rewrite (count_lines_none _ _ (heic_warning_line_weaker _ Hno)). lia.
    + rewrite (count_lines_none _ _ Hno). lia.
    + intros Hr. contradiction.
Qed.

(** The outcome of a run that finds no file. *)
Lemma run_no_files (env : Env) (f : gmap Path Node) :
  pillow_installed env = true ->
  folders_ok SCRIPT_DIR f = true ->
  discovery_ok SCRIPT_DIR (prepared SCRIPT_DIR f) = true ->
  let f1 := prepared SCRIPT_DIR f in
  let formats := all_formats_of (pillow_heif_installed env) in
  files_in SCRIPT_DIR f1 formats = [] ->
  run SCRIPT_DIR env f =
    (Ok tt,
     mkWorld f1
       (banner SCRIPT_DIR
          ++ heic_warning (pillow_heif_installed env) (files_in SCRIPT_DIR f1 HEIC_FORMATS)
          ++ [LNoImages IN; LSupportedFormats formats])).
Proof.
  intros Hp Hf Hd f1 formats He. unfold run.
  rewrite (script_pillow SCRIPT_DIR env _ Hp).
  destruct (main_spec SCRIPT_DIR (pillow_heif_installed env) (mkWorld f []) Hf Hd)
    as (w' & tail & Hrun & _ & Hstd & Htail).
  cbn [fs stdout app] in *.
  destruct Htail as [(_ & -> & Hfs) | (Hne & _)]; [|contradiction].
  rewrite Hrun. destruct w' as [f' o']. cbn [fs stdout] in *. subst. reflexivity.
Qed.

(** X11.  A run that finds no file to convert prints the banner, the warning
    about HEIC files if there are some without [pillow_heif], the notice
    that there are no images and the list of formats; it ends normally and
    writes nothing: the store is the initial one with the two folders. *)
Theorem nothing_to_convert (env : Env) (f : gmap Path Node) :
  pillow_installed env = true ->
  folders_ok SCRIPT_DIR f = true ->
  discovery_ok SCRIPT_DIR (prepared SCRIPT_DIR f) = true ->
  let f1 := prepared SCRIPT_DIR f in
  let formats := all_formats_of (pillow_heif_installed env) in
  files_in SCRIPT_DIR f1 formats = [] ->
  run SCRIPT_DIR env f =
    (Ok tt,
     mkWorld f1
       (banner SCRIPT_DIR
          ++ heic_warning (pillow_heif_installed env) (files_in SCRIPT_DIR f1 HEIC_FORMATS)
          ++ [LNoImages IN; LSupportedFormats formats])).
Proof. apply run_no_files. Qed.

End RunConsole.

Lemma run_outcome_counts_witness :
  exists s,
    LSummaryCount s 3 ∈ stdout (snd (run Demo.app Demo.all_installed Demo.fs_three)) /\
    count_lines is_converted_line
      (stdout (snd (run Demo.app Demo.all_installed Demo.fs_three))) = s /\
    (s <= 3)%nat.
Proof.
  destruct (run_outcome_counts Demo.app Demo.all_installed Demo.fs_three)
    as (s & Hin & _ & Hok & _ & Hle).
  - reflexivity.
  - vm_compute. reflexivity.
  - vm_compute. reflexivity.
  - vm_compute. discriminate.
  - assert (length (files_in Demo.app (prepared Demo.app Demo.fs_three)
                      (all_formats_of (pillow_heif_installed Demo.all_installed))) = 3%nat)
      as E by (vm_compute; reflexivity).
    rewrite E in Hin, Hle. exists s. auto.
Defined.

Lemma heic_warning_iff_witness :
  LHeicWarning 2 ∈ stdout (snd (run Demo.app Demo.no_heif Demo.fs_heic_mixed)) /\
  ~ (exists n, LHeicWarning n ∈
                 stdout (snd (run Demo.app Demo.all_installed Demo.fs_heic_mixed))) /\
  ~ (exists n, LHeicWarning n ∈
                 stdout (snd (@run Demo.demo_pillow Demo.no_access Demo.app Demo.no_heif
                                Demo.fs_heic_mixed))) /\
  "IMG.HEIC" ∈
    progress_names (stdout (snd (run Demo.app Demo.all_installed Demo.fs_heic_mixed))).
Proof.
  pose (heic_files := files_in Demo.app Demo.fs_heic_mixed HEIC_FORMATS).
  assert (length heic_files = 2%nat) as Hlen by (vm_compute; reflexivity).
  split; [|split; [|split]].
  - destruct (heic_warning_iff Demo.app Demo.no_heif Demo.fs_heic_mixed heic_files)
      as (Hiff & _).
    + apply NoDup_files_in.
    + intros p. apply heic_entry_files_in.
    + apply Hiff.
      split; [split; [reflexivity | split; vm_compute; reflexivity]|].
      split; [reflexivity|]. split; [vm_compute; discriminate | symmetry; exact Hlen].
  - destruct (heic_warning_iff Demo.app Demo.all_installed Demo.fs_heic_mixed heic_files)
      as (Hiff & _).
    + apply NoDup_files_in.
    + intros p. apply heic_entry_files_in.
    + intros [n Hin]. apply Hiff in Hin as (_ & Hh & _). vm_compute in Hh. discriminate.
  - destruct (@heic_warning_iff Demo.demo_pillow Demo.no_access Demo.app Demo.no_heif
                Demo.fs_heic_mixed heic_files)
      as (Hiff & _).
    + apply NoDup_files_in.
    + intros p. apply heic_entry_files_in.
    + intros [n Hin]. apply Hiff in Hin as ((_ & _ & Hd) & _). vm_compute in Hd. discriminate.
  - destruct (heic_warning_iff Demo.app Demo.all_installed Demo.fs_heic_mixed heic_files)
      as (_ & _ & _ & Hnames).
    + apply NoDup_files_in.
    + intros p. apply heic_entry_files_in.
    + apply (Hnames) with (p := Demo.inp "IMG.HEIC").
      * split; [reflexivity | split; vm_compute; reflexivity].
      * reflexivity.
      * apply list_elem_of_In. vm_compute. auto.
Defined.

Lemma nothing_to_convert_witness :
  run Demo.app Demo.all_installed Demo.fs_fresh =
  (Ok tt,
   mkWorld (prepared Demo.app Demo.fs_fresh)
     (banner Demo.app
        ++ heic_warning true (files_in Demo.app (prepared Demo.app Demo.fs_fresh) HEIC_FORMATS)
        ++ [LNoImages (INPUT_FOLDER Demo.app); LSupportedFormats (all_formats_of true)])).
Proof.
  refine (nothing_to_convert Demo.app Demo.all_installed Demo.fs_fresh _ _ _ _).
  - reflexivity.
  - vm_compute. reflexivity.
  - vm_compute. reflexivity.
  - vm_compute. reflexivity.
Defined.

Section RunStore.

Context `{PIL : Pillow} `{ACL : Access}.
Variable SCRIPT_DIR : Path.

Local Abbreviation IN := (INPUT_FOLDER SCRIPT_DIR).
Local Abbreviation OUT := (OUTPUT_FOLDER SCRIPT_DIR).
Local Abbreviation out_of := (output_file_of SCRIPT_DIR).

(** X12.  A run that cannot create its folders stops there: with Pillow
    installed it has printed the three lines of the title and nothing
    else, no file has had its turn, the exception of [mkdir] ends the
    script, and the store differs from the initial one at most by the input
    folder. *)
Theorem run_blocked (env : Env) (f : gmap Path Node) :
  pillow_installed env = true ->
  folders_ok SCRIPT_DIR f = false ->
  exists cls msg w',
    run SCRIPT_DIR env f = (Raise (Exception cls msg), w') /\
    stdout w' = [LRule; LTitle; LRule] /\
    progress_names (stdout w') = [] /\
    forall p, p <> IN -> fs w' !! p = f !! p.
Proof.
  intros Hp Hf. unfold run. rewrite (script_pillow SCRIPT_DIR env _ Hp).
  destruct (main_blocked SCRIPT_DIR (pillow_heif_installed env) (mkWorld f []) Hf)
    as (cls & msg & w' & Hrun & Hstd & Hfr).
  exists cls, msg, w'. cbn [fs stdout app] in *.
  split; [exact Hrun|]. split; [exact Hstd|]. split; [rewrite Hstd; reflexivity | exact Hfr].
Qed.

(** The store at the end of a run that reaches [main] with both folders. *)
Lemma run_store (env : Env) (f : gmap Path Node) :
  pillow_installed env = true ->
  folders_ok SCRIPT_DIR f = true ->
  discovery_ok SCRIPT_DIR (prepared SCRIPT_DIR f) = true ->
  let f1 := prepared SCRIPT_DIR f in
  let image_files :=
    files_in SCRIPT_DIR f1 (all_formats_of (pillow_heif_installed env)) in
  fs (snd (run SCRIPT_DIR env f)) = stores SCRIPT_DIR f1 image_files f1.
Proof.
  intros Hp Hf Hd f1 image_files.
  destruct (decide (image_files = [])) as [He | Hne].
  - unfold image_files in He. rewrite (run_no_files SCRIPT_DIR env f Hp Hf Hd He).
    fold image_files. fold f1. unfold image_files in *. rewrite He. reflexivity.
  - unfold run. rewrite (script_pillow SCRIPT_DIR env _ Hp).
    set (w3 := mkWorld f1 ([] ++ banner SCRIPT_DIR
                 ++ heic_warning (pillow_heif_installed env)
                      (files_in SCRIPT_DIR f1 HEIC_FORMATS)
                 ++ [LFound (length image_files)])).
    pose proof (convert_all_store SCRIPT_DIR f1 image_files (prepared_output SCRIPT_DIR f)
                  (files_in_input_files SCRIPT_DIR f1 _) (length image_files) 1%nat
                  (mkTotals 0 0 0) w3 (same_but_outputs_refl SCRIPT_DIR w3)) as Hst.
    destruct (convert_all_spec SCRIPT_DIR f1 image_files (prepared_output SCRIPT_DIR f)
                (files_in_input_files SCRIPT_DIR f1 _) (length image_files) 1%nat
                (mkTotals 0 0 0) w3 (same_but_outputs_refl SCRIPT_DIR w3))
      as (t & w4 & lines & Hloop & _).
    rewrite Hloop in Hst. cbn [snd] in Hst.
    rewrite (main_run SCRIPT_DIR (pillow_heif_installed env) (mkWorld f []) Hf Hd Hne t w4 Hloop).
    cbn [snd fs]. exact Hst.
Qed.

Lemma last_write_source (f0 : gmap Path Node) (files : list Path) (k : Path) (d : bytes) :
  last_write SCRIPT_DIR f0 files k = Some d ->
  exists p, p ∈ files /\ out_of p = k /\ effect_of SCRIPT_DIR f0 p = Some (k, d).
Proof.
  induction files as [|p files IH]; [discriminate|].
  cbn [last_write]. destruct (last_write SCRIPT_DIR f0 files k) as [d'|].
  - intros [= ->]. destruct (IH eq_refl) as (q & Hq & Ho & He).
    exists q. split; [apply list_elem_of_further, Hq | auto].
  - destruct (effect_of SCRIPT_DIR f0 p) as [[k' d']|] eqn:E; [|discriminate].
    destruct (decide (k' = k)) as [-> | Hne]; [|discriminate].
    intros [= ->]. exists p. split; [apply list_elem_of_here|].
    split; [|exact E].
    unfold effect_of in E. destruct (f0 !! p) as [[data|]|]; try discriminate.
    destruct (written (encode_policy data 85)); try discriminate.
    destruct (writable f0 (out_of p)); try discriminate.
    injection E as <- _. reflexivity.
Qed.

Lemma effect_of_converted (f0 : gmap Path Node) (p : Path) (d : bytes) :
  f0 !! OUT = Some Dir ->
  conv_outcome SCRIPT_DIR f0 p = Some d ->
  effect_of SCRIPT_DIR f0 p = Some (out_of p, d).
Proof.
  intros Hout. unfold conv_outcome, effect_of, writable.
  rewrite parent_output_file, Hout.
  destruct (f0 !! p) as [[data|]|]; try discriminate.
  destruct (f0 !! out_of p) as [[?|]|]; try discriminate;
    destruct (encode_policy data 85) as [d'|]; try discriminate;
    intros [= ->]; reflexivity.
Qed.

Lemma last_write_unique (f0 : gmap Path Node) (files : list Path) (p : Path) (d : bytes) :
  p ∈ files ->
  effect_of SCRIPT_DIR f0 p = Some (out_of p, d) ->
  (forall q, q ∈ files -> out_of q = out_of p -> q = p) ->
  last_write SCRIPT_DIR f0 files (out_of p) = Some d.
Proof.
  intros Hin He Huniq.
  destruct (last_write SCRIPT_DIR f0 files (out_of p)) as [d'|] eqn:E.
  - destruct (last_write_source f0 files _ d' E) as (q & Hq & Ho & He').
    rewrite (Huniq q Hq Ho) in He'. congruence.
  - exfalso. clear Huniq. induction files as [|q files IH].
    + apply elem_of_nil in Hin. exact Hin.
    + cbn [last_write] in E.
      destruct (last_write SCRIPT_DIR f0 files (out_of p)) as [?|] eqn:E'; [discriminate|].
      apply elem_of_cons in Hin as [<- | Hin]; [|exact (IH Hin eq_refl)].
      rewrite He in E. rewrite decide_True in E by reflexivity. discriminate.
Qed.

(** X13.  A run writes only at the output paths of the files it found: every
    other path holds at the end what the store with the two folders held,
    and a path that changed holds a regular file. *)
Theorem run_writes_only_outputs (env : Env) (f : gmap Path Node) (k : Path) :
  pillow_installed env = true ->
  folders_ok SCRIPT_DIR f = true ->
  let f1 := prepared SCRIPT_DIR f in
  let image_files :=
    files_in SCRIPT_DIR f1 (all_formats_of (pillow_heif_installed env)) in
  ((forall p, p ∈ image_files -> out_of p <> k) ->
     fs (snd (run SCRIPT_DIR env f)) !! k = f1 !! k) /\
  (fs (snd (run SCRIPT_DIR env f)) !! k <> f1 !! k ->
     exists p d, p ∈ image_files /\ out_of p = k /\
                 fs (snd (run SCRIPT_DIR env f)) !! k = Some (File d)).
Proof.
  intros Hp Hf f1 image_files.
  destruct (discovery_ok SCRIPT_DIR (prepared SCRIPT_DIR f)) eqn:Hd.
  - rewrite (run_store env f Hp Hf Hd). fold f1. fold image_files.
    rewrite stores_lookup.
    destruct (last_write SCRIPT_DIR f1 image_files k) as [d|] eqn:E.
    + destruct (last_write_source f1 image_files k d E) as (p & Hin & Ho & _).
      split.
      * intros H. exfalso. exact (H p Hin Ho).
      * intros _. exists p, d. auto.
    + split; [reflexivity | intros H; contradiction].
  - unfold run. rewrite (script_pillow SCRIPT_DIR env _ Hp).
    destruct (main_denied SCRIPT_DIR (pillow_heif_installed env) (mkWorld f []) Hf Hd)
      as (msg & Hrun).
    rewrite Hrun. cbn [snd fs]. fold f1.
    split; [reflexivity | intros H; contradiction].
Qed.

(** X14.  After a run, the output path of a converted file holds its WebP
    encoding, provided no other file found has the same output path. *)
Theorem run_output_present (env : Env) (f : gmap Path Node) (p : Path) (d : bytes) :
  pillow_installed env = true ->
  folders_ok SCRIPT_DIR f = true ->
  discovery_ok SCRIPT_DIR (prepared SCRIPT_DIR f) = true ->
  let f1 := prepared SCRIPT_DIR f in
  let image_files :=
    files_in SCRIPT_DIR f1 (all_formats_of (pillow_heif_installed env)) in
  p ∈ image_files ->
  conv_outcome SCRIPT_DIR f1 p = Some d ->
  (forall q, q ∈ image_files -> out_of q = out_of p -> q = p) ->
  fs (snd (run SCRIPT_DIR env f)) !! out_of p = Some (File d).
Proof.
  intros Hp Hf Hd f1 image_files Hin Hc Huniq.
  rewrite (run_store env f Hp Hf Hd). fold f1. fold image_files.
  rewrite stores_lookup.
  rewrite (last_write_unique f1 image_files p d Hin
             (effect_of_converted f1 p d (prepared_output SCRIPT_DIR f) Hc) Huniq).
  reflexivity.
Qed.

End RunStore.

Lemma run_blocked_witness :
  exists cls msg w',
    run Demo.app Demo.all_installed Demo.fs_blocked = (Raise (Exception cls msg), w') /\
    stdout w' = [LRule; LTitle; LRule].
Proof.
  destruct (run_blocked Demo.app Demo.all_installed Demo.fs_blocked)
    as (cls & msg & w' & Hrun & Hstd & _).
  - reflexivity.
  - vm_compute. reflexivity.
  - exists cls, msg, w'. auto.
Defined.

Lemma run_writes_only_outputs_witness :
  fs (snd (run Demo.app Demo.no_heif Demo.fs_heic)) !! Demo.outp "a.webp" = None.
Proof.
  rewrite (proj1 (run_writes_only_outputs Demo.app Demo.no_heif Demo.fs_heic
                    (Demo.outp "a.webp") eq_refl ltac:(vm_compute; reflexivity))).
  - vm_compute. reflexivity.
  - intros p Hin.
    assert (files_in Demo.app (prepared Demo.app Demo.fs_heic)
              (all_formats_of (pillow_heif_installed Demo.no_heif)) = [Demo.inp "b.jpg"])
      as E by (vm_compute; reflexivity).
    rewrite E in Hin. apply list_elem_of_singleton in Hin. subst p.
    vm_compute. discriminate.
Defined.

Lemma run_output_present_witness :
  fs (snd (run Demo.app Demo.no_heif Demo.fs_heic)) !! Demo.outp "b.webp" =
  Some (File [Byte.x01; Byte.x55; Byte.x00]).
Proof.
  refine (run_output_present Demo.app Demo.no_heif Demo.fs_heic (Demo.inp "b.jpg")
            [Byte.x01; Byte.x55; Byte.x00] eq_refl _ _ _ _ _).
  - vm_compute. reflexivity.
  - vm_compute. reflexivity.
  - assert (files_in Demo.app (prepared Demo.app Demo.fs_heic)
              (all_formats_of (pillow_heif_installed Demo.no_heif)) = [Demo.inp "b.jpg"])
      as -> by (vm_compute; reflexivity).
    apply list_elem_of_here.
  - vm_compute. reflexivity.
  - assert (files_in Demo.app (prepared Demo.app Demo.fs_heic)
              (all_formats_of (pillow_heif_installed Demo.no_heif)) = [Demo.inp "b.jpg"])
      as -> by (vm_compute; reflexivity).
    intros q Hq _. apply list_elem_of_singleton in Hq. exact Hq.
Defined.

Section Progress.

Context `{PIL : Pillow} `{ACL : Access}.
Variable SCRIPT_DIR : Path.

Local Abbreviation IN := (INPUT_FOLDER SCRIPT_DIR).
Local Abbreviation OUT := (OUTPUT_FOLDER SCRIPT_DIR).

(** The progress lines of the loop started at index [i]. *)
Lemma convert_all_progress (f0 : gmap Path Node) (files : list Path) :
  f0 !! OUT = Some Dir ->
  Forall (input_file_of SCRIPT_DIR f0) files ->
  forall (total i : nat) (t : Totals) (w : World),
    same_but_outputs SCRIPT_DIR f0 w ->
    exists t' w' lines,
      convert_all SCRIPT_DIR total i files t w = (Ok t', w') /\
      stdout w' = stdout w ++ lines /\
      List.filter is_converting_line lines =
        imap (fun k p => LConverting (i + k) total (PyPath.name p)) files.
Proof.
  intros Hout Hfiles. induction Hfiles as [|p files [Hc Hf] _ IH];
    intros total i t w Hw.
  - exists t, w, []. rewrite app_nil_r. auto.
  - unfold OS.is_file in Hf.
    destruct (f0 !! p) as [[data|]|] eqn:E0; try discriminate.
    assert (fs w !! p = Some (File data)) as Hin.
    { destruct Hw as [H1 _]. rewrite H1; [exact E0 | apply input_not_output_entry, Hc]. }
    assert (fs w !! OUT = Some Dir) as Hout'.
    { destruct Hw as [_ H2]. apply H2, Hout. }
    destruct (convert_one_spec SCRIPT_DIR total i p t w data Hin Hout')
      as (t1 & w1 & Hrun & Hat & _ & Hres).
    pose proof (same_but_outputs_step SCRIPT_DIR f0 w w1 p Hw Hat) as Hw1.
    destruct (IH total (S i) t1 w1 Hw1) as (t' & w' & lines & Hrun' & Hstd & Hprog).
    cbn [convert_all]. erewrite bind_ok by exact Hrun.
    assert (imap (fun k q => LConverting (i + k) total (PyPath.name q)) (p :: files) =
            LConverting i total (PyPath.name p) :: List.filter is_converting_line lines)
      as ->.
    { rewrite imap_cons, Nat.add_0_r, Hprog. f_equal.
      apply imap_ext. intros k q _. cbn. rewrite Nat.add_succ_r. reflexivity. }
    destruct (conv_outcome SCRIPT_DIR (fs w) p) as [d|].
    + destruct Hres as (_ & _ & _ & Hstd1).
      eexists t', w', (_ :: _ :: lines).
      split; [exact Hrun'|].
      split; [rewrite Hstd, Hstd1, <- app_assoc; reflexivity | reflexivity].
    + destruct Hres as (_ & _ & msg & Hstd1).
      eexists t', w', (_ :: _ :: _ :: lines).
      split; [exact Hrun'|].
      split; [rewrite Hstd, Hstd1, <- app_assoc; reflexivity | reflexivity].
Qed.

(** X15.  The progress lines of a run are, in the order of the files found, one
    line per file with the index of the file counted from 1, the number of
    files found, and the name of the file. *)
Theorem progress_indices (env : Env) (f : gmap Path Node) :
  pillow_installed env = true ->
  folders_ok SCRIPT_DIR f = true ->
  discovery_ok SCRIPT_DIR (prepared SCRIPT_DIR f) = true ->
  let f1 := prepared SCRIPT_DIR f in
  let image_files :=
    files_in SCRIPT_DIR f1 (all_formats_of (pillow_heif_installed env)) in
  List.filter is_converting_line (stdout (snd (run SCRIPT_DIR env f))) =
  imap (fun k p => LConverting (S k) (length image_files) (PyPath.name p)) image_files.
Proof.
  intros Hp Hf Hd f1 image_files.
  assert (forall h l, List.filter is_converting_line (heic_warning h l) = []) as Hwarn.
  { intros h l. unfold heic_warning.
    destruct (negb (bool_decide (l = [])) && negb h); reflexivity. }
  destruct (decide (image_files = [])) as [He | Hne].
  - unfold image_files in He. rewrite (run_no_files SCRIPT_DIR env f Hp Hf Hd He).
    fold f1. fold image_files. unfold image_files in *. rewrite He. cbn [snd stdout].
    rewrite !List.filter_app, Hwarn. reflexivity.
  - unfold run. rewrite (script_pillow SCRIPT_DIR env _ Hp).
    set (w3 := mkWorld f1 ([] ++ banner SCRIPT_DIR
                 ++ heic_warning (pillow_heif_installed env)
                      (files_in SCRIPT_DIR f1 HEIC_FORMATS)
                 ++ [LFound (length image_files)])).
    destruct (convert_all_progress f1 image_files (prepared_output SCRIPT_DIR f)
                (files_in_input_files SCRIPT_DIR f1 _) (length image_files) 1%nat
                (mkTotals 0 0 0) w3 (same_but_outputs_refl SCRIPT_DIR w3))
      as (t & w4 & lines & Hloop & Hstd & Hprog).
    rewrite (main_run SCRIPT_DIR (pillow_heif_installed env) (mkWorld f []) Hf Hd Hne t w4 Hloop).
    cbn [snd stdout]. rewrite Hstd. unfold w3. cbn [stdout app].
    assert (forall n, List.filter is_converting_line (summary_lines SCRIPT_DIR t n) = [])
      as Hsum.
    { intros n. unfold summary_lines.
      destruct (Qpositive (total_input_size t)); reflexivity. }
    rewrite !List.filter_app, Hwarn, Hprog, Hsum.
    rewrite app_nil_r. reflexivity.
Qed.

End Progress.

Lemma progress_indices_witness :
  List.filter is_converting_line (stdout (snd (run Demo.app Demo.no_heif Demo.fs_heic))) =
  [LConverting 1 1 "b.jpg"].
Proof.
  rewrite (progress_indices Demo.app Demo.no_heif Demo.fs_heic eq_refl
             ltac:(vm_compute; reflexivity) ltac:(vm_compute; reflexivity)).
  vm_compute. reflexivity.
Defined.
